(** * Silverkite diagnostics: component decomposition and component plots

    A shallow embedding of [greykite/sklearn/estimator/silverkite_diagnostics.py]
    (class [SilverkiteDiagnostics]): [plot_components],
    [get_silverkite_components], [group_silverkite_seas_components] and
    [plot_silverkite_components].

    Data frames are lists of named columns in column order; numeric cells are
    values of an arithmetic [Arith V], whose instance [float64_arith] is the
    IEEE binary64 arithmetic numpy computes with and whose instance [Qc_arith]
    is exact rational arithmetic.  Python exceptions are the [Raise] branch of
    [Result]; warnings are returned next to the figure. *)

From Stdlib Require Import ZArith List String Ascii Bool Lia Permutation.
From Stdlib Require Import QArith Qcanon.
From Stdlib Require Import Floats.PrimFloat.
Import ListNotations.

Local Close Scope Qc_scope.
Local Close Scope Q_scope.
Local Open Scope nat_scope.
Local Open Scope string_scope.
Local Open Scope list_scope.

(** ** Numeric cells *)

(** The operations the module uses on numeric cells.  [nan_to_zero] and
    [isna] serve the NaN-skipping reductions ([DataFrame.sum], [np.nanmean]);
    [truthy] is Python's [bool(x)]; [vdiv_count] divides a sum by a count;
    [is_one] is the comparison [x == 1]. *)
Class Arith (V : Type) := {
  vzero : V;
  vadd : V -> V -> V;
  vsub : V -> V -> V;
  vmul : V -> V -> V;
  vdiv_count : V -> nat -> V;
  isna : V -> bool;
  truthy : V -> bool;
  is_one : V -> bool
}.

(** Arithmetic without rounding: addition is commutative and associative and
    subtraction undoes it. *)
Class ExactArith (V : Type) {A : Arith V} : Prop := {
  vadd_comm : forall x y : V, vadd x y = vadd y x;
  vadd_assoc : forall x y z : V, vadd x (vadd y z) = vadd (vadd x y) z;
  vadd_vsub : forall s t : V, vadd s (vsub t s) = t
}.

(** A count as a float64 (exact below 2^53). *)
Fixpoint float_of_nat (n : nat) : float :=
  match n with
  | O => 0%float
  | S k => PrimFloat.add (float_of_nat k) 1%float
  end.

(** numpy's float64. *)
#[export] Instance float64_arith : Arith float := {
  vzero := 0%float;
  vadd := PrimFloat.add;
  vsub := PrimFloat.sub;
  vmul := PrimFloat.mul;
  vdiv_count := fun s n => PrimFloat.div s (float_of_nat n);
  isna := fun x => negb (PrimFloat.eqb x x);
  truthy := fun x => negb (PrimFloat.eqb x 0%float);
  is_one := fun x => PrimFloat.eqb x 1%float
}.

(** Exact rationals. *)
#[export] Instance Qc_arith : Arith Qc := {
  vzero := Q2Qc 0;
  vadd := Qcplus;
  vsub := Qcminus;
  vmul := Qcmult;
  vdiv_count := fun s n => Qcdiv s (Q2Qc (inject_Z (Z.of_nat n)));
  isna := fun _ => false;
  truthy := fun x => if Qc_eq_dec x (Q2Qc 0) then false else true;
  is_one := fun x => if Qc_eq_dec x (Q2Qc 1) then true else false
}.

#[export] Instance Qc_exact : ExactArith Qc.
Proof.
  split; intros; simpl.
  - apply Qcplus_comm.
  - apply Qcplus_assoc.
  - unfold Qcminus. rewrite (Qcplus_comm t), Qcplus_assoc, Qcplus_opp_r.
    apply Qcplus_0_l.
Qed.

(** ** Python values and outcomes *)

Inductive Error :=
| ValueError (msg : string)
| KeyError (key : string)
| TypeError (msg : string)
| ZeroDivisionError
| NotImplementedError (msg : string).

Inductive Result (A : Type) :=
| Ok (a : A)
| Raise (e : Error).
Arguments Ok {A} a.
Arguments Raise {A} e.

Definition bind {A B : Type} (r : Result A) (k : A -> Result B) : Result B :=
  match r with
  | Ok a => k a
  | Raise e => Raise e
  end.

Notation "x <- r ;; k" := (bind r (fun x => k))
  (at level 61, r at next level, right associativity).

(** [sub in s] on Python strings. *)
Fixpoint str_contains (sub s : string) : bool :=
  if String.prefix sub s then true
  else match s with
       | EmptyString => false
       | String _ rest => str_contains sub rest
       end.

Definition mem (x : string) (l : list string) : bool :=
  existsb (String.eqb x) l.

(** ** Data frames *)

Section Frames.

Context {V : Type} {A : Arith V}.

(** A numeric frame ([feature_df], [x_mat]): the length of the index and the
    named columns, in column order. *)
Record FeatureFrame := {
  f_nrows : nat;
  f_cols : list (string * list V)
}.

Definition wf_frame (f : FeatureFrame) : Prop :=
  Forall (fun c => List.length (snd c) = f_nrows f) (f_cols f).

(** [df.empty]: some axis has length zero. *)
Definition frame_empty (f : FeatureFrame) : bool :=
  (f_nrows f =? 0)%nat || match f_cols f with [] => true | _ => false end.

Definition frame_columns (f : FeatureFrame) : list string := map fst (f_cols f).

(** [df[names]]: for each requested label, every column carrying it. *)
Definition select_cols {S : Type} (cols : list (string * S)) (names : list string)
  : list (string * S) :=
  flat_map (fun n => filter (fun c => String.eqb (fst c) n) cols) names.

Definition nan_to_zero (x : V) : V := if isna x then vzero else x.

Definition vadd_rows (acc col : list V) : list V :=
  map (fun p => vadd (fst p) (snd p)) (combine acc col).

(** [df.sum(axis=1)] over the given columns: NaN cells count as zero. *)
Definition sum_axis1 (nrows : nat) (cols : list (string * list V)) : list V :=
  fold_left (fun acc c => vadd_rows acc (map nan_to_zero (snd c)))
            cols (repeat vzero nrows).

(** Elementwise difference of two arrays of one length. *)
Definition vsub_rows (xs ys : list V) : list V :=
  map (fun p => vsub (fst p) (snd p)) (combine xs ys).

(** Columns of a components table: timestamps (nanoseconds since the epoch),
    numbers, or Python integers (the 0/1 changepoint indicator, grouping
    keys). *)
Inductive Series :=
| TimeS (ts : list Z)
| NumS (vs : list V)
| IntS (ns : list Z).

Definition Table := list (string * Series).

Definition table_columns (t : Table) : list string := map fst t.

(** [t[name] = s]: replaces the data of every column labelled [name], or
    appends a new last column. *)
Definition set_col (name : string) (s : Series) (t : Table) : Table :=
  if mem name (table_columns t)
  then map (fun c => if String.eqb (fst c) name then (fst c, s) else c) t
  else t ++ [(name, s)].

(** [t.drop(name, axis=1)]. *)
Definition drop_col (name : string) (t : Table) : Table :=
  filter (fun c => negb (String.eqb (fst c) name)) t.

Definition lookup_col (name : string) (t : Table) : option Series :=
  match filter (fun c => String.eqb (fst c) name) t with
  | c :: _ => Some (snd c)
  | [] => None
  end.

(** The input [df] of [get_silverkite_components], restricted to what the
    function reads: its row count and the columns [time_col] and
    [value_col]. *)
Record Dataset := {
  d_nrows : nat;
  d_time : list Z;
  d_value : list V
}.

Definition wf_dataset (d : Dataset) : Prop :=
  List.length (d_time d) = d_nrows d /\ List.length (d_value d) = d_nrows d.

End Frames.

Arguments FeatureFrame V : clear implicits.
Arguments Dataset V : clear implicits.
Arguments Series V : clear implicits.
Arguments Table V : clear implicits.

(** ** Collaborators and configuration *)

(** The value of a member of [SilverkiteComponentsEnum]: the time feature to
    group by, and the axis labels; [ylabel] is also the pattern that selects
    the member's columns. *)
Record SilverkiteComponent := {
  groupby_time_feature : string;
  xlabel : string;
  ylabel : string
}.

Definition nonempty {X : Type} (l : list X) : bool :=
  match l with [] => false | _ => true end.

Section Silverkite.

Context {V : Type} {A : Arith V}.

(** [re_search p s] is the truth value of [re.search(p, s)]. *)
Variable re_search : string -> string -> bool.

(** The patterns of [greykite.common.constants]. *)
Variables TREND_REGEX SEASONALITY_REGEX LAG_REGEX EVENT_REGEX : string.

(** The members of [self._silverkite_components_enum], in definition order. *)
Variable components_enum : list (string * SilverkiteComponent).

(** [get_trend_changepoint_dates_from_cols] of the changepoint utilities. *)
Variable get_trend_changepoint_dates_from_cols : list string -> list Z.

(** [pd.to_datetime] on a numeric cell. *)
Variable num_to_datetime : V -> Z.

(** Modelled from the spec: [get_pattern_cols] of
    [greykite.common.python_utils] is not part of this module.  It keeps, in
    order, the names that match [pos_pattern] and do not match
    [neg_pattern]; without a [neg_pattern] nothing is excluded. *)
Definition get_pattern_cols (cols : list string) (pos_pattern : string)
    (neg_pattern : option string) : list string :=
  filter (fun c =>
            re_search pos_pattern c
            && negb (match neg_pattern with
                     | Some p => re_search p c
                     | None => false
                     end))
         cols.

(** [feature_df[cols].sum(axis=1)] *)
Definition sum_selected (feature_df : FeatureFrame V) (cols : list string) : Series V :=
  NumS (sum_axis1 (f_nrows feature_df) (select_cols (f_cols feature_df) cols)).

Definition trend_cols_of (feature_cols : list string) : list string :=
  get_pattern_cols feature_cols TREND_REGEX
                   (Some (SEASONALITY_REGEX ++ "|" ++ LAG_REGEX)%string).

Definition lag_cols_of (feature_cols : list string) : list string :=
  get_pattern_cols feature_cols LAG_REGEX None.

Definition ar_cols_of (value_col : string) (lag_cols : list string) : list string :=
  filter (fun lag_col => str_contains value_col lag_col) lag_cols.

Definition lagged_regressor_cols_of (value_col : string) (lag_cols : list string)
  : list string :=
  filter (fun lag_col => negb (str_contains value_col lag_col)) lag_cols.

(** gets trend (this includes interaction terms) *)
Definition add_trend (feature_df : FeatureFrame V) (components : Table V) : Table V :=
  let trend_cols := trend_cols_of (frame_columns feature_df) in
  if nonempty trend_cols
  then set_col "trend" (sum_selected feature_df trend_cols) components
  else components.

(** gets lagged terms *)
Definition add_lags (value_col : string) (feature_df : FeatureFrame V)
    (components : Table V) : Table V :=
  let lag_cols := lag_cols_of (frame_columns feature_df) in
  if nonempty lag_cols then
    let ar_cols := ar_cols_of value_col lag_cols in
    let components :=
      if nonempty ar_cols
      then set_col "autoregression" (sum_selected feature_df ar_cols) components
      else components in
    let lagged_regressor_cols := lagged_regressor_cols_of value_col lag_cols in
    if nonempty lagged_regressor_cols
    then set_col "lagged_regressor"
                 (sum_selected feature_df lagged_regressor_cols) components
    else components
  else components.

(** One iteration of the loop over the seasonality members. *)
Definition add_seasonality (feature_df : FeatureFrame V) (seas_cols : list string)
    (components : Table V) (member : string * SilverkiteComponent) : Table V :=
  let seas := fst member in
  let seas_pattern := ylabel (snd member) in
  let seas_pattern_cols := get_pattern_cols seas_cols seas_pattern None in
  if nonempty seas_pattern_cols
  then set_col seas (sum_selected feature_df seas_pattern_cols) components
  else components.

(** gets seasonalities *)
Definition add_seasonalities (feature_df : FeatureFrame V) (components : Table V)
  : Table V :=
  let seas_cols := get_pattern_cols (frame_columns feature_df) SEASONALITY_REGEX None in
  fold_left (add_seasonality feature_df seas_cols) components_enum components.

(** gets events (holidays for now) *)
Definition add_events (feature_df : FeatureFrame V) (components : Table V) : Table V :=
  let event_cols := get_pattern_cols (frame_columns feature_df) EVENT_REGEX None in
  if nonempty event_cols
  then set_col "events" (sum_selected feature_df event_cols) components
  else components.

(** calculates residuals *)
Definition add_residual (df : Dataset V) (feature_df : FeatureFrame V)
    (components : Table V) : Table V :=
  set_col "residual"
          (NumS (vsub_rows (d_value df)
                           (sum_axis1 (f_nrows feature_df) (f_cols feature_df))))
          components.

Definition to_datetime (s : Series V) : list Z :=
  match s with
  | TimeS ts => ts
  | NumS vs => map num_to_datetime vs
  | IntS ns => ns
  end.

(** gets trend changepoints; keeps this column as the last column *)
Definition add_changepoints (time_col : string) (feature_df : FeatureFrame V)
    (components : Table V) : Table V :=
  let trend_cols := trend_cols_of (frame_columns feature_df) in
  if nonempty trend_cols then
    let changepoint_dates := get_trend_changepoint_dates_from_cols trend_cols in
    if nonempty changepoint_dates then
      let ts := match lookup_col time_col components with
                | Some s => to_datetime s
                | None => []
                end in
      let changepoints :=
        map (fun t => if existsb (Z.eqb t) changepoint_dates then 1%Z else 0%Z) ts in
      set_col "trend_changepoints" (IntS changepoints) components
    else components
  else components.

(** The table built once the input checks have passed. *)
Definition build_components (df : Dataset V) (time_col value_col : string)
    (feature_df : FeatureFrame V) : Table V :=
  let components := [(time_col, TimeS (d_time df)); (value_col, NumS (d_value df))] in
  let components := add_trend feature_df components in
  let components := add_lags value_col feature_df components in
  let components := add_seasonalities feature_df components in
  let components := add_events feature_df components in
  let components := add_residual df feature_df components in
  add_changepoints time_col feature_df components.

Definition get_silverkite_components (df : Dataset V) (time_col value_col : string)
    (feature_df : option (FeatureFrame V)) : Result (Table V) :=
  match feature_df with
  | None => Raise (ValueError "feature_df must be non-empty")
  | Some f =>
      if frame_empty f then Raise (ValueError "feature_df must be non-empty")
      else if negb (d_nrows df =? f_nrows f)%nat
      then Raise (ValueError "df and feature_df must have same number of rows.")
      else Ok (build_components df time_col value_col f)
  end.

End Silverkite.

(** ** Regrouping a seasonality onto its time feature *)

Section Regroup.

Context {V : Type} {A : Arith V}.

Variable components_enum : list (string * SilverkiteComponent).

(** The value of a time feature (hour of day, day of week, ...) at a
    timestamp, from [greykite.common.viz.timeseries_plotting]. *)
Variable time_feature : string -> Z -> Z.

Variable num_to_datetime : V -> Z.

(** [self._silverkite_components_enum[seas]] *)
Definition enum_lookup (seas : string) : option SilverkiteComponent :=
  match filter (fun m => String.eqb (fst m) seas) components_enum with
  | m :: _ => Some (snd m)
  | [] => None
  end.

(** [np.nanmean]: NaN cells are replaced by zero for the sum and left out of
    the count. *)
Definition nanmean (vs : list V) : V :=
  let cnt := List.length (filter (fun v => negb (isna v)) vs) in
  let tot := fold_left vadd (map nan_to_zero vs) vzero in
  vdiv_count tot cnt.

Definition grouping_func (grp : list V) : V := nanmean grp.

(** Adds a row to the group of its key; groups are kept in increasing key
    order and each group keeps its rows in arrival order. *)
Fixpoint insert_group (k : Z) (v : V) (gs : list (Z * list V)) : list (Z * list V) :=
  match gs with
  | [] => [(k, [v])]
  | (k', vs) :: rest =>
      if (k <? k')%Z then (k, [v]) :: gs
      else if (k =? k')%Z then (k', vs ++ [v]) :: rest
      else (k', vs) :: insert_group k v rest
  end.

(** Modelled from the spec: [add_groupby_column] and [grouping_evaluation]
    of [greykite.common.viz.timeseries_plotting] are not part of this module.
    The rows are grouped by the derived time feature and each group is
    reduced by the grouping function; as [DataFrame.groupby] does, the groups
    come out in increasing key order. *)
Definition group_rows (rows : list (Z * V)) : list (Z * list V) :=
  fold_left (fun gs r => insert_group (fst r) (snd r) gs) rows [].

Definition grouping_evaluation (rows : list (Z * V)) (func : list V -> V)
  : list (Z * V) :=
  map (fun g => (fst g, func (snd g))) (group_rows rows).

Definition rename_col (old new : string) (t : Table V) : Table V :=
  map (fun c => if String.eqb (fst c) old then (new, snd c) else c) t.

Definition group_silverkite_seas_components (df : Table V) : Result (Table V) :=
  match df with
  | [(time_col, times); (seas, values)] =>
      match enum_lookup seas with
      | None => Raise (KeyError seas)
      | Some member =>
          match values with
          | NumS vs =>
              let groupby_col := groupby_time_feature member in
              let keys := map (time_feature groupby_col)
                              (to_datetime num_to_datetime times) in
              let grouped := grouping_evaluation (combine keys vs) grouping_func in
              let grouped_df :=
                [(groupby_col, IntS (map fst grouped));
                 (ylabel member, NumS (map snd grouped))] in
              Ok (rename_col groupby_col (xlabel member) grouped_df)
          | _ => Raise (TypeError "the seasonality column is not numeric")
          end
      end
  | _ => Raise (ValueError "expected the two columns time_col, seas")
  end.

End Regroup.

(** ** The component plot *)

Section Plot.

Context {V : Type} {A : Arith V}.

Variable components_enum : list (string * SilverkiteComponent).
Variable time_feature : string -> Z -> Z.
Variable num_to_datetime : V -> Z.

Inductive Cell :=
| CTime (t : Z)
| CNum (v : V)
| CInt (n : Z).

Definition cells (s : Series V) : list Cell :=
  match s with
  | TimeS ts => map CTime ts
  | NumS vs => map CNum vs
  | IntS ns => map CInt ns
  end.

(** [s == 1], elementwise. *)
Definition equals_one (s : Series V) : list bool :=
  match s with
  | TimeS ts => map (fun _ => false) ts
  | NumS vs => map is_one vs
  | IntS ns => map (Z.eqb 1) ns
  end.

(** One subplot: the line trace appended at [p_row] and the titles of its
    axes. *)
Record Panel := {
  p_row : nat;
  p_name : string;
  p_xlabel : string;
  p_ylabel : string;
  p_x : list (Series V);
  p_y : list (Series V)
}.

(** A dashed vertical line at a trend changepoint.  Its vertical extent (the
    minimum and maximum of the trend column) is not represented. *)
Record Marker := {
  m_row : nat;
  m_x : Cell;
  m_showlegend : bool
}.

Record Figure := {
  fig_rows : nat;
  fig_title : string;
  fig_height : nat;
  fig_panels : list Panel;
  fig_markers : list Marker
}.

Inductive Warning :=
| ComponentsNotSpecified (names_removed : list string).

(** The names to plot and the warning, lines 372-385.  [columns] are the
    columns left after the changepoint column is dropped. *)
Definition select_names (columns : list string) (value_col : string)
    (names : option (list string)) : Result (list string * list Warning) :=
  match names with
  | None => Ok (tl columns, [])
  | Some names =>
      let names_kept := filter (fun component => mem component names) columns in
      let names_removed :=
        nodup string_dec (filter (fun n => negb (mem n columns)) names) in
      if negb (nonempty names_kept) then
        Raise (ValueError
                 "None of the provided components have been specified in the model.")
      else
        let warnings :=
          if nonempty names_removed
          then [ComponentsNotSpecified names_removed] else [] in
        let names_kept :=
          match names_kept with
          | first :: _ =>
              if String.eqb first value_col then names_kept
              else value_col :: names_kept
          | [] => names_kept
          end in
        Ok (names_kept, warnings)
  end.

(** [components[[time_col, name]]]: a label that is not a column is a
    [KeyError]. *)
Definition getitem_cols (components : Table V) (names : list string)
  : Result (Table V) :=
  match filter (fun n => negb (mem n (table_columns components))) names with
  | [] => Ok (select_cols components names)
  | missing :: _ => Raise (KeyError missing)
  end.

(** The body of the loop over [names_kept]. *)
Definition render_panel (components : Table V) (time_col : string) (ind : nat)
    (name : string) : Result Panel :=
  df <- getitem_cols components [time_col; name] ;;
  df <- (if str_contains "SEASONALITY" name
         then group_silverkite_seas_components components_enum time_feature
                                               num_to_datetime df
         else Ok df) ;;
  match table_columns df with
  | [xlabel; ylabel] =>
      Ok {| p_row := ind + 1;
            p_name := name;
            p_xlabel := xlabel;
            p_ylabel := ylabel;
            p_x := map snd (filter (fun c => String.eqb (fst c) xlabel) df);
            p_y := map snd (filter (fun c => String.eqb (fst c) ylabel) df) |}
  | _ => Raise (ValueError "expected the two columns xlabel, ylabel")
  end.

Fixpoint render_panels (components : Table V) (time_col : string) (ind : nat)
    (names_kept : list string) : Result (list Panel) :=
  match names_kept with
  | [] => Ok []
  | name :: rest =>
      p <- render_panel components time_col ind name ;;
      ps <- render_panels components time_col (S ind) rest ;;
      Ok (p :: ps)
  end.

(** [l.index(x)] for an [x] in [l]. *)
Fixpoint index_of (x : string) (l : list string) : nat :=
  match l with
  | [] => 0
  | y :: rest => if String.eqb y x then 0 else S (index_of x rest)
  end.

Fixpoint changepoint_markers (row : nat) (first : bool) (cps : list Cell)
  : list Marker :=
  match cps with
  | [] => []
  | cp :: rest =>
      {| m_row := row; m_x := cp; m_showlegend := first |}
        :: changepoint_markers row false rest
  end.

Definition changepoint_cells (components : Table V) (time_col : string) : list Cell :=
  match lookup_col time_col components, lookup_col "trend_changepoints" components with
  | Some times, Some flags =>
      map fst (filter snd (combine (cells times) (equals_one flags)))
  | _, _ => []
  end.

(** The body of [plot_silverkite_components] once [time_col] and [value_col]
    have been read off the table. *)
Definition plot_with (time_col value_col : string) (components : Table V)
    (names : option (list string)) (title : option string)
  : Result (Figure * list Warning) :=
  let has_changepoints := mem "trend_changepoints" (table_columns components) in
  let trend_changepoints :=
    if has_changepoints then Some (changepoint_cells components time_col)
    else None in
  let components :=
    if has_changepoints then drop_col "trend_changepoints" components
    else components in
  sel <- select_names (table_columns components) value_col names ;;
  let names_kept := fst sel in
  let num_rows := List.length names_kept in
  if (num_rows =? 0)%nat then Raise ZeroDivisionError
  else
    let title := match title with Some t => t | None => "Component plots" end in
    panels <- render_panels components time_col 0 names_kept ;;
    let markers :=
      match trend_changepoints with
      | Some cps =>
          if mem "trend" names_kept
          then changepoint_markers (index_of "trend" names_kept + 1) true cps
          else []
      | None => []
      end in
    Ok ({| fig_rows := num_rows;
           fig_title := title;
           fig_height := 350 * num_rows;
           fig_panels := panels;
           fig_markers := markers |},
        snd sel).

(** [time_col, value_col = components.columns[:2]] and the rest. *)
Definition plot_silverkite_components (components : Table V)
    (names : option (list string)) (title : option string)
  : Result (Figure * list Warning) :=
  match firstn 2 (table_columns components) with
  | [time_col; value_col] => plot_with time_col value_col components names title
  | _ => Raise (ValueError "not enough values to unpack (expected 2)")
  end.

End Plot.

Arguments Panel V : clear implicits.
Arguments Figure V : clear implicits.
Arguments Cell V : clear implicits.
Arguments Marker V : clear implicits.

(** ** The diagnostics object and [plot_components] *)

Section Diagnostics.

Context {V : Type} {A : Arith V}.

Variable re_search : string -> string -> bool.
Variables TREND_REGEX SEASONALITY_REGEX LAG_REGEX EVENT_REGEX : string.
Variable components_enum : list (string * SilverkiteComponent).
Variable get_trend_changepoint_dates_from_cols : list string -> list Z.
Variable time_feature : string -> Z -> Z.
Variable num_to_datetime : V -> Z.

(** The fitted model: [coef_] is absent for tree models. *)
Record MlModel := {
  coef_ : option (list V);
  intercept_ : V
}.

Record ModelDict := {
  x_mat : FeatureFrame V;
  df_dropna : Dataset V;
  ml_model : MlModel
}.

(** The attributes of [SilverkiteDiagnostics] that the plotting methods read
    and write; [None] is their value after [__init__]. *)
Record SilverkiteDiagnostics := {
  self_time_col : option string;
  self_value_col : option string;
  self_components : option (Table V)
}.

Definition init : SilverkiteDiagnostics :=
  {| self_time_col := None; self_value_col := None; self_components := None |}.

Definition set_params (self : SilverkiteDiagnostics) (time_col value_col : string)
  : SilverkiteDiagnostics :=
  {| self_time_col := Some time_col;
     self_value_col := Some value_col;
     self_components := self_components self |}.

(** [ml_model_coef * x_mat]: column [j] is multiplied by [coef[j]]. *)
Definition scale_columns (coef : list V) (cols : list (string * list V))
  : list (string * list V) :=
  map (fun wc => (fst (snd wc), map (fun x => vmul (fst wc) x) (snd (snd wc))))
      (combine coef cols).

(** Lines 155-166: the weighted feature matrix. *)
Definition weighted_feature_matrix (x_mat : FeatureFrame V) (ml_model_coef : list V)
    (ml_model_intercept : V) : Result (FeatureFrame V) :=
  let data_len := f_nrows x_mat in
  let ml_cols := frame_columns x_mat in
  if negb (List.length ml_model_coef =? List.length ml_cols)%nat then
    Raise (ValueError "Unable to coerce to Series")
  else
    let x_mat_weighted := scale_columns ml_model_coef (f_cols x_mat) in
    let x_mat_weighted :=
      if truthy ml_model_intercept then
        if mem "Intercept" ml_cols then
          map (fun c =>
                 if String.eqb (fst c) "Intercept"
                 then (fst c, vadd_rows (snd c) (repeat ml_model_intercept data_len))
                 else c)
              x_mat_weighted
        else x_mat_weighted ++ [("Intercept", repeat ml_model_intercept data_len)]
      else x_mat_weighted in
    Ok {| f_nrows := data_len; f_cols := x_mat_weighted |}.

(** [plot_components] returns the figure (or raises) and the object with
    [components] recomputed. *)
Definition plot_components (self : SilverkiteDiagnostics) (model_dict : option ModelDict)
    (names : option (list string)) (title : option string)
  : Result (Figure V * list Warning) * SilverkiteDiagnostics :=
  match model_dict with
  | None =>
      (Raise (NotImplementedError
                "Call `self.set_params` before calling `plot_components`."), self)
  | Some model_dict =>
      match coef_ (ml_model model_dict) with
      | None =>
          (Raise (NotImplementedError
                    "Component plot has only been implemented for additive linear models."),
           self)
      | Some ml_model_coef =>
          match
            (x_mat_weighted <- weighted_feature_matrix
                                 (x_mat model_dict) ml_model_coef
                                 (intercept_ (ml_model model_dict)) ;;
             match self_time_col self, self_value_col self with
             | Some time_col, Some value_col =>
                 get_silverkite_components
                   re_search TREND_REGEX SEASONALITY_REGEX LAG_REGEX EVENT_REGEX
                   components_enum get_trend_changepoint_dates_from_cols
                   num_to_datetime
                   (df_dropna model_dict) time_col value_col (Some x_mat_weighted)
             | _, _ => Raise (KeyError "None")
             end)
          with
          | Raise e => (Raise e, self)
          | Ok components =>
              let self :=
                {| self_time_col := self_time_col self;
                   self_value_col := self_value_col self;
                   self_components := Some components |} in
              (plot_silverkite_components components_enum time_feature
                                          num_to_datetime components names title,
               self)
          end
      end
  end.

End Diagnostics.

Arguments MlModel V : clear implicits.
Arguments ModelDict V : clear implicits.
Arguments SilverkiteDiagnostics V : clear implicits.

(** ** A concrete configuration

    Stand-ins for the collaborators that live outside this module (the
    patterns of [greykite.common.constants], the default components
    enumeration, the time features), chosen to agree with the column names of
    the end-to-end example: [trend_cp0] is a trend column and
    [seasonal_daily_sin1] a daily seasonality column. *)

Module Example.

(** The alternatives of a pattern [a|b|...]. *)
Fixpoint split_bar (p : string) : list string :=
  match p with
  | EmptyString => [EmptyString]
  | String c rest =>
      if Ascii.eqb c "|"%char then EmptyString :: split_bar rest
      else match split_bar rest with
           | alt :: alts => String c alt :: alts
           | [] => [String c EmptyString]
           end
  end.

(** [re.search] for patterns that are alternatives of literal substrings. *)
Definition re_search (p s : string) : bool :=
  existsb (fun alt => str_contains alt s) (split_bar p).

Definition TREND_REGEX : string := "changepoint|ct|cp".
Definition SEASONALITY_REGEX : string := "sin|cos".
Definition LAG_REGEX : string := "_lag".
Definition EVENT_REGEX : string := "events_".

Definition components_enum : list (string * SilverkiteComponent) :=
  [("DAILY_SEASONALITY",
    {| groupby_time_feature := "tod"; xlabel := "Hour of day"; ylabel := "daily" |});
   ("WEEKLY_SEASONALITY",
    {| groupby_time_feature := "tow"; xlabel := "Day of week"; ylabel := "weekly" |});
   ("MONTHLY_SEASONALITY",
    {| groupby_time_feature := "dom"; xlabel := "Time of month"; ylabel := "monthly" |});
   ("QUARTERLY_SEASONALITY",
    {| groupby_time_feature := "toq"; xlabel := "Time of quarter";
       ylabel := "quarterly" |});
   ("YEARLY_SEASONALITY",
    {| groupby_time_feature := "toy"; xlabel := "Time of year"; ylabel := "yearly" |})].

(** No changepoint dates are encoded in the example's column names. *)
Definition get_trend_changepoint_dates_from_cols (trend_cols : list string) : list Z :=
  [].

(** Timestamps of the examples count hours; every feature is the hour of day. *)
Definition time_feature (feature : string) (t : Z) : Z := (t mod 24)%Z.

Definition num_to_datetime {V : Type} (v : V) : Z := 0%Z.

Definition decompose {V : Type} {A : Arith V} :=
  get_silverkite_components (V := V) re_search TREND_REGEX SEASONALITY_REGEX
    LAG_REGEX EVENT_REGEX components_enum get_trend_changepoint_dates_from_cols
    num_to_datetime.

Definition regroup {V : Type} {A : Arith V} :=
  group_silverkite_seas_components (V := V) components_enum time_feature
    num_to_datetime.

Definition plot {V : Type} {A : Arith V} :=
  plot_silverkite_components (V := V) components_enum time_feature num_to_datetime.

(** Five daily observations and their weighted features, in float64. *)
Definition df : Dataset float :=
  {| d_nrows := 5;
     d_time := [0; 24; 48; 72; 96]%Z;
     d_value := [10; 12; 9; 15; 11]%float |}.

Definition feature_df : FeatureFrame float :=
  {| f_nrows := 5;
     f_cols := [("trend_cp0", [1; 1; 1; 1; 1]%float);
                ("seasonal_daily_sin1", [0.5; -0.5; 0.5; -0.5; 0.5]%float)] |}.

(** The same observations in exact arithmetic, with lag and event columns. *)
Definition qc (n : Z) (d : positive) : Qc := Q2Qc (n # d).

Definition df_exact : Dataset Qc :=
  {| d_nrows := 5;
     d_time := [0; 24; 48; 72; 96]%Z;
     d_value := [qc 10 1; qc 12 1; qc 9 1; qc 15 1; qc 11 1] |}.

Definition feature_df_exact : FeatureFrame Qc :=
  {| f_nrows := 5;
     f_cols := [("trend_cp0", [qc 1 1; qc 1 1; qc 1 1; qc 1 1; qc 1 1]);
                ("seasonal_daily_sin1",
                 [qc 1 2; qc (-1) 2; qc 1 2; qc (-1) 2; qc 1 2]);
                ("y_lag1", [qc 0 1; qc 1 1; qc 2 1; qc 1 1; qc 3 1]);
                ("regressor_lag1", [qc 1 4; qc 1 4; qc 1 4; qc 1 4; qc 1 4]);
                ("events_Christmas", [qc 0 1; qc 0 1; qc 5 1; qc 0 1; qc 0 1])] |}.

(** A components table with a changepoint column. *)
Definition components : Table float :=
  [("ts", TimeS [0; 24; 48]%Z);
   ("y", NumS [10; 12; 9]%float);
   ("trend", NumS [1; 1; 1]%float);
   ("DAILY_SEASONALITY", NumS [0.5; -0.5; 0.5]%float);
   ("residual", NumS [8.5; 11.5; 7.5]%float);
   ("trend_changepoints", IntS [0; 1; 0]%Z)].

(** A fitted model with an intercept and no [Intercept] column. *)
Definition model_dict : ModelDict float :=
  {| x_mat := {| f_nrows := 5;
                 f_cols := [("trend_cp0", [1; 2; 3; 4; 5]%float);
                            ("seasonal_daily_sin1", [1; -1; 1; -1; 1]%float)] |};
     df_dropna := df;
     ml_model := {| coef_ := Some [0.5; 0.25]%float; intercept_ := 2%float |} |}.

End Example.

(** ** A second configuration

    The trend columns carry changepoint dates, and a components table has a
    column that only looks like a seasonality. *)

Module MoreExample.

Import Example.

(** A stand-in for [get_trend_changepoint_dates_from_cols] under which the
    trend columns carry two changepoint dates. *)
Definition changepoint_dates (trend_cols : list string) : list Z := [24; 72]%Z.

Definition decompose_with_dates {V : Type} {A : Arith V} :=
  get_silverkite_components (V := V) re_search TREND_REGEX SEASONALITY_REGEX
    LAG_REGEX EVENT_REGEX components_enum changepoint_dates num_to_datetime.

(** A components table with a column named like a seasonality that the
    enumeration does not know. *)
Definition custom_components : Table float :=
  [("ts", TimeS [0; 24]%Z);
   ("y", NumS [10; 12]%float);
   ("trend", NumS [1; 1]%float);
   ("HOURLY_SEASONALITY", NumS [0.5; -0.5]%float);
   ("residual", NumS [8.5; 11.5]%float)].

End MoreExample.

(** * Properties *)

(** ** Lists and tables *)

Section TableFacts.

Context {V : Type}.

Lemma mem_In (x : string) (l : list string) : mem x l = true <-> In x l.
Proof.
  unfold mem. rewrite existsb_exists. split.
  - intros [y [Hy Heq]]. apply String.eqb_eq in Heq. now subst.
  - intros H. exists x. split; [assumption | apply String.eqb_refl].
Qed.

Lemma mem_not_In (x : string) (l : list string) : mem x l = false <-> ~ In x l.
Proof.
  rewrite <- mem_In. destruct (mem x l); split; intros; congruence.
Qed.

Lemma nonempty_filter {X : Type} (p : X -> bool) (l : list X) :
  nonempty (filter p l) = existsb p l.
Proof.
  induction l as [|x l IH]; simpl; [reflexivity|].
  destruct (p x); simpl; auto.
Qed.

Lemma nonempty_true {X : Type} (l : list X) : nonempty l = true <-> l <> [].
Proof. destruct l; simpl; split; intros; congruence. Qed.

Lemma nonempty_false {X : Type} (l : list X) : nonempty l = false <-> l = [].
Proof. destruct l; simpl; split; intros; congruence. Qed.

Lemma set_col_columns (name : string) (s : Series V) (t : Table V) :
  table_columns (set_col name s t) =
  if mem name (table_columns t) then table_columns t
  else table_columns t ++ [name].
Proof.
  unfold set_col, table_columns. destruct (mem name (map fst t)).
  - rewrite map_map. apply map_ext. intros c. now destruct (String.eqb (fst c) name).
  - now rewrite map_app.
Qed.

Lemma set_col_In (name : string) (s : Series V) (t : Table V) (x : string) :
  In x (table_columns (set_col name s t)) <-> x = name \/ In x (table_columns t).
Proof.
  rewrite set_col_columns. destruct (mem name (table_columns t)) eqn:E.
  - apply mem_In in E. split; [auto | intros [->|]; auto].
  - rewrite in_app_iff. simpl. intuition.
Qed.

Lemma lookup_col_app_l (m : string) (t u : Table V) (s : Series V) :
  lookup_col m t = Some s -> lookup_col m (t ++ u) = Some s.
Proof.
  unfold lookup_col. rewrite filter_app.
  destruct (filter (fun c => String.eqb (fst c) m) t); simpl; congruence.
Qed.

Lemma lookup_col_None (m : string) (t : Table V) :
  lookup_col m t = None <-> ~ In m (table_columns t).
Proof.
  unfold lookup_col, table_columns. induction t as [|c t IH]; simpl.
  - intuition.
  - destruct (String.eqb (fst c) m) eqn:E.
    + apply String.eqb_eq in E. split; [discriminate | intros H; exfalso; auto].
    + apply String.eqb_neq in E. rewrite IH. intuition.
Qed.

Lemma lookup_set_col_eq (name : string) (s : Series V) (t : Table V) :
  lookup_col name (set_col name s t) = Some s.
Proof.
  unfold set_col. destruct (mem name (table_columns t)) eqn:E.
  - apply mem_In in E. unfold lookup_col, table_columns in *.
    induction t as [|c t IH]; simpl in *; [contradiction|].
    destruct (String.eqb (fst c) name) eqn:Ec; simpl.
    + now rewrite Ec.
    + rewrite Ec. apply IH. destruct E as [E|E]; [|assumption].
      apply String.eqb_neq in Ec. congruence.
  - apply mem_not_In in E. apply lookup_col_None in E.
    unfold lookup_col in *. rewrite filter_app. simpl. rewrite String.eqb_refl.
    destruct (filter (fun c => String.eqb (fst c) name) t); [reflexivity | discriminate].
Qed.

Lemma lookup_set_col_neq (name m : string) (s : Series V) (t : Table V) :
  m <> name -> lookup_col m (set_col name s t) = lookup_col m t.
Proof.
  intros Hne. unfold set_col. destruct (mem name (table_columns t)).
  - unfold lookup_col. induction t as [|c t IH]; simpl; [reflexivity|].
    destruct (String.eqb (fst c) name) eqn:Ec; simpl.
    + apply String.eqb_eq in Ec.
      assert (Hm : String.eqb (fst c) m = false) by (apply String.eqb_neq; congruence).
      rewrite Hm. apply IH.
    + destruct (String.eqb (fst c) m); [reflexivity | apply IH].
  - unfold lookup_col. rewrite filter_app. simpl.
    assert (Hm : String.eqb name m = false) by (apply String.eqb_neq; congruence).
    rewrite Hm, app_nil_r. reflexivity.
Qed.

(** A table whose first two columns are labelled [a] and [b]. *)
Definition starts_with (a b : string) (t : Table V) : Prop :=
  exists rest, table_columns t = a :: b :: rest.

Lemma set_col_starts_with (a b name : string) (s : Series V) (t : Table V) :
  starts_with a b t -> starts_with a b (set_col name s t).
Proof.
  intros [rest H]. unfold starts_with. rewrite set_col_columns, H.
  destruct (mem name (a :: b :: rest)); [now exists rest|].
  exists (rest ++ [name]). reflexivity.
Qed.

End TableFacts.

(** ** The steps of the decomposition *)

Section DecompositionFacts.

Context {V : Type} {A : Arith V}.

Variable re_search : string -> string -> bool.
Variables TREND_REGEX SEASONALITY_REGEX LAG_REGEX EVENT_REGEX : string.
Variable components_enum : list (string * SilverkiteComponent).
Variable get_trend_changepoint_dates_from_cols : list string -> list Z.
Variable num_to_datetime : V -> Z.

Local Abbreviation trend_cols_of' :=
  (trend_cols_of re_search TREND_REGEX SEASONALITY_REGEX LAG_REGEX).
Local Abbreviation lag_cols_of' := (lag_cols_of re_search LAG_REGEX).
Local Abbreviation add_trend' :=
  (add_trend re_search TREND_REGEX SEASONALITY_REGEX LAG_REGEX).
Local Abbreviation add_lags' := (add_lags re_search LAG_REGEX).
Local Abbreviation add_seasonalities' :=
  (add_seasonalities re_search SEASONALITY_REGEX components_enum).
Local Abbreviation add_events' := (add_events re_search EVENT_REGEX).
Local Abbreviation add_changepoints' :=
  (add_changepoints re_search TREND_REGEX SEASONALITY_REGEX LAG_REGEX
                    get_trend_changepoint_dates_from_cols num_to_datetime).
Local Abbreviation build_components' :=
  (build_components re_search TREND_REGEX SEASONALITY_REGEX LAG_REGEX EVENT_REGEX
                    components_enum get_trend_changepoint_dates_from_cols
                    num_to_datetime).

(** The columns of [feature_df] that the seasonality member [m] sums. *)
Definition seas_member_cols (feature_df : FeatureFrame V)
    (m : string * SilverkiteComponent) : list string :=
  get_pattern_cols re_search
    (get_pattern_cols re_search (frame_columns feature_df) SEASONALITY_REGEX None)
    (ylabel (snd m)) None.

Definition event_cols_of (feature_cols : list string) : list string :=
  get_pattern_cols re_search feature_cols EVENT_REGEX None.

Ltac split_if :=
  match goal with
  | |- context [if nonempty ?l then _ else _] =>
      let E := fresh "E" in destruct (nonempty l) eqn:E
  end.

(** *** Which columns each step adds *)

Lemma add_trend_In (f : FeatureFrame V) (t : Table V) (x : string) :
  In x (table_columns (add_trend' f t)) <->
  (x = "trend" /\ trend_cols_of' (frame_columns f) <> []) \/ In x (table_columns t).
Proof.
  unfold add_trend. split_if.
  - rewrite set_col_In. apply nonempty_true in E. intuition.
  - apply nonempty_false in E. intuition.
Qed.

Lemma add_lags_In (value_col : string) (f : FeatureFrame V) (t : Table V) (x : string) :
  In x (table_columns (add_lags' value_col f t)) <->
  (x = "autoregression"
   /\ ar_cols_of value_col (lag_cols_of' (frame_columns f)) <> [])
  \/ (x = "lagged_regressor"
      /\ lagged_regressor_cols_of value_col (lag_cols_of' (frame_columns f)) <> [])
  \/ In x (table_columns t).
Proof.
  unfold add_lags. split_if.
  - repeat split_if; rewrite ?set_col_In;
      rewrite ?nonempty_true, ?nonempty_false in *; intuition.
  - apply nonempty_false in E. rewrite E. simpl. intuition.
Qed.

Lemma add_seasonality_In (f : FeatureFrame V) (t : Table V)
    (m : string * SilverkiteComponent) (x : string) :
  In x (table_columns
          (add_seasonality re_search f
             (get_pattern_cols re_search (frame_columns f) SEASONALITY_REGEX None)
             t m)) <->
  (x = fst m /\ seas_member_cols f m <> []) \/ In x (table_columns t).
Proof.
  unfold add_seasonality, seas_member_cols. split_if.
  - rewrite set_col_In. apply nonempty_true in E. intuition.
  - apply nonempty_false in E. intuition.
Qed.

Lemma fold_seasonality_In (f : FeatureFrame V) (members : list (string * SilverkiteComponent))
    (t : Table V) (x : string) :
  In x (table_columns
          (fold_left
             (add_seasonality re_search f
                (get_pattern_cols re_search (frame_columns f) SEASONALITY_REGEX None))
             members t)) <->
  (exists m, In m members /\ x = fst m /\ seas_member_cols f m <> [])
  \/ In x (table_columns t).
Proof.
  revert t. induction members as [|m ms IH]; intros t; simpl.
  - split; [auto | intros [[m [[] _]]|]; auto].
  - rewrite IH, add_seasonality_In. split.
    + intros [[m' [Hin H]]|[[H1 H2]|H]]; eauto 6.
    + intros [[m' [[->|Hin] H]]|H]; eauto 6.
Qed.

Lemma add_seasonalities_In (f : FeatureFrame V) (t : Table V) (x : string) :
  In x (table_columns (add_seasonalities' f t)) <->
  (exists m, In m components_enum /\ x = fst m /\ seas_member_cols f m <> [])
  \/ In x (table_columns t).
Proof. apply fold_seasonality_In. Qed.

Lemma add_events_In (f : FeatureFrame V) (t : Table V) (x : string) :
  In x (table_columns (add_events' f t)) <->
  (x = "events" /\ event_cols_of (frame_columns f) <> []) \/ In x (table_columns t).
Proof.
  unfold add_events, event_cols_of. split_if.
  - rewrite set_col_In. apply nonempty_true in E. intuition.
  - apply nonempty_false in E. intuition.
Qed.

Lemma add_residual_In (df : Dataset V) (f : FeatureFrame V) (t : Table V) (x : string) :
  In x (table_columns (add_residual df f t)) <-> x = "residual" \/ In x (table_columns t).
Proof. unfold add_residual. apply set_col_In. Qed.

Lemma add_changepoints_In (time_col : string) (f : FeatureFrame V) (t : Table V)
    (x : string) :
  In x (table_columns (add_changepoints' time_col f t)) ->
  x = "trend_changepoints" \/ In x (table_columns t).
Proof.
  unfold add_changepoints. repeat split_if; rewrite ?set_col_In; intuition.
Qed.

Lemma add_changepoints_keeps (time_col : string) (f : FeatureFrame V) (t : Table V)
    (x : string) :
  In x (table_columns t) -> In x (table_columns (add_changepoints' time_col f t)).
Proof.
  unfold add_changepoints. repeat split_if; rewrite ?set_col_In; intuition.
Qed.

(** *** The first two columns stay in place *)

Lemma fold_seasonality_starts_with (a b : string) (f : FeatureFrame V)
    (seas_cols : list string) (members : list (string * SilverkiteComponent))
    (t : Table V) :
  starts_with a b t ->
  starts_with a b (fold_left (add_seasonality re_search f seas_cols) members t).
Proof.
  revert t. induction members as [|m ms IH]; intros t H; simpl; [assumption|].
  apply IH. unfold add_seasonality. split_if; [apply set_col_starts_with|]; assumption.
Qed.

Lemma steps_start_with (a b : string) (df : Dataset V) (time_col value_col : string)
    (f : FeatureFrame V) (t : Table V) :
  starts_with a b t ->
  starts_with a b
    (add_changepoints' time_col f
       (add_residual df f
          (add_events' f
             (add_seasonalities' f (add_lags' value_col f (add_trend' f t)))))).
Proof.
  intros Ht.
  assert (Htrend : starts_with a b (add_trend' f t)).
  { unfold add_trend. split_if; [apply set_col_starts_with|]; assumption. }
  assert (Hlags : starts_with a b (add_lags' value_col f (add_trend' f t))).
  { unfold add_lags. repeat split_if; repeat apply set_col_starts_with; assumption. }
  apply (fold_seasonality_starts_with a b f
           (get_pattern_cols re_search (frame_columns f) SEASONALITY_REGEX None)
           components_enum) in Hlags.
  fold (add_seasonalities' f (add_lags' value_col f (add_trend' f t))) in Hlags.
  revert Hlags. generalize (add_seasonalities' f (add_lags' value_col f (add_trend' f t))).
  intros u Hu.
  unfold add_changepoints, add_residual, add_events.
  repeat split_if; repeat apply set_col_starts_with; assumption.
Qed.

Lemma build_components_starts_with (df : Dataset V) (time_col value_col : string)
    (f : FeatureFrame V) :
  starts_with time_col value_col (build_components' df time_col value_col f).
Proof.
  unfold build_components. apply steps_start_with. exists []. reflexivity.
Qed.

(** *** Columns a step leaves alone *)

Lemma add_trend_lookup (f : FeatureFrame V) (t : Table V) (m : string) :
  m <> "trend" -> lookup_col m (add_trend' f t) = lookup_col m t.
Proof.
  intros H. unfold add_trend. split_if; [apply lookup_set_col_neq; assumption | reflexivity].
Qed.

Lemma add_lags_lookup (value_col : string) (f : FeatureFrame V) (t : Table V)
    (m : string) :
  m <> "autoregression" -> m <> "lagged_regressor" ->
  lookup_col m (add_lags' value_col f t) = lookup_col m t.
Proof.
  intros H1 H2. unfold add_lags.
  repeat split_if; rewrite ?lookup_set_col_neq by assumption; reflexivity.
Qed.

Lemma fold_seasonality_lookup (f : FeatureFrame V) (seas_cols : list string)
    (members : list (string * SilverkiteComponent)) (t : Table V) (m : string) :
  ~ In m (map fst members) ->
  lookup_col m (fold_left (add_seasonality re_search f seas_cols) members t)
  = lookup_col m t.
Proof.
  revert t. induction members as [|e es IH]; intros t H; simpl; [reflexivity|].
  simpl in H. rewrite IH by tauto.
  unfold add_seasonality. split_if; [|reflexivity].
  apply lookup_set_col_neq. intros ->. tauto.
Qed.

Lemma add_events_lookup (f : FeatureFrame V) (t : Table V) (m : string) :
  m <> "events" -> lookup_col m (add_events' f t) = lookup_col m t.
Proof.
  intros H. unfold add_events. split_if; [apply lookup_set_col_neq; assumption | reflexivity].
Qed.

Lemma add_changepoints_lookup (time_col : string) (f : FeatureFrame V) (t : Table V)
    (m : string) :
  m <> "trend_changepoints" ->
  lookup_col m (add_changepoints' time_col f t) = lookup_col m t.
Proof.
  intros H. unfold add_changepoints.
  repeat split_if; rewrite ?lookup_set_col_neq by assumption; reflexivity.
Qed.

(** *** Selecting columns by name *)

Lemma filter_filter {X : Type} (p q : X -> bool) (l : list X) :
  filter p (filter q l) = filter (fun x => q x && p x) l.
Proof.
  induction l as [|x l IH]; simpl; [reflexivity|].
  destruct (q x); simpl; [destruct (p x)|]; now rewrite IH.
Qed.

Lemma filter_map_fst {S : Type} (p : string -> bool) (cols : list (string * S)) :
  filter p (map fst cols) = map fst (filter (fun c => p (fst c)) cols).
Proof.
  induction cols as [|c cols IH]; simpl; [reflexivity|].
  destruct (p (fst c)); simpl; now rewrite IH.
Qed.

Lemma filter_unique_label {S : Type} (cols : list (string * S)) (c : string * S) :
  NoDup (map fst cols) -> In c cols ->
  filter (fun c' => String.eqb (fst c') (fst c)) cols = [c].
Proof.
  induction cols as [|d cols IH]; simpl; intros Hnd Hin; [contradiction|].
  inversion Hnd as [|? ? Hnotin Hnd']; subst.
  destruct Hin as [->|Hin].
  - rewrite String.eqb_refl. f_equal.
    assert (H : forall l : list (string * S), (forall d, In d l -> fst d <> fst c) ->
                filter (fun c' => String.eqb (fst c') (fst c)) l = []).
    { induction l as [|e l IHl]; simpl; intros Hl; [reflexivity|].
      assert (E : String.eqb (fst e) (fst c) = false)
        by (apply String.eqb_neq; apply Hl; now left).
      rewrite E. apply IHl. intros d' Hd'. apply Hl. now right. }
    apply H. intros d Hd Heq. apply Hnotin. rewrite <- Heq. now apply in_map.
  - assert (E : String.eqb (fst d) (fst c) = false).
    { apply String.eqb_neq. intros Heq. apply Hnotin. rewrite Heq. now apply in_map. }
    rewrite E. now apply IH.
Qed.

Lemma select_cols_filter {S : Type} (p : string -> bool) (cols : list (string * S)) :
  NoDup (map fst cols) ->
  select_cols cols (filter p (map fst cols)) = filter (fun c => p (fst c)) cols.
Proof.
  intros Hnd. rewrite filter_map_fst. unfold select_cols.
  assert (H : forall l : list (string * S), (forall c, In c l -> In c cols) ->
              flat_map (fun n => filter (fun c => String.eqb (fst c) n) cols) (map fst l)
              = l).
  { induction l as [|c l IH]; simpl; intros Hl; [reflexivity|].
    rewrite (filter_unique_label cols c Hnd) by (apply Hl; now left).
    simpl. f_equal. apply IH. intros d Hd. apply Hl. now right. }
  apply H. intros c Hc. apply filter_In in Hc. tauto.
Qed.

Lemma filter_partition {X : Type} (p : X -> bool) (l : list X) :
  Permutation (filter p l ++ filter (fun x => negb (p x)) l) l.
Proof.
  induction l as [|x l IH]; simpl; [constructor|].
  destruct (p x); simpl.
  - now constructor.
  - apply Permutation_sym. apply Permutation_cons_app. now apply Permutation_sym.
Qed.

(** *** Row-wise sums *)

Lemma vadd_rows_length (acc col : list V) :
  List.length col = List.length acc -> List.length (vadd_rows acc col) = List.length acc.
Proof.
  intros H. unfold vadd_rows. rewrite length_map, length_combine. lia.
Qed.

Lemma sum_axis1_length (n : nat) (cols : list (string * list V)) :
  Forall (fun c => List.length (snd c) = n) cols ->
  List.length (sum_axis1 n cols) = n.
Proof.
  unfold sum_axis1. intros Hwf.
  assert (H : forall acc, List.length acc = n ->
              List.length
                (fold_left (fun acc c => vadd_rows acc (map nan_to_zero (snd c))) cols acc)
              = n).
  { induction Hwf as [|c cols Hc Hwf IH]; intros acc Hacc; simpl; [assumption|].
    apply IH. rewrite vadd_rows_length; rewrite ?length_map; congruence. }
  apply H. apply repeat_length.
Qed.

Lemma vadd_vsub_rows `{!ExactArith V} (s t : list V) :
  List.length s = List.length t -> vadd_rows s (vsub_rows t s) = t.
Proof.
  revert t. induction s as [|x s IH]; intros [|y t] H; simpl in *;
    try discriminate; [reflexivity|].
  unfold vadd_rows, vsub_rows in *. simpl. rewrite vadd_vsub. f_equal.
  apply IH. lia.
Qed.

(** ** The decomposition *)

Local Abbreviation get_silverkite_components' :=
  (get_silverkite_components re_search TREND_REGEX SEASONALITY_REGEX LAG_REGEX
     EVENT_REGEX components_enum get_trend_changepoint_dates_from_cols
     num_to_datetime).

Lemma accepted_input (df : Dataset V) (time_col value_col : string) (f : FeatureFrame V) :
  frame_empty f = false -> d_nrows df = f_nrows f ->
  get_silverkite_components' df time_col value_col (Some f)
  = Ok (build_components' df time_col value_col f).
Proof.
  intros He Hn. unfold get_silverkite_components. rewrite He.
  apply Nat.eqb_eq in Hn. now rewrite Hn.
Qed.

Lemma residual_lookup (df : Dataset V) (time_col value_col : string) (f : FeatureFrame V) :
  lookup_col "residual" (build_components' df time_col value_col f)
  = Some (NumS (vsub_rows (d_value df) (sum_axis1 (f_nrows f) (f_cols f)))).
Proof.
  unfold build_components. rewrite add_changepoints_lookup by discriminate.
  unfold add_residual. apply lookup_set_col_eq.
Qed.



(** C10: for every accepted input the first column of the returned table is
    the time column and the second the value column, and
    [plot_silverkite_components], which reads the two names off the first two
    column positions, recovers exactly [time_col] and [value_col] from every
    table the decomposition returns. *)
Theorem time_and_value_columns_come_first (df : Dataset V) (time_col value_col : string)
    (f : FeatureFrame V) :
  frame_empty f = false ->
  d_nrows df = f_nrows f ->
  exists components,
    get_silverkite_components' df time_col value_col (Some f) = Ok components
    /\ firstn 2 (table_columns components) = [time_col; value_col]
    /\ forall (plot_enum : list (string * SilverkiteComponent))
              (time_feature : string -> Z -> Z)
              (names : option (list string)) (title : option string),
        plot_silverkite_components plot_enum time_feature num_to_datetime
                                   components names title
        = plot_with plot_enum time_feature num_to_datetime
                    time_col value_col components names title.
Proof.
  intros He Hn. exists (build_components' df time_col value_col f).
  split; [now apply accepted_input|].
  destruct (build_components_starts_with df time_col value_col f) as [rest Hc].
  split.
  - rewrite Hc. reflexivity.
  - intros. unfold plot_silverkite_components. rewrite Hc. reflexivity.
Qed.

(** *** Which names the table carries *)

Lemma filter_nonempty_iff {X : Type} (p : X -> bool) (l : list X) :
  filter p l <> [] <-> exists x, In x l /\ p x = true.
Proof.
  rewrite <- nonempty_true, nonempty_filter, existsb_exists. reflexivity.
Qed.

Lemma build_components_In (df : Dataset V) (time_col value_col : string)
    (f : FeatureFrame V) (x : string) :
  x <> "residual" -> x <> "trend_changepoints" ->
  (In x (table_columns (build_components' df time_col value_col f)) <->
   (x = "events" /\ event_cols_of (frame_columns f) <> [])
   \/ (exists m, In m components_enum /\ x = fst m /\ seas_member_cols f m <> [])
   \/ (x = "autoregression"
       /\ ar_cols_of value_col (lag_cols_of' (frame_columns f)) <> [])
   \/ (x = "lagged_regressor"
       /\ lagged_regressor_cols_of value_col (lag_cols_of' (frame_columns f)) <> [])
   \/ (x = "trend" /\ trend_cols_of' (frame_columns f) <> [])
   \/ x = time_col \/ x = value_col).
Proof.
  intros Hres Hcp. unfold build_components.
  set (base := [(time_col, TimeS (d_time df)); (value_col, NumS (d_value df))]).
  assert (Hbase : x = time_col \/ x = value_col <-> In x (table_columns base))
    by (simpl; intuition).
  pose proof (add_events_In f
                (add_seasonalities' f (add_lags' value_col f (add_trend' f base))) x)
    as Hev.
  pose proof (add_seasonalities_In f (add_lags' value_col f (add_trend' f base)) x)
    as Hseas.
  pose proof (add_lags_In value_col f (add_trend' f base) x) as Hlags.
  pose proof (add_trend_In f base x) as Htrend.
  split.
  - intros H. apply add_changepoints_In in H. destruct H as [H|H]; [contradiction|].
    apply add_residual_In in H. destruct H as [H|H]; [contradiction|].
    tauto.
  - intros H. apply add_changepoints_keeps. apply add_residual_In. right. tauto.
Qed.

(** *** Naming conventions the statements below rely on *)

Definition enum_keys : list string := map fst components_enum.

(** The names [get_silverkite_components] itself gives to columns. *)
Definition reserved_columns : list string :=
  ["trend"; "autoregression"; "lagged_regressor"; "events"; "residual";
   "trend_changepoints"].

(** Member names of an [Enum] are distinct; they are also taken to differ from
    the fixed column names. *)
Definition enum_well_named : Prop :=
  NoDup enum_keys /\ forall k, In k enum_keys -> ~ In k reserved_columns.

Definition semantic_columns : list string :=
  ["trend"; "autoregression"; "lagged_regressor"; "events"] ++ enum_keys.

(** The trend classification: the trend pattern matches and neither the
    seasonality nor the lag pattern does. *)
Definition is_trend_col (c : string) : bool :=
  re_search TREND_REGEX c
  && negb (re_search SEASONALITY_REGEX c || re_search LAG_REGEX c).

Definition is_ar_col (value_col c : string) : bool :=
  re_search LAG_REGEX c && str_contains value_col c.

Definition is_lagged_regressor_col (value_col c : string) : bool :=
  re_search LAG_REGEX c && negb (str_contains value_col c).

Lemma trend_lookup (df : Dataset V) (time_col value_col : string) (f : FeatureFrame V) :
  ~ In "trend" enum_keys ->
  trend_cols_of' (frame_columns f) <> [] ->
  lookup_col "trend" (build_components' df time_col value_col f)
  = Some (sum_selected f (trend_cols_of' (frame_columns f))).
Proof.
  intros Hkey Hne. unfold build_components.
  rewrite add_changepoints_lookup by discriminate.
  unfold add_residual. rewrite lookup_set_col_neq by discriminate.
  rewrite add_events_lookup by discriminate.
  unfold add_seasonalities. rewrite fold_seasonality_lookup by exact Hkey.
  rewrite add_lags_lookup by discriminate.
  unfold add_trend. apply nonempty_true in Hne. rewrite Hne.
  apply lookup_set_col_eq.
Qed.


Lemma NoDup_fst_inj {S : Type} (l : list (string * S)) (a b : string * S) :
  NoDup (map fst l) -> In a l -> In b l -> fst a = fst b -> a = b.
Proof.
  induction l as [|e es IH]; simpl; intros Hnd Ha Hb Heq; [contradiction|].
  inversion Hnd as [|x xs Hnotin Hnd' Hx].
  destruct Ha as [Ha|Ha], Hb as [Hb|Hb].
  - congruence.
  - exfalso. apply Hnotin. rewrite Ha, Heq. now apply in_map.
  - exfalso. apply Hnotin. rewrite Hb, <- Heq. now apply in_map.
  - now apply IH.
Qed.

Lemma NoDup_keys_member (key : string) (comp : SilverkiteComponent)
    (m : string * SilverkiteComponent) :
  NoDup enum_keys -> In (key, comp) components_enum -> In m components_enum ->
  key = fst m -> m = (key, comp).
Proof.
  intros Hnd H1 H2 Hk. apply (NoDup_fst_inj components_enum); auto.
Qed.

(** C4: for every accepted input, with column names that do not collide,
    each semantic column ([trend], [autoregression], [lagged_regressor], each
    seasonality member, [events]) is a column of the result exactly when some
    column of [feature_df] falls under that category's classification. *)
Theorem semantic_column_present_iff_matched (df : Dataset V)
    (time_col value_col : string) (f : FeatureFrame V) :
  enum_well_named ->
  ~ In time_col semantic_columns ->
  ~ In value_col semantic_columns ->
  frame_empty f = false ->
  d_nrows df = f_nrows f ->
  exists components,
    get_silverkite_components' df time_col value_col (Some f) = Ok components
    /\ (In "trend" (table_columns components) <->
        exists c, In c (frame_columns f)
                  /\ re_search TREND_REGEX c = true
                  /\ re_search (SEASONALITY_REGEX ++ "|" ++ LAG_REGEX)%string c = false)
    /\ (In "autoregression" (table_columns components) <->
        exists c, In c (frame_columns f)
                  /\ re_search LAG_REGEX c = true /\ str_contains value_col c = true)
    /\ (In "lagged_regressor" (table_columns components) <->
        exists c, In c (frame_columns f)
                  /\ re_search LAG_REGEX c = true /\ str_contains value_col c = false)
    /\ (forall key member, In (key, member) components_enum ->
          (In key (table_columns components) <->
           exists c, In c (frame_columns f)
                     /\ re_search SEASONALITY_REGEX c = true
                     /\ re_search (ylabel member) c = true))
    /\ (In "events" (table_columns components) <->
        exists c, In c (frame_columns f) /\ re_search EVENT_REGEX c = true).
Proof.
  intros [Hnd Hres] Htc Hvc He Hn.
  exists (build_components' df time_col value_col f).
  split; [now apply accepted_input|].
  assert (Hkey : forall x m, In x reserved_columns -> In m components_enum -> x <> fst m).
  { intros x m Hx Hm ->. apply (Hres (fst m)); [|assumption].
    unfold enum_keys. now apply in_map. }
  unfold semantic_columns in Htc, Hvc. rewrite in_app_iff in Htc, Hvc. simpl in Htc, Hvc.
  assert (Htrend : trend_cols_of' (frame_columns f) <> [] <->
                   exists c, In c (frame_columns f)
                     /\ re_search TREND_REGEX c = true
                     /\ re_search (SEASONALITY_REGEX ++ "|" ++ LAG_REGEX)%string c = false).
  { unfold trend_cols_of, get_pattern_cols. rewrite filter_nonempty_iff.
    split; intros [c [Hc Hp]]; exists c; split; auto.
    - apply andb_true_iff in Hp. now rewrite negb_true_iff in Hp.
    - apply andb_true_iff. now rewrite negb_true_iff. }
  assert (Har : ar_cols_of value_col (lag_cols_of' (frame_columns f)) <> [] <->
                exists c, In c (frame_columns f)
                  /\ re_search LAG_REGEX c = true /\ str_contains value_col c = true).
  { unfold ar_cols_of, lag_cols_of, get_pattern_cols.
    rewrite filter_filter, filter_nonempty_iff.
    split; intros [c [Hc Hp]]; exists c; split; auto.
    - rewrite !andb_true_iff in Hp. tauto.
    - rewrite !andb_true_iff. tauto. }
  assert (Hlr : lagged_regressor_cols_of value_col (lag_cols_of' (frame_columns f)) <> []
                <-> exists c, In c (frame_columns f)
                      /\ re_search LAG_REGEX c = true
                      /\ str_contains value_col c = false).
  { unfold lagged_regressor_cols_of, lag_cols_of, get_pattern_cols.
    rewrite filter_filter, filter_nonempty_iff.
    split; intros [c [Hc Hp]]; exists c; split; auto.
    - rewrite !andb_true_iff, !negb_true_iff in Hp. tauto.
    - rewrite !andb_true_iff, !negb_true_iff. tauto. }
  assert (Hev : event_cols_of (frame_columns f) <> [] <->
                exists c, In c (frame_columns f) /\ re_search EVENT_REGEX c = true).
  { unfold event_cols_of, get_pattern_cols. rewrite filter_nonempty_iff.
    split; intros [c [Hc Hp]]; exists c; split; auto.
    - rewrite andb_true_iff in Hp. tauto.
    - rewrite andb_true_iff. tauto. }
  assert (Hseas : forall m, seas_member_cols f m <> [] <->
                  exists c, In c (frame_columns f)
                    /\ re_search SEASONALITY_REGEX c = true
                    /\ re_search (ylabel (snd m)) c = true).
  { intros m. unfold seas_member_cols, get_pattern_cols.
    rewrite filter_filter, filter_nonempty_iff.
    split; intros [c [Hc Hp]]; exists c; split; auto.
    - rewrite !andb_true_iff in Hp. tauto.
    - rewrite !andb_true_iff. tauto. }
  assert (Hfixed : forall x, In x ["trend"; "autoregression"; "lagged_regressor"; "events"] ->
            ~ (exists m, In m components_enum /\ x = fst m /\ seas_member_cols f m <> [])
            /\ x <> time_col /\ x <> value_col).
  { intros x Hx. repeat split.
    - intros [m [Hm [Hxm _]]]. apply (Hkey x m); auto.
      unfold reserved_columns. simpl in *. tauto.
    - intros ->. tauto.
    - intros ->. tauto. }
  split; [|split; [|split; [|split]]].
  - split; intros H.
    + apply build_components_In in H; try discriminate.
      destruct (Hfixed "trend") as [H1 [H2 H3]]; [simpl; tauto|].
      apply Htrend. intuition discriminate.
    + apply build_components_In; try discriminate. apply Htrend in H. tauto.
  - split; intros H.
    + apply build_components_In in H; try discriminate.
      destruct (Hfixed "autoregression") as [H1 [H2 H3]]; [simpl; tauto|].
      apply Har. intuition discriminate.
    + apply build_components_In; try discriminate. apply Har in H. tauto.
  - split; intros H.
    + apply build_components_In in H; try discriminate.
      destruct (Hfixed "lagged_regressor") as [H1 [H2 H3]]; [simpl; tauto|].
      apply Hlr. intuition discriminate.
    + apply build_components_In; try discriminate. apply Hlr in H. tauto.
  - intros key member Hmem.
    assert (Hk : In key enum_keys)
      by (unfold enum_keys; change key with (fst (key, member)); now apply in_map).
    assert (Hnr : ~ In key reserved_columns) by (now apply Hres).
    unfold reserved_columns in Hnr. simpl in Hnr.
    split; intros H.
    + apply build_components_In in H; [|intros ->; tauto|intros ->; tauto].
      destruct H as [[H _]|[[m [Hm [Hkm Hcols]]]|[[H _]|[[H _]|[[H _]|[H|H]]]]]];
        try (exfalso; subst; tauto).
      apply (NoDup_keys_member key member m Hnd Hmem Hm) in Hkm. subst m.
      now apply Hseas in Hcols.
    + apply build_components_In; [intros ->; tauto|intros ->; tauto|].
      right. left. exists (key, member). repeat split; auto. now apply Hseas.
  - split; intros H.
    + apply build_components_In in H; try discriminate.
      destruct (Hfixed "events") as [H1 [H2 H3]]; [simpl; tauto|].
      apply Hev. intuition discriminate.
    + apply build_components_In; try discriminate. apply Hev in H. tauto.
Qed.

Lemma lag_lookup_through (df : Dataset V) (time_col value_col : string)
    (f : FeatureFrame V) (m : string) :
  In m ["autoregression"; "lagged_regressor"] ->
  ~ In m enum_keys ->
  lookup_col m (build_components' df time_col value_col f)
  = lookup_col m
      (add_lags' value_col f
         (add_trend' f [(time_col, TimeS (d_time df)); (value_col, NumS (d_value df))])).
Proof.
  intros Hm Hkey. unfold build_components.
  assert (m <> "trend_changepoints" /\ m <> "residual" /\ m <> "events") as [H1 [H2 H3]].
  { simpl in Hm. repeat split; intros ->; intuition discriminate. }
  rewrite add_changepoints_lookup by assumption.
  unfold add_residual. rewrite lookup_set_col_neq by assumption.
  rewrite add_events_lookup by assumption.
  unfold add_seasonalities. now rewrite fold_seasonality_lookup by exact Hkey.
Qed.


End DecompositionFacts.

(** ** Regrouping and row order *)

Section RegroupFacts.

Context {V : Type} {A : Arith V}.

(** Two lists of groups with the same keys in the same order, and the same
    rows in each group up to their order. *)
Definition same_groups (gs gs' : list (Z * list V)) : Prop :=
  Forall2 (fun g g' => fst g = fst g' /\ Permutation (snd g) (snd g')) gs gs'.

Lemma same_groups_refl (gs : list (Z * list V)) : same_groups gs gs.
Proof. induction gs; constructor; auto. Qed.

Lemma same_groups_trans (gs1 gs2 gs3 : list (Z * list V)) :
  same_groups gs1 gs2 -> same_groups gs2 gs3 -> same_groups gs1 gs3.
Proof.
  intros H. revert gs3. induction H as [|g g' gs gs' [Hk Hp] _ IH]; intros gs3 H3.
  - inversion H3. constructor.
  - inversion H3 as [|? g3 ? gs3' [Hk' Hp'] Hrest]; subst.
    constructor; [split; [congruence | eapply Permutation_trans; eauto]|].
    now apply IH.
Qed.

Lemma insert_group_same (k : Z) (v : V) (gs gs' : list (Z * list V)) :
  same_groups gs gs' -> same_groups (insert_group k v gs) (insert_group k v gs').
Proof.
  induction 1 as [|[k1 vs1] [k2 vs2] gs gs' [Hk Hp] Hrest IH]; simpl in *.
  - apply same_groups_refl.
  - subst k2. destruct (k <? k1)%Z.
    + constructor; [split; auto|]. constructor; [split; auto | assumption].
    + destruct (k =? k1)%Z.
      * constructor; [|assumption]. split; [reflexivity|].
        simpl. now apply Permutation_app_tail.
      * constructor; [split; auto | assumption].
Qed.

Ltac compare_keys :=
  repeat (simpl;
          match goal with
          | |- context [(?a <? ?b)%Z] => destruct (Z.ltb_spec a b)
          | |- context [(?a =? ?b)%Z] => destruct (Z.eqb_spec a b)
          end);
  subst; try lia.

Ltac same_groups_step :=
  constructor;
  [ split;
    [ reflexivity
    | simpl; first
        [ apply Permutation_refl
        | apply perm_swap
        | rewrite <- !app_assoc; apply Permutation_app_head; apply perm_swap ] ]
  | ].

Lemma insert_group_swap (k1 k2 : Z) (v1 v2 : V) (gs : list (Z * list V)) :
  same_groups (insert_group k1 v1 (insert_group k2 v2 gs))
              (insert_group k2 v2 (insert_group k1 v1 gs)).
Proof.
  induction gs as [|[k vs] gs IH].
  - compare_keys; solve [apply same_groups_refl | repeat same_groups_step; constructor].
  - compare_keys;
      solve [ apply same_groups_refl
            | same_groups_step; first [apply same_groups_refl | exact IH] ].
Qed.

Lemma group_fold_init (rows : list (Z * V)) (gs gs' : list (Z * list V)) :
  same_groups gs gs' ->
  same_groups (fold_left (fun gs r => insert_group (fst r) (snd r) gs) rows gs)
              (fold_left (fun gs r => insert_group (fst r) (snd r) gs) rows gs').
Proof.
  revert gs gs'. induction rows as [|r rows IH]; intros gs gs' H; simpl; [assumption|].
  apply IH. now apply insert_group_same.
Qed.

Lemma group_fold_same (rows rows' : list (Z * V)) :
  Permutation rows rows' ->
  forall gs gs', same_groups gs gs' ->
    same_groups (fold_left (fun gs r => insert_group (fst r) (snd r) gs) rows gs)
                (fold_left (fun gs r => insert_group (fst r) (snd r) gs) rows' gs').
Proof.
  induction 1 as [|r rows rows' Hp IH|r1 r2 rows|rows1 rows2 rows3 H12 IH12 H23 IH23];
    intros gs gs' Hgs; simpl.
  - assumption.
  - apply IH. now apply insert_group_same.
  - apply group_fold_init.
    eapply same_groups_trans; [apply insert_group_swap|].
    apply insert_group_same. now apply insert_group_same.
  - eapply same_groups_trans; [apply IH12; apply same_groups_refl|].
    now apply IH23.
Qed.

Lemma group_rows_same (rows rows' : list (Z * V)) :
  Permutation rows rows' -> same_groups (group_rows rows) (group_rows rows').
Proof. intros H. apply group_fold_same; [assumption | constructor]. Qed.

Lemma Permutation_filter {X : Type} (p : X -> bool) (l l' : list X) :
  Permutation l l' -> Permutation (filter p l) (filter p l').
Proof.
  induction 1 as [|x l l' _ IH|x y l|l1 l2 l3 _ IH12 _ IH23]; simpl.
  - constructor.
  - destruct (p x); [now constructor | assumption].
  - destruct (p x), (p y); try apply Permutation_refl. apply perm_swap.
  - eapply Permutation_trans; eauto.
Qed.

Lemma fold_vadd_perm `{!ExactArith V} (l l' : list V) :
  Permutation l l' -> forall acc, fold_left vadd l acc = fold_left vadd l' acc.
Proof.
  induction 1 as [|x l l' _ IH|x y l|l1 l2 l3 _ IH12 _ IH23]; intros acc; simpl.
  - reflexivity.
  - apply IH.
  - f_equal. rewrite <- !vadd_assoc. f_equal. apply vadd_comm.
  - now rewrite IH12.
Qed.

Lemma nanmean_perm `{!ExactArith V} (vs vs' : list V) :
  Permutation vs vs' -> nanmean vs = nanmean vs'.
Proof.
  intros H. unfold nanmean. f_equal.
  - apply fold_vadd_perm. now apply Permutation_map.
  - apply Permutation_length. now apply Permutation_filter.
Qed.

Lemma grouping_evaluation_perm `{!ExactArith V} (rows rows' : list (Z * V)) :
  Permutation rows rows' ->
  grouping_evaluation rows grouping_func = grouping_evaluation rows' grouping_func.
Proof.
  intros H. unfold grouping_evaluation. apply group_rows_same in H.
  induction H as [|g g' gs gs' [Hk Hp] _ IH]; simpl; [reflexivity|].
  f_equal; [|assumption]. unfold grouping_func. f_equal; [assumption|].
  now apply nanmean_perm.
Qed.

End RegroupFacts.


(** ** The component plot *)

Section PlotFacts.

Context {V : Type} {A : Arith V}.

Variable components_enum : list (string * SilverkiteComponent).
Variable time_feature : string -> Z -> Z.
Variable num_to_datetime : V -> Z.

Local Abbreviation render_panel' :=
  (render_panel components_enum time_feature num_to_datetime).
Local Abbreviation render_panels' :=
  (render_panels components_enum time_feature num_to_datetime).
Local Abbreviation plot_with' :=
  (plot_with components_enum time_feature num_to_datetime).
Local Abbreviation plot_silverkite_components' :=
  (plot_silverkite_components components_enum time_feature num_to_datetime).

Definition is_changepoints (c : string) : bool := String.eqb c "trend_changepoints".

(** A column that the loop can draw: a column whose name contains
    [SEASONALITY] must be a member of the enumeration and numeric. *)
Definition renderable (t : Table V) (name : string) : Prop :=
  str_contains "SEASONALITY" name = true ->
  exists member vs,
    enum_lookup components_enum name = Some member
    /\ lookup_col name t = Some (NumS vs).

Lemma unique_label (t : Table V) (n : string) :
  NoDup (table_columns t) -> In n (table_columns t) ->
  exists s, filter (fun c => String.eqb (fst c) n) t = [(n, s)]
            /\ lookup_col n t = Some s.
Proof.
  intros Hnd Hin. unfold table_columns in Hin. apply in_map_iff in Hin.
  destruct Hin as [[n' s] [Hn Hc]]. simpl in Hn. subst n'.
  exists s. pose proof (filter_unique_label t (n, s) Hnd Hc) as Hf. simpl in Hf.
  split; [assumption|]. unfold lookup_col. now rewrite Hf.
Qed.

Lemma render_panel_ok (t : Table V) (time_col : string) (ind : nat) (name : string) :
  NoDup (table_columns t) -> In time_col (table_columns t) ->
  In name (table_columns t) -> renderable t name ->
  exists p, render_panel' t time_col ind name = Ok p
            /\ p_name p = name /\ p_row p = ind + 1.
Proof.
  intros Hnd Ht Hn Hr. unfold render_panel, getitem_cols. simpl.
  apply mem_In in Ht as Ht'. apply mem_In in Hn as Hn'. rewrite Ht', Hn'. simpl.
  destruct (unique_label t time_col Hnd Ht) as [st [Hft _]].
  destruct (unique_label t name Hnd Hn) as [sn [Hfn Hln]].
  unfold select_cols. simpl. rewrite Hft, Hfn. simpl.
  destruct (str_contains "SEASONALITY" name) eqn:Es.
  - destruct (Hr Es) as [member [vs [Hm Hl]]].
    assert (sn = NumS vs) by congruence. subst sn.
    unfold group_silverkite_seas_components. rewrite Hm. simpl.
    rewrite String.eqb_refl.
    destruct (String.eqb (ylabel member) (groupby_time_feature member));
      simpl; eexists; split; reflexivity || (split; reflexivity).
  - simpl. eexists. split; [reflexivity|]. split; reflexivity.
Qed.

Lemma render_panels_ok (t : Table V) (time_col : string) (names : list string) :
  NoDup (table_columns t) -> In time_col (table_columns t) ->
  (forall name, In name names -> In name (table_columns t) /\ renderable t name) ->
  forall ind,
  exists ps, render_panels' t time_col ind names = Ok ps
             /\ map p_name ps = names
             /\ map p_row ps = seq (ind + 1) (List.length names).
Proof.
  intros Hnd Ht. induction names as [|name names IH]; intros Hall ind; simpl.
  - exists []. repeat split.
  - destruct (Hall name) as [Hin Hr]; [now left|].
    destruct (render_panel_ok t time_col ind name Hnd Ht Hin Hr) as [p [Hp [Hpn Hpr]]].
    rewrite Hp. simpl.
    destruct (IH (fun n Hn => Hall n (or_intror Hn)) (S ind)) as [ps [Hps [Hn Hrow]]].
    rewrite Hps. simpl. exists (p :: ps). split; [reflexivity|]. simpl.
    rewrite Hpn, Hn, Hpr, Hrow. split; [reflexivity|]. f_equal.
Qed.

(** The table the panels are drawn from. *)
Definition strip_changepoints (t : Table V) : Table V :=
  if mem "trend_changepoints" (table_columns t)
  then drop_col "trend_changepoints" t else t.

Lemma strip_changepoints_columns (t : Table V) :
  table_columns (strip_changepoints t)
  = filter (fun c => negb (is_changepoints c)) (table_columns t).
Proof.
  unfold strip_changepoints, table_columns, is_changepoints.
  destruct (mem "trend_changepoints" (map fst t)) eqn:E.
  - unfold drop_col. now rewrite filter_map_fst.
  - apply mem_not_In in E. symmetry. apply forallb_filter_id.
    apply forallb_forall. intros c Hc. apply negb_true_iff, String.eqb_neq.
    intros ->. contradiction.
Qed.

Lemma strip_changepoints_lookup (t : Table V) (name : string) :
  name <> "trend_changepoints" ->
  lookup_col name (strip_changepoints t) = lookup_col name t.
Proof.
  intros Hne. unfold strip_changepoints.
  destruct (mem "trend_changepoints" (table_columns t)); [|reflexivity].
  unfold lookup_col, drop_col. rewrite filter_filter.
  erewrite filter_ext; [reflexivity|]. intros c. simpl.
  destruct (String.eqb (fst c) name) eqn:E; [|now rewrite andb_false_r].
  apply String.eqb_eq in E. rewrite E.
  apply String.eqb_neq in Hne. now rewrite Hne.
Qed.

Lemma strip_changepoints_renderable (t : Table V) (name : string) :
  name <> "trend_changepoints" -> renderable t name ->
  renderable (strip_changepoints t) name.
Proof.
  intros Hne Hr Hs. destruct (Hr Hs) as [member [vs [H1 H2]]].
  exists member, vs. split; [assumption|]. now rewrite strip_changepoints_lookup.
Qed.

Lemma plot_with_unfold (time_col value_col : string) (t : Table V)
    (names : option (list string)) (title : option string) :
  plot_with' time_col value_col t names title
  = (sel <- select_names (table_columns (strip_changepoints t)) value_col names ;;
     if (List.length (fst sel) =? 0)%nat then Raise ZeroDivisionError
     else
       panels <- render_panels' (strip_changepoints t) time_col 0 (fst sel) ;;
       Ok ({| fig_rows := List.length (fst sel);
              fig_title := match title with Some s => s | None => "Component plots" end;
              fig_height := 350 * List.length (fst sel);
              fig_panels := panels;
              fig_markers :=
                match (if mem "trend_changepoints" (table_columns t)
                       then Some (changepoint_cells t time_col) else None) with
                | Some cps =>
                    if mem "trend" (fst sel)
                    then changepoint_markers (index_of "trend" (fst sel) + 1) true cps
                    else []
                | None => []
                end |},
           snd sel)).
Proof. reflexivity. Qed.

(** C7: with [names=None] the figure has exactly one panel per column of
    the components table other than the time column and the
    [trend_changepoints] column, in the table's column order, so the value
    column comes first. *)
Theorem plot_without_names_draws_every_column (t : Table V) (title : option string)
    (time_col value_col : string) (rest : list string) :
  table_columns t = time_col :: value_col :: rest ->
  NoDup (table_columns t) ->
  time_col <> "trend_changepoints" ->
  value_col <> "trend_changepoints" ->
  (forall name, In name (value_col :: rest) -> renderable t name) ->
  exists fig,
    plot_silverkite_components' t None title = Ok (fig, [])
    /\ map p_name (fig_panels fig)
       = filter (fun c => negb (is_changepoints c)) (value_col :: rest)
    /\ map p_row (fig_panels fig) = seq 1 (List.length (fig_panels fig))
    /\ fig_rows fig = List.length (fig_panels fig)
    /\ hd_error (map p_name (fig_panels fig)) = Some value_col.
Proof.
  intros Hcols Hnd Htc Hvc Hr.
  unfold plot_silverkite_components. rewrite Hcols. simpl firstn. cbv iota.
  rewrite plot_with_unfold, strip_changepoints_columns, Hcols.
  assert (Et : is_changepoints time_col = false) by (now apply String.eqb_neq).
  assert (Ev : is_changepoints value_col = false) by (now apply String.eqb_neq).
  simpl filter. rewrite Et, Ev. cbn [negb].
  set (kept := filter (fun c => negb (is_changepoints c)) rest).
  unfold select_names. cbn [bind tl fst snd List.length Nat.eqb].
  assert (Hsub : forall name, In name (value_col :: kept) ->
            In name (table_columns (strip_changepoints t))
            /\ renderable (strip_changepoints t) name).
  { intros name Hin.
    assert (Hin' : In name (value_col :: rest) /\ name <> "trend_changepoints").
    { destruct Hin as [<-|Hin]; [split; [now left | assumption]|].
      apply filter_In in Hin. destruct Hin as [Hin Hn]. split; [now right|].
      apply negb_true_iff in Hn. now apply String.eqb_neq in Hn. }
    destruct Hin' as [Hin1 Hin2]. split.
    - rewrite strip_changepoints_columns, Hcols. apply filter_In. split.
      + now right.
      + apply negb_true_iff. now apply String.eqb_neq.
    - apply strip_changepoints_renderable; auto. }
  assert (Hnd' : NoDup (table_columns (strip_changepoints t)))
    by (rewrite strip_changepoints_columns; now apply NoDup_filter).
  assert (Ht' : In time_col (table_columns (strip_changepoints t))).
  { rewrite strip_changepoints_columns, Hcols. simpl. rewrite Et. now left. }
  destruct (render_panels_ok (strip_changepoints t) time_col (value_col :: kept)
              Hnd' Ht' Hsub 0) as [ps [Hps [Hnames Hrows]]].
  rewrite Hps. cbn [bind]. eexists. split; [reflexivity|].
  cbn [fig_panels fig_rows].
  assert (Hlen : List.length ps = S (List.length kept)).
  { rewrite <- (length_map p_name), Hnames. reflexivity. }
  rewrite Hnames, Hrows, Hlen. repeat split.
Qed.

(** The columns left once the changepoint column is stripped, and those of
    them that the caller asked for, in table order. *)
Definition stripped_columns (t : Table V) : list string :=
  filter (fun c => negb (is_changepoints c)) (table_columns t).

Definition kept_columns (t : Table V) (names : list string) : list string :=
  filter (fun c => mem c names) (stripped_columns t).

Lemma names_removed_In (columns names : list string) (n : string) :
  In n (nodup string_dec (filter (fun n => negb (mem n columns)) names)) <->
  In n names /\ ~ In n columns.
Proof.
  rewrite nodup_In, filter_In, negb_true_iff, mem_not_In. reflexivity.
Qed.

(** C6: with a list of names, [plot_silverkite_components] raises the
    [ValueError] when no name is a column of the table (the changepoint
    column stripped); otherwise it draws the matching columns in table order,
    with [value_col] first (put in front unless it already is the first kept
    name), and warns exactly when some name is not a column, listing those
    names. *)
Theorem plot_with_names_keeps_matching_columns (t : Table V) (names : list string)
    (title : option string) (time_col value_col : string) (rest : list string) :
  table_columns t = time_col :: value_col :: rest ->
  (kept_columns t names = [] ->
   plot_silverkite_components' t (Some names) title
   = Raise (ValueError
              "None of the provided components have been specified in the model."))
  /\ (kept_columns t names <> [] ->
      NoDup (table_columns t) ->
      time_col <> "trend_changepoints" ->
      value_col <> "trend_changepoints" ->
      (forall name, In name (value_col :: kept_columns t names) -> renderable t name) ->
      exists fig warnings,
        plot_silverkite_components' t (Some names) title = Ok (fig, warnings)
        /\ map p_name (fig_panels fig)
           = match kept_columns t names with
             | first :: _ =>
                 if String.eqb first value_col then kept_columns t names
                 else value_col :: kept_columns t names
             | [] => []
             end
        /\ hd_error (map p_name (fig_panels fig)) = Some value_col
        /\ ((forall n, In n names -> In n (stripped_columns t)) -> warnings = [])
        /\ ((exists n, In n names /\ ~ In n (stripped_columns t)) ->
            exists names_removed,
              warnings = [ComponentsNotSpecified names_removed]
              /\ forall n, In n names_removed <->
                           In n names /\ ~ In n (stripped_columns t))).
Proof.
  intros Hcols. unfold plot_silverkite_components. rewrite Hcols. simpl firstn. cbv iota.
  rewrite plot_with_unfold, strip_changepoints_columns.
  fold (stripped_columns t). unfold select_names. fold (kept_columns t names).
  split.
  - intros Hk. rewrite Hk. reflexivity.
  - intros Hk Hnd Htc Hvc Hr.
    destruct (kept_columns t names) as [|first kept'] eqn:Ekept; [congruence|].
    cbn [nonempty negb].
    set (removed := nodup string_dec
                      (filter (fun n => negb (mem n (stripped_columns t))) names)).
    set (names_kept := if String.eqb first value_col then first :: kept'
                       else value_col :: first :: kept').
    cbn [bind fst snd].
    assert (Hlen : Nat.eqb (List.length names_kept) 0 = false).
    { unfold names_kept. now destruct (String.eqb first value_col). }
    rewrite Hlen.
    assert (Hstripped : forall name, name <> "trend_changepoints" ->
              In name (table_columns t) -> In name (stripped_columns t)).
    { intros name Hne Hin. apply filter_In. split; [assumption|].
      apply negb_true_iff. now apply String.eqb_neq. }
    assert (Hkept_in : forall name, In name (first :: kept') ->
              In name (stripped_columns t)).
    { intros name Hin. rewrite <- Ekept in Hin. unfold kept_columns in Hin.
      apply filter_In in Hin. tauto. }
    assert (Hsub : forall name, In name names_kept ->
              In name (table_columns (strip_changepoints t))
              /\ renderable (strip_changepoints t) name).
    { intros name Hin.
      assert (Hin' : In name (value_col :: first :: kept')).
      { unfold names_kept in Hin.
        destruct (String.eqb first value_col); [now right | assumption]. }
      assert (Hs : In name (stripped_columns t)).
      { destruct Hin' as [<-|Hin']; [|now apply Hkept_in].
        apply Hstripped; [assumption|]. rewrite Hcols. simpl. tauto. }
      split.
      - now rewrite strip_changepoints_columns.
      - apply strip_changepoints_renderable; [|now apply Hr].
        apply filter_In in Hs. destruct Hs as [_ Hs].
        apply negb_true_iff in Hs. now apply String.eqb_neq in Hs. }
    assert (Hnd' : NoDup (table_columns (strip_changepoints t)))
      by (rewrite strip_changepoints_columns, Hcols; now apply NoDup_filter).
    assert (Ht' : In time_col (table_columns (strip_changepoints t))).
    { rewrite strip_changepoints_columns. apply Hstripped; [assumption|].
      rewrite Hcols. now left. }
    destruct (render_panels_ok (strip_changepoints t) time_col names_kept
                Hnd' Ht' Hsub 0) as [ps [Hps [Hnames Hrows]]].
    rewrite Hps. cbn [bind]. eexists. eexists. split; [reflexivity|].
    cbn [fig_panels]. rewrite Hnames. split; [reflexivity|]. split.
    + unfold names_kept. destruct (String.eqb first value_col) eqn:E; [|reflexivity].
      apply String.eqb_eq in E. now subst.
    + split.
      * intros Hall. replace removed with (@nil string); [reflexivity|].
        symmetry. destruct removed as [|n removed'] eqn:Er; [reflexivity|].
        assert (Hn : In n removed) by (rewrite Er; now left).
        apply names_removed_In in Hn. destruct Hn as [Hn1 Hn2].
        exfalso. now apply Hn2, Hall.
      * intros [n [Hn1 Hn2]].
        assert (Hn : In n removed) by (apply names_removed_In; tauto).
        exists removed. split.
        -- destruct removed; [contradiction | reflexivity].
        -- intros m. apply names_removed_In.
Qed.

End PlotFacts.

(** ** The weighted feature matrix of [plot_components] *)

Section DiagnosticsFacts.

Context {V : Type} {A : Arith V}.

Variable re_search : string -> string -> bool.
Variables TREND_REGEX SEASONALITY_REGEX LAG_REGEX EVENT_REGEX : string.
Variable components_enum : list (string * SilverkiteComponent).
Variable get_trend_changepoint_dates_from_cols : list string -> list Z.
Variable time_feature : string -> Z -> Z.
Variable num_to_datetime : V -> Z.

Lemma scale_columns_nth (coef : list V) (cols : list (string * list V)) (j : nat)
    (name : string) (col : list V) (c : V) :
  nth_error cols j = Some (name, col) -> nth_error coef j = Some c ->
  nth_error (scale_columns coef cols) j = Some (name, map (fun x => vmul c x) col).
Proof.
  unfold scale_columns. revert cols j.
  induction coef as [|w coef IH]; intros [|d cols] [|j] Hc Hw; simpl in *;
    try discriminate.
  - inversion Hc; inversion Hw; subst. reflexivity.
  - now apply IH.
Qed.

Lemma scale_columns_names (coef : list V) (cols : list (string * list V)) :
  List.length coef = List.length cols ->
  map fst (scale_columns coef cols) = map fst cols.
Proof.
  unfold scale_columns. revert cols.
  induction coef as [|w coef IH]; intros [|d cols] H; simpl in *; try discriminate;
    [reflexivity|].
  f_equal. apply IH. lia.
Qed.

Lemma scale_columns_wf (n : nat) (coef : list V) (cols : list (string * list V)) :
  Forall (fun c => List.length (snd c) = n) cols ->
  Forall (fun c => List.length (snd c) = n) (scale_columns coef cols).
Proof.
  unfold scale_columns. intros H. revert coef.
  induction H as [|d cols Hd _ IH]; intros [|w coef]; simpl; constructor.
  - simpl. now rewrite length_map.
  - apply IH.
Qed.


End DiagnosticsFacts.

(** * The properties on the concrete configuration *)

Module ExampleFacts.

Import Example.

Lemma re_search_alternation (s : string) :
  re_search (SEASONALITY_REGEX ++ "|" ++ LAG_REGEX)%string s
  = re_search SEASONALITY_REGEX s || re_search LAG_REGEX s.
Proof.
  unfold re_search. cbn [SEASONALITY_REGEX LAG_REGEX String.append split_bar Ascii.eqb
                         Bool.eqb existsb].
  now rewrite !orb_false_r, orb_assoc.
Qed.

Lemma enum_is_well_named : enum_well_named components_enum.
Proof.
  split.
  - unfold enum_keys. simpl. repeat constructor; simpl; intuition discriminate.
  - intros k Hk Hr. unfold enum_keys, reserved_columns in *. simpl in Hk, Hr.
    destruct Hk as [<-|[<-|[<-|[<-|[<-|[]]]]]]; intuition discriminate.
Qed.

Lemma feature_columns_distinct : NoDup (frame_columns feature_df_exact).
Proof. unfold frame_columns. simpl. repeat constructor; simpl; intuition discriminate. Qed.

Lemma components_columns_distinct : NoDup (table_columns components).
Proof. simpl. repeat constructor; simpl; intuition discriminate. Qed.

(** The end-to-end example: five daily values, a trend column and a daily
    seasonality column. *)
Example end_to_end_decomposition :
  decompose df "ts" "y" (Some feature_df)
  = Ok [("ts", TimeS [0; 24; 48; 72; 96]%Z);
        ("y", NumS [10; 12; 9; 15; 11]%float);
        ("trend", NumS [1; 1; 1; 1; 1]%float);
        ("DAILY_SEASONALITY", NumS [0.5; -0.5; 0.5; -0.5; 0.5]%float);
        ("residual", NumS [8.5; 11.5; 7.5; 14.5; 9.5]%float)].
Proof. vm_compute. reflexivity. Qed.

Example empty_feature_matrix_raises :
  decompose df "ts" "y" (Some {| f_nrows := 5; f_cols := [] |})
  = Raise (ValueError "feature_df must be non-empty").
Proof. reflexivity. Qed.

Example row_mismatch_raises :
  decompose df "ts" "y" (Some {| f_nrows := 4; f_cols := [("trend_cp0", [1; 1; 1; 1]%float)] |})
  = Raise (ValueError "df and feature_df must have same number of rows.").
Proof. reflexivity. Qed.



(** C10, at the end-to-end example. *)
Lemma time_and_value_columns_come_first_witness :
  exists components,
    decompose df "ts" "y" (Some feature_df) = Ok components
    /\ firstn 2 (table_columns components) = ["ts"; "y"]
    /\ plot components None None
       = plot_with components_enum time_feature num_to_datetime "ts" "y" components
                   None None.
Proof.
  destruct (time_and_value_columns_come_first re_search TREND_REGEX SEASONALITY_REGEX
              LAG_REGEX EVENT_REGEX components_enum
              get_trend_changepoint_dates_from_cols num_to_datetime
              df "ts" "y" feature_df eq_refl eq_refl)
    as [components [H1 [H2 H3]]].
  exists components. split; [exact H1|]. split; [exact H2|].
  apply H3.
Defined.


(** C4, at the exact example: the categories with a matching column are
    present and the weekly seasonality, which has none, is not. *)
Lemma semantic_column_present_iff_matched_witness :
  exists components,
    decompose df_exact "ts" "y" (Some feature_df_exact) = Ok components
    /\ In "trend" (table_columns components)
    /\ In "autoregression" (table_columns components)
    /\ In "lagged_regressor" (table_columns components)
    /\ In "DAILY_SEASONALITY" (table_columns components)
    /\ In "events" (table_columns components)
    /\ ~ In "WEEKLY_SEASONALITY" (table_columns components).
Proof.
  destruct (semantic_column_present_iff_matched re_search TREND_REGEX
              SEASONALITY_REGEX LAG_REGEX EVENT_REGEX components_enum
              get_trend_changepoint_dates_from_cols num_to_datetime
              df_exact "ts" "y" feature_df_exact enum_is_well_named)
    as [components [H1 [Htrend [Har [Hlr [Hseas Hev]]]]]].
  - unfold semantic_columns, enum_keys. simpl. intuition discriminate.
  - unfold semantic_columns, enum_keys. simpl. intuition discriminate.
  - reflexivity.
  - reflexivity.
  - exists components. split; [exact H1|].
    split; [apply Htrend; exists "trend_cp0"; repeat split; simpl; tauto|].
    split; [apply Har; exists "y_lag1"; repeat split; simpl; tauto|].
    split; [apply Hlr; exists "regressor_lag1"; repeat split; simpl; tauto|].
    split.
    { apply (Hseas "DAILY_SEASONALITY"
                   {| groupby_time_feature := "tod"; xlabel := "Hour of day";
                      ylabel := "daily" |}); [simpl; tauto|].
      exists "seasonal_daily_sin1". repeat split; simpl; tauto. }
    split; [apply Hev; exists "events_Christmas"; repeat split; simpl; tauto|].
    intros H.
    apply (Hseas "WEEKLY_SEASONALITY"
                 {| groupby_time_feature := "tow"; xlabel := "Day of week";
                    ylabel := "weekly" |}) in H; [|simpl; tauto].
    destruct H as [c [Hc [_ Hw]]]. simpl in Hc.
    destruct Hc as [<-|[<-|[<-|[<-|[<-|[]]]]]]; vm_compute in Hw; discriminate.
Defined.


Ltac show_renderable :=
  let name := fresh "name" in
  let Hin := fresh "Hin" in
  let Hs := fresh "Hs" in
  intros name Hin Hs; simpl in Hin;
  repeat (destruct Hin as [<-|Hin];
          [ first [ vm_compute in Hs; discriminate
                  | eexists; eexists; split; reflexivity ] | ]);
  contradiction.

(** C7, at the example table: one panel per column other than [ts] and
    [trend_changepoints], in table order. *)
Lemma plot_without_names_draws_every_column_witness :
  exists fig,
    plot components None None = Ok (fig, [])
    /\ map p_name (fig_panels fig) = ["y"; "trend"; "DAILY_SEASONALITY"; "residual"]
    /\ map p_row (fig_panels fig) = seq 1 (List.length (fig_panels fig))
    /\ fig_rows fig = List.length (fig_panels fig)
    /\ hd_error (map p_name (fig_panels fig)) = Some "y".
Proof.
  apply (plot_without_names_draws_every_column components_enum time_feature
           num_to_datetime components None "ts" "y"
           ["trend"; "DAILY_SEASONALITY"; "residual"; "trend_changepoints"]).
  - reflexivity.
  - exact components_columns_distinct.
  - discriminate.
  - discriminate.
  - show_renderable.
Defined.

(** C6, at the example table: no matching name raises; [trend] and an unknown
    name draw [y] and [trend] and warn about the unknown name. *)
Lemma plot_with_names_keeps_matching_columns_witness :
  plot components (Some ["bogus"]) None
  = Raise (ValueError
             "None of the provided components have been specified in the model.")
  /\ exists fig warnings,
      plot components (Some ["trend"; "bogus"]) None = Ok (fig, warnings)
      /\ map p_name (fig_panels fig) = ["y"; "trend"]
      /\ hd_error (map p_name (fig_panels fig)) = Some "y"
      /\ exists names_removed,
          warnings = [ComponentsNotSpecified names_removed]
          /\ In "bogus" names_removed.
Proof.
  split.
  - apply (plot_with_names_keeps_matching_columns components_enum time_feature
             num_to_datetime components ["bogus"] None "ts" "y"
             ["trend"; "DAILY_SEASONALITY"; "residual"; "trend_changepoints"] eq_refl).
    reflexivity.
  - destruct (proj2 (plot_with_names_keeps_matching_columns components_enum
                       time_feature num_to_datetime components ["trend"; "bogus"]
                       None "ts" "y"
                       ["trend"; "DAILY_SEASONALITY"; "residual"; "trend_changepoints"]
                       eq_refl))
      as [fig [warnings [H1 [H2 [H3 [_ H5]]]]]].
    + discriminate.
    + exact components_columns_distinct.
    + discriminate.
    + discriminate.
    + show_renderable.
    + exists fig, warnings. split; [exact H1|]. split; [exact H2|]. split; [exact H3|].
      destruct H5 as [names_removed [Hw Hn]].
      * exists "bogus". split; [simpl; tauto|].
        unfold stripped_columns. simpl. intuition discriminate.
      * exists names_removed. split; [exact Hw|]. apply Hn. split; [simpl; tauto|].
        unfold stripped_columns. simpl. intuition discriminate.
Defined.




End ExampleFacts.

(** * Further properties of the decomposition *)

Section DecompositionLayout.

Context {V : Type} {A : Arith V}.

Variable re_search : string -> string -> bool.
Variables TREND_REGEX SEASONALITY_REGEX LAG_REGEX EVENT_REGEX : string.
Variable components_enum : list (string * SilverkiteComponent).
Variable get_trend_changepoint_dates_from_cols : list string -> list Z.
Variable num_to_datetime : V -> Z.

Local Abbreviation trend_cols := (trend_cols_of re_search TREND_REGEX SEASONALITY_REGEX LAG_REGEX).
Local Abbreviation lag_cols := (lag_cols_of re_search LAG_REGEX).
Local Abbreviation decompose :=
  (get_silverkite_components re_search TREND_REGEX SEASONALITY_REGEX LAG_REGEX
     EVENT_REGEX components_enum get_trend_changepoint_dates_from_cols
     num_to_datetime).
Local Abbreviation build :=
  (build_components re_search TREND_REGEX SEASONALITY_REGEX LAG_REGEX EVENT_REGEX
     components_enum get_trend_changepoint_dates_from_cols num_to_datetime).

(** The label a step adds, when its columns are not empty. *)
Definition when_nonempty {X : Type} (cols : list X) (label : string) : list string :=
  if nonempty cols then [label] else [].

(** The members of the enumeration that have a column to sum, in order. *)
Definition present_members (f : FeatureFrame V) : list string :=
  map fst (filter (fun m => nonempty (seas_member_cols re_search SEASONALITY_REGEX f m))
                  components_enum).

(** The changepoint dates read off the trend columns. *)
Definition changepoint_dates_of (f : FeatureFrame V) : list Z :=
  if nonempty (trend_cols (frame_columns f))
  then get_trend_changepoint_dates_from_cols (trend_cols (frame_columns f))
  else [].

(** The labels of the returned table, in order. *)
Definition expected_columns (time_col value_col : string) (f : FeatureFrame V)
  : list string :=
  [time_col; value_col]
  ++ when_nonempty (trend_cols (frame_columns f)) "trend"
  ++ when_nonempty (ar_cols_of value_col (lag_cols (frame_columns f))) "autoregression"
  ++ when_nonempty (lagged_regressor_cols_of value_col (lag_cols (frame_columns f)))
                   "lagged_regressor"
  ++ present_members f
  ++ when_nonempty (event_cols_of re_search EVENT_REGEX (frame_columns f)) "events"
  ++ ["residual"]
  ++ when_nonempty (changepoint_dates_of f) "trend_changepoints".

(** Every label the decomposition can use, in the order of the steps. *)
Definition all_labels (time_col value_col : string) : list string :=
  [time_col; value_col; "trend"; "autoregression"; "lagged_regressor"]
  ++ enum_keys components_enum
  ++ ["events"; "residual"; "trend_changepoints"].

Lemma set_col_fresh (name : string) (s : Series V) (t : Table V) :
  ~ In name (table_columns t) -> set_col name s t = t ++ [(name, s)].
Proof. intros H. unfold set_col. apply mem_not_In in H. now rewrite H. Qed.

Lemma set_col_fresh_columns (name : string) (s : Series V) (t : Table V) :
  ~ In name (table_columns t) ->
  table_columns (set_col name s t) = table_columns t ++ [name].
Proof.
  intros H. rewrite set_col_fresh by assumption. unfold table_columns.
  now rewrite map_app.
Qed.

Lemma fold_seasonality_columns (f : FeatureFrame V)
    (members : list (string * SilverkiteComponent)) :
  NoDup (map fst members) ->
  forall t : Table V,
  (forall k, In k (map fst members) -> ~ In k (table_columns t)) ->
  table_columns
    (fold_left
       (add_seasonality re_search f
          (get_pattern_cols re_search (frame_columns f) SEASONALITY_REGEX None))
       members t)
  = table_columns t
    ++ map fst (filter (fun m => nonempty (seas_member_cols re_search SEASONALITY_REGEX f m))
                       members).
Proof.
  induction members as [|m ms IH]; intros Hnd t Hfresh; simpl.
  - now rewrite app_nil_r.
  - inversion Hnd as [|? ? Hm Hnd']; subst.
    unfold add_seasonality at 2. fold (seas_member_cols re_search SEASONALITY_REGEX f m).
    destruct (nonempty (seas_member_cols re_search SEASONALITY_REGEX f m)) eqn:E.
    + rewrite IH; [|assumption|].
      * rewrite set_col_fresh_columns by (apply Hfresh; now left).
        simpl. now rewrite <- app_assoc.
      * intros k Hk. rewrite set_col_fresh_columns by (apply Hfresh; now left).
        rewrite in_app_iff. simpl. intros [H|[H|[]]].
        -- apply (Hfresh k); [now right | assumption].
        -- subst. contradiction.
    + apply IH; [assumption|]. intros k Hk. apply Hfresh. now right.
Qed.

(** One guarded assignment [if cols: components[label] = s]. *)
Definition assign_if {X : Type} (cols : list X) (label : string) (s : Series V)
    (t : Table V) : Table V :=
  if nonempty cols then set_col label s t else t.

Lemma assign_if_columns {X : Type} (cols : list X) (label : string) (s : Series V)
    (t : Table V) (pre post : list string) :
  NoDup (pre ++ label :: post) -> incl (table_columns t) pre ->
  table_columns (assign_if cols label s t) = table_columns t ++ when_nonempty cols label
  /\ incl (table_columns (assign_if cols label s t)) (pre ++ [label]).
Proof.
  intros Hnd Hincl. unfold assign_if, when_nonempty.
  destruct (nonempty cols).
  - assert (Hfresh : ~ In label (table_columns t)).
    { intros H. apply Hincl in H. apply NoDup_remove_2 in Hnd. apply Hnd.
      rewrite in_app_iff. now left. }
    rewrite set_col_fresh_columns by assumption. split; [reflexivity|].
    apply incl_app; [now apply incl_appl | apply incl_appr, incl_refl].
  - rewrite app_nil_r. split; [reflexivity | now apply incl_appl].
Qed.

Lemma add_lags_assign (value_col : string) (f : FeatureFrame V) (t : Table V) :
  add_lags re_search LAG_REGEX value_col f t
  = assign_if (lagged_regressor_cols_of value_col (lag_cols (frame_columns f)))
      "lagged_regressor"
      (sum_selected f (lagged_regressor_cols_of value_col (lag_cols (frame_columns f))))
      (assign_if (ar_cols_of value_col (lag_cols (frame_columns f))) "autoregression"
         (sum_selected f (ar_cols_of value_col (lag_cols (frame_columns f)))) t).
Proof.
  unfold add_lags, assign_if.
  destruct (nonempty (lag_cols (frame_columns f))) eqn:E; [reflexivity|].
  apply nonempty_false in E. rewrite E. reflexivity.
Qed.

Lemma add_trend_assign (f : FeatureFrame V) (t : Table V) :
  add_trend re_search TREND_REGEX SEASONALITY_REGEX LAG_REGEX f t
  = assign_if (trend_cols (frame_columns f)) "trend"
      (sum_selected f (trend_cols (frame_columns f))) t.
Proof. reflexivity. Qed.

Lemma add_events_assign (f : FeatureFrame V) (t : Table V) :
  add_events re_search EVENT_REGEX f t
  = assign_if (event_cols_of re_search EVENT_REGEX (frame_columns f)) "events"
      (sum_selected f (event_cols_of re_search EVENT_REGEX (frame_columns f))) t.
Proof. reflexivity. Qed.

Lemma add_residual_assign (df : Dataset V) (f : FeatureFrame V) (t : Table V) :
  add_residual df f t
  = assign_if [tt] "residual"
      (NumS (vsub_rows (d_value df) (sum_axis1 (f_nrows f) (f_cols f)))) t.
Proof. reflexivity. Qed.

Lemma NoDup_app_disjoint {X : Type} (l1 l2 : list X) (x : X) :
  NoDup (l1 ++ l2) -> In x l1 -> In x l2 -> False.
Proof.
  induction l1 as [|y l1 IH]; simpl; intros Hnd H1 H2; [contradiction|].
  inversion Hnd as [|? ? Hy Hnd']; subst. destruct H1 as [->|H1]; [|now apply IH].
  apply Hy. rewrite in_app_iff. now right.
Qed.

(** The columns of the built table, in order. *)
Lemma build_components_columns (df : Dataset V) (time_col value_col : string)
    (f : FeatureFrame V) :
  NoDup (all_labels time_col value_col) ->
  table_columns (build df time_col value_col f) = expected_columns time_col value_col f.
Proof.
  unfold all_labels. intros Hnd.
  unfold build_components, expected_columns.
  rewrite add_residual_assign, add_events_assign, add_lags_assign, add_trend_assign.
  set (t0 := [(time_col, TimeS (d_time df)); (value_col, NumS (d_value df))]).
  change [time_col; value_col] with (table_columns t0).
  assert (I0 : incl (table_columns t0) [time_col; value_col]) by apply incl_refl.
  (* trend *)
  destruct (assign_if_columns (trend_cols (frame_columns f)) "trend"
              (sum_selected f (trend_cols (frame_columns f))) t0
              [time_col; value_col]
              (["autoregression"; "lagged_regressor"] ++ enum_keys components_enum
               ++ ["events"; "residual"; "trend_changepoints"]) Hnd I0) as [E1 I1].
  set (t1 := assign_if (trend_cols (frame_columns f)) "trend"
               (sum_selected f (trend_cols (frame_columns f))) t0) in *.
  clearbody t1.
  (* lags *)
  destruct (assign_if_columns (ar_cols_of value_col (lag_cols (frame_columns f)))
              "autoregression"
              (sum_selected f (ar_cols_of value_col (lag_cols (frame_columns f)))) t1
              ([time_col; value_col] ++ ["trend"])
              (["lagged_regressor"] ++ enum_keys components_enum
               ++ ["events"; "residual"; "trend_changepoints"]) Hnd I1) as [E2 I2].
  set (t2 := assign_if (ar_cols_of value_col (lag_cols (frame_columns f)))
               "autoregression"
               (sum_selected f (ar_cols_of value_col (lag_cols (frame_columns f)))) t1)
    in *.
  clearbody t2.
  destruct (assign_if_columns
              (lagged_regressor_cols_of value_col (lag_cols (frame_columns f)))
              "lagged_regressor"
              (sum_selected f
                 (lagged_regressor_cols_of value_col (lag_cols (frame_columns f)))) t2
              (([time_col; value_col] ++ ["trend"]) ++ ["autoregression"])
              (enum_keys components_enum ++ ["events"; "residual"; "trend_changepoints"]))
    as [E3 I3]; [exact Hnd | exact I2 |].
  set (t3 := assign_if
               (lagged_regressor_cols_of value_col (lag_cols (frame_columns f)))
               "lagged_regressor"
               (sum_selected f
                  (lagged_regressor_cols_of value_col (lag_cols (frame_columns f)))) t2)
    in *.
  clearbody t3.
  (* seasonalities *)
  set (pre := ((([time_col; value_col] ++ ["trend"]) ++ ["autoregression"])
               ++ ["lagged_regressor"])) in *.
  assert (Hnd' : NoDup (pre ++ enum_keys components_enum
                        ++ ["events"; "residual"; "trend_changepoints"])) by exact Hnd.
  assert (Hkeys : NoDup (enum_keys components_enum)).
  { apply NoDup_app_remove_l in Hnd'. now apply NoDup_app_remove_r in Hnd'. }
  assert (E4 : table_columns
                 (add_seasonalities re_search SEASONALITY_REGEX components_enum f t3)
               = table_columns t3 ++ present_members f).
  { unfold add_seasonalities, present_members. apply fold_seasonality_columns.
    - exact Hkeys.
    - intros k Hk Hin. apply (NoDup_app_disjoint _ _ k Hnd').
      + now apply I3.
      + rewrite in_app_iff. now left. }
  assert (I4 : incl (table_columns
                       (add_seasonalities re_search SEASONALITY_REGEX components_enum f t3))
                    (pre ++ enum_keys components_enum)).
  { rewrite E4. apply incl_app; [now apply incl_appl|]. apply incl_appr.
    unfold present_members, enum_keys. intros k Hk. apply in_map_iff in Hk.
    destruct Hk as [m [<- Hm]]. apply filter_In in Hm. apply in_map. exact (proj1 Hm). }
  set (t4 := add_seasonalities re_search SEASONALITY_REGEX components_enum f t3) in *.
  clearbody t4.
  (* events *)
  assert (Hnd5 : NoDup ((pre ++ enum_keys components_enum)
                        ++ "events" :: ["residual"; "trend_changepoints"]))
    by (rewrite <- app_assoc; exact Hnd').
  destruct (assign_if_columns (event_cols_of re_search EVENT_REGEX (frame_columns f))
              "events"
              (sum_selected f (event_cols_of re_search EVENT_REGEX (frame_columns f)))
              t4 _ _ Hnd5 I4) as [E5 I5].
  set (t5 := assign_if (event_cols_of re_search EVENT_REGEX (frame_columns f)) "events"
               (sum_selected f (event_cols_of re_search EVENT_REGEX (frame_columns f)))
               t4) in *.
  clearbody t5.
  (* residual *)
  assert (Hnd6 : NoDup (((pre ++ enum_keys components_enum) ++ ["events"])
                        ++ "residual" :: ["trend_changepoints"]))
    by (rewrite <- app_assoc; exact Hnd5).
  destruct (assign_if_columns [tt] "residual"
              (NumS (vsub_rows (d_value df) (sum_axis1 (f_nrows f) (f_cols f))))
              t5 _ _ Hnd6 I5) as [E6 I6].
  set (t6 := assign_if [tt] "residual"
               (NumS (vsub_rows (d_value df) (sum_axis1 (f_nrows f) (f_cols f)))) t5)
    in *.
  clearbody t6.
  (* changepoints *)
  assert (Hnd7 : NoDup ((((pre ++ enum_keys components_enum) ++ ["events"])
                         ++ ["residual"]) ++ "trend_changepoints" :: []))
    by (rewrite <- app_assoc; exact Hnd6).
  assert (E7 : table_columns
                 (add_changepoints re_search TREND_REGEX SEASONALITY_REGEX LAG_REGEX
                    get_trend_changepoint_dates_from_cols num_to_datetime time_col f t6)
               = table_columns t6
                 ++ when_nonempty (changepoint_dates_of f) "trend_changepoints").
  { unfold add_changepoints, changepoint_dates_of, when_nonempty.
    destruct (nonempty (trend_cols (frame_columns f))); [|now rewrite app_nil_r].
    destruct (nonempty (get_trend_changepoint_dates_from_cols
                          (trend_cols (frame_columns f)))) eqn:Ed;
      [|now rewrite app_nil_r].
    apply set_col_fresh_columns. intros H. apply I6 in H.
    apply NoDup_remove_2 in Hnd7. apply Hnd7. now rewrite app_nil_r. }
  rewrite E7, E6, E5, E4, E3, E2, E1. unfold when_nonempty at 6. simpl nonempty.
  cbv iota. rewrite <- !app_assoc. reflexivity.
Qed.

Lemma NoDup_all_labels_neq (time_col value_col x y : string) (pre mid post : list string) :
  NoDup (all_labels time_col value_col) ->
  all_labels time_col value_col = pre ++ x :: mid ++ y :: post -> x <> y.
Proof.
  intros Hnd E Hxy. rewrite E in Hnd. subst y. apply NoDup_remove_2 in Hnd.
  apply Hnd. rewrite in_app_iff. right. rewrite in_app_iff. right. now left.
Qed.

(** What the distinctness of the labels gives for [time_col] and
    [value_col]. *)
Lemma all_labels_time_value (time_col value_col : string) :
  NoDup (all_labels time_col value_col) ->
  time_col <> value_col
  /\ (forall x, In x [time_col; value_col] ->
        ~ In x ["trend"; "autoregression"; "lagged_regressor"; "events"; "residual";
                "trend_changepoints"]
        /\ ~ In x (enum_keys components_enum)).
Proof.
  unfold all_labels. intros Hnd.
  assert (H2 : forall x, In x [time_col; value_col] ->
            ~ In x (["trend"; "autoregression"; "lagged_regressor"]
                    ++ enum_keys components_enum
                    ++ ["events"; "residual"; "trend_changepoints"])).
  { intros x Hx Hin.
    apply (NoDup_app_disjoint [time_col; value_col]
             (["trend"; "autoregression"; "lagged_regressor"]
              ++ enum_keys components_enum
              ++ ["events"; "residual"; "trend_changepoints"]) x); auto. }
  split.
  - inversion Hnd as [|? ? Hx _]; subst. intros ->. apply Hx. now left.
  - intros x Hx. specialize (H2 x Hx). rewrite !in_app_iff in H2. simpl in *.
    split; intros H; apply H2.
    + decompose [or] H; try contradiction; auto 9.
    + right. left. exact H.
Qed.

Lemma carried_lookup (df : Dataset V) (value_col : string)
    (f : FeatureFrame V) (x : string) (t0 : Table V) :
  ~ In x ["trend"; "autoregression"; "lagged_regressor"; "events"; "residual"] ->
  ~ In x (enum_keys components_enum) ->
  lookup_col x
    (add_residual df f
       (add_events re_search EVENT_REGEX f
          (add_seasonalities re_search SEASONALITY_REGEX components_enum f
             (add_lags re_search LAG_REGEX value_col f
                (add_trend re_search TREND_REGEX SEASONALITY_REGEX LAG_REGEX f t0)))))
  = lookup_col x t0.
Proof.
  intros Hx Hk. simpl in Hx.
  unfold add_residual. rewrite lookup_set_col_neq by (intros ->; apply Hx; auto 9).
  rewrite add_events_lookup by (intros ->; apply Hx; auto 9).
  unfold add_seasonalities.
  rewrite (fold_seasonality_lookup re_search get_trend_changepoint_dates_from_cols)
    by exact Hk.
  rewrite add_lags_lookup by (intros ->; apply Hx; auto 9).
  apply add_trend_lookup. intros ->. apply Hx. auto 9.
Qed.

(** X1: the columns of the returned table come in a fixed order: time,
    value, then [trend], [autoregression], [lagged_regressor], the
    seasonality members in the order of the enumeration, [events] (each only
    when it has columns to sum), then [residual], and [trend_changepoints]
    last when the trend columns carry changepoint dates. *)
Theorem decomposition_column_order (df : Dataset V) (time_col value_col : string)
    (f : FeatureFrame V) :
  NoDup (all_labels time_col value_col) ->
  frame_empty f = false ->
  d_nrows df = f_nrows f ->
  exists components,
    decompose df time_col value_col (Some f) = Ok components
    /\ table_columns components = expected_columns time_col value_col f.
Proof.
  intros Hnd He Hn. exists (build df time_col value_col f).
  split; [now apply accepted_input|]. now apply build_components_columns.
Qed.

(** X2: the time and value columns of [df] are carried into the table
    unchanged. *)
Theorem time_and_value_are_carried_over (df : Dataset V) (time_col value_col : string)
    (f : FeatureFrame V) :
  NoDup (all_labels time_col value_col) ->
  frame_empty f = false ->
  d_nrows df = f_nrows f ->
  exists components,
    decompose df time_col value_col (Some f) = Ok components
    /\ lookup_col time_col components = Some (TimeS (d_time df))
    /\ lookup_col value_col components = Some (NumS (d_value df)).
Proof.
  intros Hnd He Hn. exists (build df time_col value_col f).
  split; [now apply accepted_input|].
  destruct (all_labels_time_value time_col value_col Hnd) as [Hne Hfresh].
  unfold build_components. split.
  - destruct (Hfresh time_col) as [H1 H2]; [now left|]. simpl in H1.
    rewrite add_changepoints_lookup by (intros E; apply H1; rewrite <- E; auto 9).
    rewrite carried_lookup;
      [|intros Hin; apply H1; simpl in Hin; decompose [or] Hin; try contradiction; auto 9
       |exact H2].
    unfold lookup_col. simpl. now rewrite String.eqb_refl.
  - destruct (Hfresh value_col) as [H1 H2]; [right; now left|]. simpl in H1.
    rewrite add_changepoints_lookup by (intros E; apply H1; rewrite <- E; auto 9).
    rewrite carried_lookup;
      [|intros Hin; apply H1; simpl in Hin; decompose [or] Hin; try contradiction; auto 9
       |exact H2].
    unfold lookup_col. simpl.
    assert (E : String.eqb time_col value_col = false) by (now apply String.eqb_neq).
    now rewrite E, String.eqb_refl.
Qed.

Lemma all_labels_keys (time_col value_col k : string) :
  NoDup (all_labels time_col value_col) -> In k (enum_keys components_enum) ->
  ~ In k ["events"; "residual"; "trend_changepoints"].
Proof.
  unfold all_labels. intros Hnd Hk Hin.
  apply NoDup_app_remove_l in Hnd.
  now apply (NoDup_app_disjoint _ _ k Hnd).
Qed.

Lemma before_changepoints_fresh (df : Dataset V) (time_col value_col : string)
    (f : FeatureFrame V) :
  NoDup (all_labels time_col value_col) ->
  ~ In "trend_changepoints"
      (table_columns
         (add_residual df f
            (add_events re_search EVENT_REGEX f
               (add_seasonalities re_search SEASONALITY_REGEX components_enum f
                  (add_lags re_search LAG_REGEX value_col f
                     (add_trend re_search TREND_REGEX SEASONALITY_REGEX LAG_REGEX f
                        [(time_col, TimeS (d_time df));
                         (value_col, NumS (d_value df))])))))).
Proof.
  intros Hnd H.
  destruct (all_labels_time_value time_col value_col Hnd) as [_ Hfresh].
  apply add_residual_In in H. destruct H as [H|H]; [discriminate|].
  apply add_events_In in H. destruct H as [[H _]|H]; [discriminate|].
  apply add_seasonalities_In in H. destruct H as [[m [Hm [Hx _]]]|H].
  { apply (all_labels_keys time_col value_col "trend_changepoints" Hnd).
    - rewrite Hx. unfold enum_keys. now apply in_map.
    - simpl. auto. }
  apply add_lags_In in H. destruct H as [[H _]|[[H _]|H]]; try discriminate.
  apply add_trend_In in H. destruct H as [[H _]|H]; [discriminate|].
  simpl in H. destruct H as [H|[H|[]]].
  - destruct (Hfresh time_col) as [H1 _]; [now left|]. apply H1. rewrite H. simpl. auto 7.
  - destruct (Hfresh value_col) as [H1 _]; [right; now left|].
    apply H1. rewrite H. simpl. auto 7.
Qed.

(** X3: when the trend columns carry changepoint dates, the last column of
    the table is [trend_changepoints], with 1 in the rows whose timestamp is
    one of the dates and 0 elsewhere; otherwise the table has no such
    column. *)
Theorem changepoints_column_is_last (df : Dataset V) (time_col value_col : string)
    (f : FeatureFrame V) :
  NoDup (all_labels time_col value_col) ->
  frame_empty f = false ->
  d_nrows df = f_nrows f ->
  exists components,
    decompose df time_col value_col (Some f) = Ok components
    /\ (changepoint_dates_of f <> [] ->
        exists rest,
          components
          = rest ++ [("trend_changepoints",
                      IntS (map (fun t => if existsb (Z.eqb t) (changepoint_dates_of f)
                                          then 1%Z else 0%Z)
                                (d_time df)))]
          /\ ~ In "trend_changepoints" (table_columns rest))
    /\ (changepoint_dates_of f = [] ->
        ~ In "trend_changepoints" (table_columns components)).
Proof.
  intros Hnd He Hn. exists (build df time_col value_col f).
  split; [now apply accepted_input|].
  pose proof (before_changepoints_fresh df time_col value_col f Hnd) as Hfresh.
  destruct (all_labels_time_value time_col value_col Hnd) as [_ Htv].
  destruct (Htv time_col) as [H1 H2]; [now left|]. simpl in H1.
  unfold build_components, changepoint_dates_of, add_changepoints.
  destruct (nonempty (trend_cols (frame_columns f))).
  - destruct (nonempty (get_trend_changepoint_dates_from_cols
                          (trend_cols (frame_columns f)))) eqn:Ed.
    + split; [|intros E; rewrite E in Ed; discriminate].
      intros _. eexists. split; [|exact Hfresh].
      rewrite set_col_fresh by exact Hfresh. f_equal. f_equal. f_equal.
      rewrite carried_lookup;
      [|intros Hin; apply H1; simpl in Hin; decompose [or] Hin; try contradiction; auto 9
       |exact H2].
      unfold lookup_col. simpl. rewrite String.eqb_refl. reflexivity.
    + split; [|intros _; exact Hfresh].
      intros E. apply nonempty_true in E. congruence.
  - split; [congruence | intros _; exact Hfresh].
Qed.

Lemma pattern_cols_filter (cols : list string) (pattern : string) :
  get_pattern_cols re_search cols pattern None = filter (re_search pattern) cols.
Proof.
  unfold get_pattern_cols. apply filter_ext. intros c. simpl. apply andb_true_r.
Qed.


Lemma fold_seasonality_member (f : FeatureFrame V) (key : string)
    (member : SilverkiteComponent) (members : list (string * SilverkiteComponent)) :
  NoDup (map fst members) -> In (key, member) members ->
  seas_member_cols re_search SEASONALITY_REGEX f (key, member) <> [] ->
  forall t : Table V,
  lookup_col key
    (fold_left
       (add_seasonality re_search f
          (get_pattern_cols re_search (frame_columns f) SEASONALITY_REGEX None))
       members t)
  = Some (sum_selected f (seas_member_cols re_search SEASONALITY_REGEX f (key, member))).
Proof.
  induction members as [|m ms IH]; intros Hnd Hin Hne t; [contradiction|].
  inversion Hnd as [|? ? Hm Hnd']; subst. simpl. destruct Hin as [->|Hin].
  - rewrite (fold_seasonality_lookup re_search get_trend_changepoint_dates_from_cols)
      by exact Hm.
    change (add_seasonality re_search f
              (get_pattern_cols re_search (frame_columns f) SEASONALITY_REGEX None)
              t (key, member))
      with (assign_if (seas_member_cols re_search SEASONALITY_REGEX f (key, member)) key
              (sum_selected f (seas_member_cols re_search SEASONALITY_REGEX f (key, member)))
              t).
    unfold assign_if. apply nonempty_true in Hne. rewrite Hne. apply lookup_set_col_eq.
  - now apply IH.
Qed.


(** *** Row counts *)

Definition series_length (s : Series V) : nat :=
  match s with
  | TimeS ts => List.length ts
  | NumS vs => List.length vs
  | IntS ns => List.length ns
  end.

Definition has_rows (n : nat) (t : Table V) : Prop :=
  Forall (fun c => series_length (snd c) = n) t.

Lemma set_col_has_rows (n : nat) (name : string) (s : Series V) (t : Table V) :
  series_length s = n -> has_rows n t -> has_rows n (set_col name s t).
Proof.
  intros Hs Ht. unfold set_col, has_rows in *.
  destruct (mem name (table_columns t)).
  - apply Forall_map. eapply Forall_impl; [|exact Ht]. intros c Hc.
    now destruct (String.eqb (fst c) name).
  - apply Forall_app. split; [assumption|]. now constructor.
Qed.

Lemma sum_selected_length (f : FeatureFrame V) (names : list string) :
  wf_frame f -> series_length (sum_selected f names) = f_nrows f.
Proof.
  intros Hwf. unfold sum_selected. simpl. apply sum_axis1_length.
  unfold wf_frame in Hwf. rewrite Forall_forall in *. intros c Hc.
  unfold select_cols in Hc. apply in_flat_map in Hc. destruct Hc as [n [_ Hc]].
  apply filter_In in Hc. apply Hwf. exact (proj1 Hc).
Qed.

(** The invariant of the steps: every column has [n] rows and the column
    [x] is there. *)
Definition rows_and_column (n : nat) (x : string) (t : Table V) : Prop :=
  has_rows n t /\ In x (table_columns t).

Lemma set_col_rows_and_column (n : nat) (x name : string) (s : Series V) (t : Table V) :
  series_length s = n -> rows_and_column n x t -> rows_and_column n x (set_col name s t).
Proof.
  intros Hs [Ht Hx]. split; [now apply set_col_has_rows|].
  apply set_col_In. now right.
Qed.

Lemma assign_if_rows_and_column {X : Type} (n : nat) (x : string) (cols : list X)
    (label : string) (s : Series V) (t : Table V) :
  series_length s = n -> rows_and_column n x t ->
  rows_and_column n x (assign_if cols label s t).
Proof.
  intros Hs Ht. unfold assign_if. destruct (nonempty cols); [|assumption].
  now apply set_col_rows_and_column.
Qed.

Lemma lookup_has_rows (n : nat) (t : Table V) (name : string) (s : Series V) :
  has_rows n t -> lookup_col name t = Some s -> series_length s = n.
Proof.
  unfold has_rows, lookup_col. intros Ht Hl.
  destruct (filter (fun c => String.eqb (fst c) name) t) as [|c l] eqn:E; [discriminate|].
  inversion Hl; subst. rewrite Forall_forall in Ht. apply Ht.
  assert (Hin : In c (filter (fun c => String.eqb (fst c) name) t))
    by (rewrite E; now left).
  apply filter_In in Hin. exact (proj1 Hin).
Qed.

(** X6: every column of the returned table has as many rows as [df]. *)
Theorem components_have_as_many_rows_as_df (df : Dataset V)
    (time_col value_col : string) (f : FeatureFrame V) :
  wf_dataset df -> wf_frame f ->
  frame_empty f = false ->
  d_nrows df = f_nrows f ->
  exists components,
    decompose df time_col value_col (Some f) = Ok components
    /\ has_rows (d_nrows df) components.
Proof.
  intros [Hwt Hwv] Hwf He Hn. exists (build df time_col value_col f).
  split; [now apply accepted_input|].
  unfold build_components.
  rewrite add_residual_assign, add_events_assign, add_lags_assign, add_trend_assign.
  assert (H0 : rows_and_column (d_nrows df) time_col
                 [(time_col, TimeS (d_time df)); (value_col, NumS (d_value df))]).
  { split; [repeat constructor; assumption | now left]. }
  revert H0. generalize [(time_col, TimeS (d_time df)); (value_col, NumS (d_value df))].
  intros t0 H0.
  assert (Hsum : forall names, series_length (sum_selected f names) = d_nrows df).
  { intros names. rewrite Hn. now apply sum_selected_length. }
  assert (Hres : series_length
                   (NumS (vsub_rows (d_value df) (sum_axis1 (f_nrows f) (f_cols f))))
                 = d_nrows df).
  { simpl. unfold vsub_rows. rewrite length_map, length_combine.
    rewrite (sum_axis1_length (f_nrows f) (f_cols f) Hwf). lia. }
  assert (Hfold : forall members t,
            rows_and_column (d_nrows df) time_col t ->
            rows_and_column (d_nrows df) time_col
              (fold_left
                 (add_seasonality re_search f
                    (get_pattern_cols re_search (frame_columns f) SEASONALITY_REGEX None))
                 members t)).
  { induction members as [|m ms IH]; intros t Ht; simpl; [assumption|].
    apply IH. unfold add_seasonality.
    destruct (nonempty _); [|assumption]. now apply set_col_rows_and_column. }
  match goal with
  | |- has_rows _ (add_changepoints _ _ _ _ _ _ _ _ ?t) =>
      assert (H4 : rows_and_column (d_nrows df) time_col t)
  end.
  { apply assign_if_rows_and_column; [exact Hres|].
    apply assign_if_rows_and_column; [apply Hsum|].
    unfold add_seasonalities. apply Hfold.
    repeat (apply assign_if_rows_and_column; [apply Hsum|]). exact H0. }
  match type of H4 with rows_and_column _ _ ?t => set (t6 := t) in * end. clearbody t6.
  destruct H4 as [H4 Htime].
  unfold add_changepoints.
  destruct (nonempty (trend_cols (frame_columns f))); [|assumption].
  destruct (nonempty _); [|assumption].
  apply set_col_has_rows; [|assumption]. simpl. rewrite length_map.
  destruct (lookup_col time_col t6) as [s|] eqn:El.
  - apply (lookup_has_rows _ _ _ _ H4) in El.
    destruct s; simpl in *; rewrite ?length_map; assumption.
  - apply lookup_col_None in El. contradiction.
Qed.

(** *** The returned table, entry by entry *)

Definition entry_when {X : Type} (cols : list X) (label : string) (s : Series V)
  : Table V :=
  if nonempty cols then [(label, s)] else [].

Definition member_entries (f : FeatureFrame V)
    (members : list (string * SilverkiteComponent)) : Table V :=
  map (fun m => (fst m, sum_selected f (seas_member_cols re_search SEASONALITY_REGEX f m)))
      (filter (fun m => nonempty (seas_member_cols re_search SEASONALITY_REGEX f m))
              members).

Definition changepoint_flags (f : FeatureFrame V) (ts : list Z) : list Z :=
  map (fun t => if existsb (Z.eqb t) (changepoint_dates_of f) then 1%Z else 0%Z) ts.

(** The semantic columns, in table order. *)
Definition semantic_entries (value_col : string) (f : FeatureFrame V) : Table V :=
  entry_when (trend_cols (frame_columns f)) "trend"
             (sum_selected f (trend_cols (frame_columns f)))
  ++ entry_when (ar_cols_of value_col (lag_cols (frame_columns f))) "autoregression"
       (sum_selected f (ar_cols_of value_col (lag_cols (frame_columns f))))
  ++ entry_when (lagged_regressor_cols_of value_col (lag_cols (frame_columns f)))
       "lagged_regressor"
       (sum_selected f (lagged_regressor_cols_of value_col (lag_cols (frame_columns f))))
  ++ member_entries f components_enum
  ++ entry_when (event_cols_of re_search EVENT_REGEX (frame_columns f)) "events"
       (sum_selected f (event_cols_of re_search EVENT_REGEX (frame_columns f))).

Definition expected_table (df : Dataset V) (time_col value_col : string)
    (f : FeatureFrame V) : Table V :=
  [(time_col, TimeS (d_time df)); (value_col, NumS (d_value df))]
  ++ semantic_entries value_col f
  ++ [("residual",
       NumS (vsub_rows (d_value df) (sum_axis1 (f_nrows f) (f_cols f))))]
  ++ entry_when (changepoint_dates_of f) "trend_changepoints"
       (IntS (changepoint_flags f (d_time df))).

Lemma entry_when_columns {X : Type} (cols : list X) (label : string) (s : Series V) :
  table_columns (entry_when cols label s) = when_nonempty cols label.
Proof. unfold entry_when, when_nonempty. now destruct (nonempty cols). Qed.

Lemma expected_table_columns (df : Dataset V) (time_col value_col : string)
    (f : FeatureFrame V) :
  table_columns (expected_table df time_col value_col f)
  = expected_columns time_col value_col f.
Proof.
  unfold expected_table, semantic_entries, expected_columns, table_columns.
  rewrite !map_app. unfold member_entries, present_members. rewrite map_map.
  unfold entry_when, when_nonempty.
  repeat match goal with
         | |- context [nonempty ?l] => destruct (nonempty l)
         end; simpl; rewrite <- ?app_assoc; reflexivity.
Qed.

Lemma assign_if_table {X : Type} (cols : list X) (label : string) (s : Series V)
    (t : Table V) (pre post : list string) :
  NoDup (pre ++ label :: post) -> incl (table_columns t) pre ->
  assign_if cols label s t = t ++ entry_when cols label s.
Proof.
  intros Hnd Hincl. unfold assign_if, entry_when.
  destruct (nonempty cols); [|now rewrite app_nil_r].
  apply set_col_fresh. intros H. apply Hincl in H. apply NoDup_remove_2 in Hnd.
  apply Hnd. rewrite in_app_iff. now left.
Qed.

Lemma fold_seasonality_table (f : FeatureFrame V)
    (members : list (string * SilverkiteComponent)) :
  NoDup (map fst members) ->
  forall t : Table V,
  (forall k, In k (map fst members) -> ~ In k (table_columns t)) ->
  fold_left
    (add_seasonality re_search f
       (get_pattern_cols re_search (frame_columns f) SEASONALITY_REGEX None))
    members t
  = t ++ member_entries f members.
Proof.
  unfold member_entries.
  induction members as [|m ms IH]; intros Hnd t Hfresh; simpl.
  - now rewrite app_nil_r.
  - inversion Hnd as [|? ? Hm Hnd']; subst.
    unfold add_seasonality at 2. fold (seas_member_cols re_search SEASONALITY_REGEX f m).
    destruct (nonempty (seas_member_cols re_search SEASONALITY_REGEX f m)) eqn:E.
    + rewrite IH; [|assumption|].
      * rewrite set_col_fresh by (apply Hfresh; now left).
        simpl. now rewrite <- app_assoc.
      * intros k Hk. rewrite set_col_fresh_columns by (apply Hfresh; now left).
        rewrite in_app_iff. simpl. intros [H|[H|[]]].
        -- apply (Hfresh k); [now right | assumption].
        -- subst. contradiction.
    + apply IH; [assumption|]. intros k Hk. apply Hfresh. now right.
Qed.

(** The built table, entry by entry. *)
Lemma build_components_table (df : Dataset V) (time_col value_col : string)
    (f : FeatureFrame V) :
  NoDup (all_labels time_col value_col) ->
  build df time_col value_col f = expected_table df time_col value_col f.
Proof.
  intros Hnd0. pose proof Hnd0 as Hnd. unfold all_labels in Hnd.
  pose proof (before_changepoints_fresh df time_col value_col f Hnd0) as Hfresh.
  destruct (all_labels_time_value time_col value_col Hnd0) as [_ Htv].
  destruct (Htv time_col) as [Ht1 Ht2]; [now left|]. simpl in Ht1.
  assert (Hlookup : lookup_col time_col
            (add_residual df f
               (add_events re_search EVENT_REGEX f
                  (add_seasonalities re_search SEASONALITY_REGEX components_enum f
                     (add_lags re_search LAG_REGEX value_col f
                        (add_trend re_search TREND_REGEX SEASONALITY_REGEX LAG_REGEX f
                           [(time_col, TimeS (d_time df));
                            (value_col, NumS (d_value df))])))))
            = Some (TimeS (d_time df))).
  { rewrite carried_lookup;
      [|intros Hin; apply Ht1; simpl in Hin; decompose [or] Hin; try contradiction; auto 9
       |exact Ht2].
    unfold lookup_col. simpl. now rewrite String.eqb_refl. }
  unfold build_components, expected_table, semantic_entries.
  revert Hfresh Hlookup.
  rewrite add_residual_assign, add_events_assign, add_lags_assign, add_trend_assign.
  set (t0 := [(time_col, TimeS (d_time df)); (value_col, NumS (d_value df))]).
  assert (I0 : incl (table_columns t0) [time_col; value_col]) by apply incl_refl.
  (* trend *)
  destruct (assign_if_columns (trend_cols (frame_columns f)) "trend"
              (sum_selected f (trend_cols (frame_columns f))) t0
              [time_col; value_col]
              (["autoregression"; "lagged_regressor"] ++ enum_keys components_enum
               ++ ["events"; "residual"; "trend_changepoints"]) Hnd I0) as [_ I1].
  rewrite (assign_if_table (trend_cols (frame_columns f)) "trend" _ t0
             [time_col; value_col]
             (["autoregression"; "lagged_regressor"] ++ enum_keys components_enum
              ++ ["events"; "residual"; "trend_changepoints"]) Hnd I0) in *.
  set (t1 := t0 ++ entry_when (trend_cols (frame_columns f)) "trend" _) in *.
  (* lags *)
  destruct (assign_if_columns (ar_cols_of value_col (lag_cols (frame_columns f)))
              "autoregression"
              (sum_selected f (ar_cols_of value_col (lag_cols (frame_columns f)))) t1
              ([time_col; value_col] ++ ["trend"])
              (["lagged_regressor"] ++ enum_keys components_enum
               ++ ["events"; "residual"; "trend_changepoints"]) Hnd I1) as [_ I2].
  rewrite (assign_if_table (ar_cols_of value_col (lag_cols (frame_columns f)))
             "autoregression" _ t1 ([time_col; value_col] ++ ["trend"])
             (["lagged_regressor"] ++ enum_keys components_enum
              ++ ["events"; "residual"; "trend_changepoints"]) Hnd I1) in *.
  set (t2 := t1 ++ entry_when (ar_cols_of value_col (lag_cols (frame_columns f)))
                     "autoregression" _) in *.
  assert (Hnd3 : NoDup ((([time_col; value_col] ++ ["trend"]) ++ ["autoregression"])
                        ++ "lagged_regressor"
                           :: enum_keys components_enum
                              ++ ["events"; "residual"; "trend_changepoints"]))
    by exact Hnd.
  destruct (assign_if_columns
              (lagged_regressor_cols_of value_col (lag_cols (frame_columns f)))
              "lagged_regressor"
              (sum_selected f
                 (lagged_regressor_cols_of value_col (lag_cols (frame_columns f)))) t2
              _ _ Hnd3 I2) as [_ I3].
  rewrite (assign_if_table
             (lagged_regressor_cols_of value_col (lag_cols (frame_columns f)))
             "lagged_regressor" _ t2 _ _ Hnd3 I2) in *.
  set (t3 := t2 ++ entry_when
                     (lagged_regressor_cols_of value_col (lag_cols (frame_columns f)))
                     "lagged_regressor" _) in *.
  (* seasonalities *)
  set (pre := ((([time_col; value_col] ++ ["trend"]) ++ ["autoregression"])
               ++ ["lagged_regressor"])) in *.
  assert (Hnd' : NoDup (pre ++ enum_keys components_enum
                        ++ ["events"; "residual"; "trend_changepoints"])) by exact Hnd.
  assert (Hkeys : NoDup (enum_keys components_enum)).
  { apply NoDup_app_remove_l in Hnd'. now apply NoDup_app_remove_r in Hnd'. }
  assert (E4 : add_seasonalities re_search SEASONALITY_REGEX components_enum f t3
               = t3 ++ member_entries f components_enum).
  { unfold add_seasonalities. apply fold_seasonality_table.
    - exact Hkeys.
    - intros k Hk Hin. apply (NoDup_app_disjoint _ _ k Hnd').
      + now apply I3.
      + rewrite in_app_iff. now left. }
  rewrite E4 in *.
  assert (I4 : incl (table_columns (t3 ++ member_entries f components_enum))
                    (pre ++ enum_keys components_enum)).
  { unfold table_columns. rewrite map_app. apply incl_app; [now apply incl_appl|].
    apply incl_appr. unfold member_entries, enum_keys. rewrite map_map. simpl.
    intros k Hk. apply in_map_iff in Hk. destruct Hk as [m [<- Hm]].
    apply filter_In in Hm. apply in_map. exact (proj1 Hm). }
  set (t4 := t3 ++ member_entries f components_enum) in *.
  (* events *)
  assert (Hnd5 : NoDup ((pre ++ enum_keys components_enum)
                        ++ "events" :: ["residual"; "trend_changepoints"]))
    by (rewrite <- app_assoc; exact Hnd').
  destruct (assign_if_columns (event_cols_of re_search EVENT_REGEX (frame_columns f))
              "events"
              (sum_selected f (event_cols_of re_search EVENT_REGEX (frame_columns f)))
              t4 _ _ Hnd5 I4) as [_ I5].
  rewrite (assign_if_table (event_cols_of re_search EVENT_REGEX (frame_columns f))
             "events" _ t4 _ _ Hnd5 I4) in *.
  set (t5 := t4 ++ entry_when (event_cols_of re_search EVENT_REGEX (frame_columns f))
                     "events" _) in *.
  (* residual *)
  assert (Hnd6 : NoDup (((pre ++ enum_keys components_enum) ++ ["events"])
                        ++ "residual" :: ["trend_changepoints"]))
    by (rewrite <- app_assoc; exact Hnd5).
  rewrite (assign_if_table [tt] "residual" _ t5 _ _ Hnd6 I5) in *.
  change (entry_when [tt] "residual"
            (NumS (vsub_rows (d_value df) (sum_axis1 (f_nrows f) (f_cols f)))))
    with [("residual", NumS (vsub_rows (d_value df) (sum_axis1 (f_nrows f) (f_cols f))))]
    in *.
  intros Hfresh Hlookup.
  assert (Hgoal : forall cp : Table V,
            (t5 ++ [("residual",
                     NumS (vsub_rows (d_value df) (sum_axis1 (f_nrows f) (f_cols f))))])
            ++ cp
            = t0 ++ (entry_when (trend_cols (frame_columns f)) "trend"
                       (sum_selected f (trend_cols (frame_columns f)))
                     ++ entry_when (ar_cols_of value_col (lag_cols (frame_columns f)))
                          "autoregression"
                          (sum_selected f
                             (ar_cols_of value_col (lag_cols (frame_columns f))))
                     ++ entry_when
                          (lagged_regressor_cols_of value_col
                             (lag_cols (frame_columns f)))
                          "lagged_regressor"
                          (sum_selected f
                             (lagged_regressor_cols_of value_col
                                (lag_cols (frame_columns f))))
                     ++ member_entries f components_enum
                     ++ entry_when (event_cols_of re_search EVENT_REGEX (frame_columns f))
                          "events"
                          (sum_selected f
                             (event_cols_of re_search EVENT_REGEX (frame_columns f))))
              ++ [("residual",
                   NumS (vsub_rows (d_value df) (sum_axis1 (f_nrows f) (f_cols f))))]
              ++ cp).
  { intros cp. unfold t5, t4, t3, t2, t1. rewrite <- !app_assoc. reflexivity. }
  unfold add_changepoints, changepoint_flags, changepoint_dates_of.
  destruct (nonempty (trend_cols (frame_columns f))) eqn:Et.
  - destruct (nonempty (get_trend_changepoint_dates_from_cols
                          (trend_cols (frame_columns f)))) eqn:Ed.
    + rewrite set_col_fresh by exact Hfresh. rewrite Hlookup. simpl to_datetime.
      rewrite <- Hgoal. unfold entry_when. now rewrite Ed.
    + rewrite <- Hgoal. unfold entry_when. rewrite Ed. now rewrite app_nil_r.
  - rewrite <- Hgoal. unfold entry_when. simpl. now rewrite app_nil_r.
Qed.

(** *** Row-wise sums in exact arithmetic *)

(** Plain row-wise addition of numeric series of [n] rows. *)
Definition add_series (n : nat) (series : list (list V)) : list V :=
  fold_left vadd_rows series (repeat vzero n).

Definition numeric_series (t : Table V) : list (list V) :=
  flat_map (fun c => match snd c with NumS vs => [vs] | _ => [] end) t.

(** *** The changepoints a plot of the table marks *)

Lemma flagged_times (dates ts : list Z) :
  map fst
    (filter snd
       (combine (cells (V:=V) (TimeS ts))
          (equals_one (V:=V)
             (IntS (map (fun t => if existsb (Z.eqb t) dates then 1%Z else 0%Z) ts)))))
  = map CTime (filter (fun t => existsb (Z.eqb t) dates) ts).
Proof.
  simpl. induction ts as [|t ts IH]; simpl; [reflexivity|].
  destruct (existsb (Z.eqb t) dates); simpl; now rewrite IH.
Qed.

Lemma no_dates (ts : list Z) :
  map (CTime (V:=V)) (filter (fun t => existsb (Z.eqb t) []) ts) = [].
Proof. induction ts as [|t ts IH]; simpl; [reflexivity | exact IH]. Qed.

(** X16: plotting the table that [get_silverkite_components] returns marks
    as trend changepoints exactly the timestamps of [df] that are changepoint
    dates of the trend columns, in the order of [df]. *)
Theorem plotted_changepoints_are_the_dates_in_df (df : Dataset V)
    (time_col value_col : string) (f : FeatureFrame V) :
  NoDup (all_labels time_col value_col) ->
  frame_empty f = false ->
  d_nrows df = f_nrows f ->
  exists components,
    decompose df time_col value_col (Some f) = Ok components
    /\ changepoint_cells components time_col
       = map CTime (filter (fun t => existsb (Z.eqb t) (changepoint_dates_of f))
                           (d_time df)).
Proof.
  intros Hnd He Hn. exists (build df time_col value_col f).
  split; [now apply accepted_input|].
  pose proof (before_changepoints_fresh df time_col value_col f Hnd) as Hfresh.
  destruct (all_labels_time_value time_col value_col Hnd) as [_ Htv].
  destruct (Htv time_col) as [H1 H2]; [now left|]. simpl in H1.
  assert (Hne : time_col <> "trend_changepoints") by (intros E; apply H1; auto 9).
  assert (Hlookup : lookup_col time_col
            (add_residual df f
               (add_events re_search EVENT_REGEX f
                  (add_seasonalities re_search SEASONALITY_REGEX components_enum f
                     (add_lags re_search LAG_REGEX value_col f
                        (add_trend re_search TREND_REGEX SEASONALITY_REGEX LAG_REGEX f
                           [(time_col, TimeS (d_time df));
                            (value_col, NumS (d_value df))])))))
            = Some (TimeS (d_time df))).
  { rewrite carried_lookup;
      [|intros Hin; apply H1; simpl in Hin; decompose [or] Hin; try contradiction; auto 9
       |exact H2].
    unfold lookup_col. simpl. now rewrite String.eqb_refl. }
  assert (Hnone : forall t : Table V,
            ~ In "trend_changepoints" (table_columns t) ->
            changepoint_cells t time_col = []).
  { intros t Ht. unfold changepoint_cells. apply lookup_col_None in Ht. rewrite Ht.
    now destruct (lookup_col time_col t). }
  unfold build_components, changepoint_dates_of, add_changepoints.
  destruct (nonempty (trend_cols (frame_columns f))).
  - destruct (nonempty (get_trend_changepoint_dates_from_cols
                          (trend_cols (frame_columns f)))) eqn:Ed.
    + unfold changepoint_cells.
      rewrite lookup_set_col_neq by exact Hne.
      rewrite lookup_set_col_eq, Hlookup. cbn [to_datetime].
      apply flagged_times.
    + apply nonempty_false in Ed. rewrite Ed. rewrite Hnone by exact Hfresh.
      symmetry. apply no_dates.
  - rewrite Hnone by exact Hfresh. symmetry. apply no_dates.
Qed.

Section Exact.

Context {E : ExactArith V}.
Hypothesis vadd_zero_r : forall x : V, vadd x vzero = x.

Lemma vadd_rows_comm (xs ys : list V) : vadd_rows xs ys = vadd_rows ys xs.
Proof.
  unfold vadd_rows. revert ys.
  induction xs as [|x xs IH]; intros [|y ys]; simpl; try reflexivity.
  rewrite vadd_comm. f_equal. apply IH.
Qed.

Lemma vadd_rows_assoc (xs ys zs : list V) :
  vadd_rows xs (vadd_rows ys zs) = vadd_rows (vadd_rows xs ys) zs.
Proof.
  unfold vadd_rows. revert ys zs.
  induction xs as [|x xs IH]; intros [|y ys] [|z zs]; simpl; try reflexivity.
  rewrite vadd_assoc. f_equal. apply IH.
Qed.

Lemma vadd_rows_zero_r (xs : list V) :
  vadd_rows xs (repeat vzero (List.length xs)) = xs.
Proof.
  unfold vadd_rows. induction xs as [|x xs IH]; simpl; [reflexivity|].
  rewrite vadd_zero_r. f_equal. apply IH.
Qed.

Lemma vadd_rows_zero_n (n : nat) (xs : list V) :
  List.length xs = n -> vadd_rows xs (repeat vzero n) = xs.
Proof. intros <-. apply vadd_rows_zero_r. Qed.

Lemma fold_vadd_rows_shift {X : Type} (g : X -> list V) (l : list X) (a b : list V) :
  fold_left (fun acc x => vadd_rows acc (g x)) l (vadd_rows a b)
  = vadd_rows a (fold_left (fun acc x => vadd_rows acc (g x)) l b).
Proof.
  revert b. induction l as [|x l IH]; intros b; simpl; [reflexivity|].
  rewrite <- vadd_rows_assoc. apply IH.
Qed.

Lemma sum_axis1_cons (n : nat) (c : string * list V) (cols : list (string * list V)) :
  sum_axis1 n (c :: cols) = vadd_rows (map nan_to_zero (snd c)) (sum_axis1 n cols).
Proof.
  unfold sum_axis1. simpl. rewrite vadd_rows_comm. apply fold_vadd_rows_shift.
Qed.

Lemma add_series_shift (series : list (list V)) (a b : list V) :
  fold_left vadd_rows series (vadd_rows a b) = vadd_rows a (fold_left vadd_rows series b).
Proof. apply (fold_vadd_rows_shift (fun s => s)). Qed.

Lemma fold_vadd_rows_length (series : list (list V)) (acc : list V) (n : nat) :
  List.length acc = n -> Forall (fun s => List.length s = n) series ->
  List.length (fold_left vadd_rows series acc) = n.
Proof.
  intros Hacc Hs. revert acc Hacc.
  induction Hs as [|s series Hlen _ IH]; intros acc Hacc; simpl; [assumption|].
  apply IH. rewrite vadd_rows_length; congruence.
Qed.

Lemma add_to_no_bucket {X : Type} (member : X -> bool) (g : X -> list V)
    (extra : list V) (buckets : list X) (acc : list V) :
  List.length (filter member buckets) = 0 ->
  fold_left vadd_rows
    (map (fun b => if member b then vadd_rows extra (g b) else g b) buckets) acc
  = fold_left vadd_rows (map g buckets) acc.
Proof.
  revert acc. induction buckets as [|b bs IH]; intros acc H; simpl in *; [reflexivity|].
  destruct (member b); [discriminate|]. now apply IH.
Qed.

(** One column added to the bucket it belongs to is one column added to the
    total. *)
Lemma add_to_one_bucket {X : Type} (member : X -> bool) (g : X -> list V)
    (extra : list V) (buckets : list X) (acc : list V) :
  List.length (filter member buckets) = 1 ->
  fold_left vadd_rows
    (map (fun b => if member b then vadd_rows extra (g b) else g b) buckets) acc
  = vadd_rows extra (fold_left vadd_rows (map g buckets) acc).
Proof.
  revert acc. induction buckets as [|b bs IH]; intros acc H; simpl in *; [discriminate|].
  destruct (member b); simpl in H.
  - rewrite add_to_no_bucket by lia.
    rewrite (vadd_rows_comm extra), vadd_rows_assoc, (vadd_rows_comm _ extra).
    apply add_series_shift.
  - now apply IH.
Qed.

(** Buckets that partition the columns add up to the sum of all columns. *)
Lemma partition_sums (n : nat) (buckets : list (string -> bool))
    (cols : list (string * list V)) :
  (forall c, In c cols ->
     List.length (filter (fun b : string -> bool => b (fst c)) buckets) = 1) ->
  Forall (fun c => List.length (snd c) = n) cols ->
  add_series n
    (map (fun b => sum_axis1 n (filter (fun c => b (fst c)) cols)) buckets)
  = sum_axis1 n cols.
Proof.
  unfold add_series. intros Hone Hwf.
  induction Hwf as [|c cols Hc Hwf IH].
  - simpl. change (sum_axis1 n []) with (repeat vzero n).
    assert (H : forall (l : list (string -> bool)) (acc : list V),
      List.length acc = n ->
      fold_left vadd_rows (map (fun _ => repeat vzero n) l) acc = acc).
    { induction l as [|b l IHl]; intros acc Hacc; simpl; [reflexivity|].
      rewrite vadd_rows_zero_n by exact Hacc. now apply IHl. }
    apply H. apply repeat_length.
  - assert (Hstep : map (fun b => sum_axis1 n (filter (fun c0 => b (fst c0)) (c :: cols)))
                        buckets
                    = map (fun b : string -> bool =>
                             if b (fst c)
                             then vadd_rows (map nan_to_zero (snd c))
                                    (sum_axis1 n (filter (fun c0 => b (fst c0)) cols))
                             else sum_axis1 n (filter (fun c0 => b (fst c0)) cols))
                          buckets).
    { apply map_ext. intros b. simpl. destruct (b (fst c)); [|reflexivity].
      apply sum_axis1_cons. }
    rewrite Hstep.
    rewrite (add_to_one_bucket (fun b : string -> bool => b (fst c))
               (fun b => sum_axis1 n (filter (fun c0 => b (fst c0)) cols)))
      by (apply Hone; now left).
    rewrite IH by (intros c' Hc'; apply Hone; now right).
    symmetry. apply sum_axis1_cons.
Qed.

(** The classifications of the decomposition, as tests on a column name, in
    table order. *)
Definition buckets (value_col : string) : list (string -> bool) :=
  [fun c => re_search TREND_REGEX c
            && negb (re_search (SEASONALITY_REGEX ++ "|" ++ LAG_REGEX)%string c);
   fun c => re_search LAG_REGEX c && str_contains value_col c;
   fun c => re_search LAG_REGEX c && negb (str_contains value_col c)]
  ++ map (fun m c => re_search SEASONALITY_REGEX c && re_search (ylabel (snd m)) c)
         components_enum
  ++ [fun c => re_search EVENT_REGEX c].

(** Every feature column falls under exactly one classification. *)
Definition classified_once (value_col : string) (f : FeatureFrame V) : Prop :=
  forall c, In c (f_cols f) ->
    List.length (filter (fun b : string -> bool => b (fst c)) (buckets value_col)) = 1.

(** The names each classification selects, in the same order. *)
Definition bucket_names (value_col : string) (f : FeatureFrame V) : list (list string) :=
  [trend_cols (frame_columns f);
   ar_cols_of value_col (lag_cols (frame_columns f));
   lagged_regressor_cols_of value_col (lag_cols (frame_columns f))]
  ++ map (seas_member_cols re_search SEASONALITY_REGEX f) components_enum
  ++ [event_cols_of re_search EVENT_REGEX (frame_columns f)].

Lemma bucket_names_filter (value_col : string) (f : FeatureFrame V) :
  bucket_names value_col f
  = map (fun b => filter b (frame_columns f)) (buckets value_col).
Proof.
  unfold bucket_names, buckets. rewrite !map_app, map_map. simpl.
  unfold ar_cols_of, lagged_regressor_cols_of, lag_cols_of, event_cols_of.
  rewrite !pattern_cols_filter, !filter_filter.
  apply f_equal2; [reflexivity|]. apply f_equal2; [reflexivity|].
  apply f_equal2; [reflexivity|]. apply f_equal2; [|reflexivity].
  apply map_ext. intros m. unfold seas_member_cols.
  rewrite !pattern_cols_filter. apply filter_filter.
Qed.

Lemma select_sum_length (f : FeatureFrame V) (names : list string) :
  wf_frame f ->
  List.length (sum_axis1 (f_nrows f) (select_cols (f_cols f) names)) = f_nrows f.
Proof. intros Hwf. exact (sum_selected_length f names Hwf). Qed.

Lemma fold_entry (f : FeatureFrame V) (names : list string) (label : string)
    (acc : list V) :
  List.length acc = f_nrows f ->
  fold_left vadd_rows (numeric_series (entry_when names label (sum_selected f names))) acc
  = vadd_rows acc (sum_axis1 (f_nrows f) (select_cols (f_cols f) names)).
Proof.
  intros Hacc. unfold entry_when. destruct names as [|c names]; simpl; [|reflexivity].
  change (sum_axis1 (f_nrows f) []) with (repeat vzero (f_nrows f)).
  now rewrite vadd_rows_zero_n.
Qed.

Lemma fold_member_entries (f : FeatureFrame V)
    (members : list (string * SilverkiteComponent)) :
  wf_frame f ->
  forall acc, List.length acc = f_nrows f ->
  fold_left vadd_rows (numeric_series (member_entries f members)) acc
  = fold_left vadd_rows
      (map (fun names => sum_axis1 (f_nrows f) (select_cols (f_cols f) names))
           (map (seas_member_cols re_search SEASONALITY_REGEX f) members))
      acc.
Proof.
  intros Hwf. unfold member_entries.
  induction members as [|m ms IH]; intros acc Hacc; simpl; [reflexivity|].
  destruct (seas_member_cols re_search SEASONALITY_REGEX f m) as [|c names] eqn:Em; simpl.
  - change (sum_axis1 (f_nrows f) []) with (repeat vzero (f_nrows f)).
    rewrite vadd_rows_zero_n by exact Hacc. now apply IH.
  - rewrite Em. apply IH. rewrite vadd_rows_length; [assumption|].
    rewrite Hacc. apply (select_sum_length f (c :: names) Hwf).
Qed.

Lemma semantic_total (value_col : string) (f : FeatureFrame V) :
  wf_frame f -> NoDup (frame_columns f) ->
  add_series (f_nrows f) (numeric_series (semantic_entries value_col f))
  = add_series (f_nrows f)
      (map (fun b : string -> bool =>
              sum_axis1 (f_nrows f) (filter (fun c => b (fst c)) (f_cols f)))
           (buckets value_col)).
Proof.
  intros Hwf Hnd.
  assert (Hnames : map (fun b : string -> bool =>
                          sum_axis1 (f_nrows f) (filter (fun c => b (fst c)) (f_cols f)))
                       (buckets value_col)
                   = map (fun names => sum_axis1 (f_nrows f) (select_cols (f_cols f) names))
                         (bucket_names value_col f)).
  { rewrite bucket_names_filter, map_map. apply map_ext. intros b.
    unfold frame_columns.
    now rewrite (select_cols_filter re_search EVENT_REGEX) by exact Hnd. }
  rewrite Hnames. unfold add_series, semantic_entries, bucket_names, numeric_series.
  rewrite !flat_map_app, !map_app, !fold_left_app.
  fold (numeric_series
          (entry_when (trend_cols (frame_columns f)) "trend"
             (sum_selected f (trend_cols (frame_columns f))))).
  fold (numeric_series
          (entry_when (ar_cols_of value_col (lag_cols (frame_columns f))) "autoregression"
             (sum_selected f (ar_cols_of value_col (lag_cols (frame_columns f)))))).
  fold (numeric_series
          (entry_when (lagged_regressor_cols_of value_col (lag_cols (frame_columns f)))
             "lagged_regressor"
             (sum_selected f
                (lagged_regressor_cols_of value_col (lag_cols (frame_columns f)))))).
  fold (numeric_series (member_entries f components_enum)).
  fold (numeric_series
          (entry_when (event_cols_of re_search EVENT_REGEX (frame_columns f)) "events"
             (sum_selected f (event_cols_of re_search EVENT_REGEX (frame_columns f))))).
  assert (Hlen : forall acc names, List.length acc = f_nrows f ->
            List.length
              (vadd_rows acc (sum_axis1 (f_nrows f) (select_cols (f_cols f) names)))
            = f_nrows f).
  { intros acc names Hacc. rewrite vadd_rows_length; [assumption|].
    rewrite Hacc. now apply select_sum_length. }
  assert (H0 : List.length (repeat vzero (f_nrows f)) = f_nrows f) by apply repeat_length.
  rewrite (fold_entry f (trend_cols (frame_columns f)) "trend" _ H0).
  rewrite (fold_entry f (ar_cols_of value_col (lag_cols (frame_columns f)))
             "autoregression" _ (Hlen _ _ H0)).
  rewrite (fold_entry f (lagged_regressor_cols_of value_col (lag_cols (frame_columns f)))
             "lagged_regressor" _ (Hlen _ _ (Hlen _ _ H0))).
  rewrite (fold_member_entries f components_enum Hwf _
             (Hlen _ _ (Hlen _ _ (Hlen _ _ H0)))).
  rewrite fold_entry.
  - reflexivity.
  - apply fold_vadd_rows_length; [apply Hlen, Hlen, Hlen; exact H0|].
    rewrite map_map. apply Forall_map. apply Forall_forall. intros m _.
    now apply select_sum_length.
Qed.

Lemma semantic_filter (df : Dataset V) (time_col value_col : string)
    (f : FeatureFrame V) :
  NoDup (all_labels time_col value_col) ->
  filter (fun c => negb (mem (fst c) [time_col; value_col; "residual";
                                      "trend_changepoints"]))
         (expected_table df time_col value_col f)
  = semantic_entries value_col f.
Proof.
  intros Hnd.
  assert (Hsem : forall c, In c (semantic_entries value_col f) ->
            mem (fst c) [time_col; value_col; "residual"; "trend_changepoints"] = false).
  { intros c Hc. apply mem_not_In. intros Hin.
    assert (Hl : In (fst c)
                   (["trend"; "autoregression"; "lagged_regressor"]
                    ++ enum_keys components_enum ++ ["events"])).
    { unfold semantic_entries, entry_when, member_entries in Hc.
      rewrite !in_app_iff in Hc. rewrite !in_app_iff.
      destruct Hc as [Hc|[Hc|[Hc|[Hc|Hc]]]].
      - destruct (nonempty _); simpl in Hc; [|contradiction].
        destruct Hc as [<-|[]]. left. simpl. auto.
      - destruct (nonempty _); simpl in Hc; [|contradiction].
        destruct Hc as [<-|[]]. left. simpl. auto.
      - destruct (nonempty _); simpl in Hc; [|contradiction].
        destruct Hc as [<-|[]]. left. simpl. auto.
      - right. left. apply in_map_iff in Hc. destruct Hc as [m [<- Hm]].
        apply filter_In in Hm. unfold enum_keys. simpl. apply in_map. exact (proj1 Hm).
      - destruct (nonempty _); simpl in Hc; [|contradiction].
        destruct Hc as [<-|[]]. right. right. now left. }
    destruct (all_labels_time_value time_col value_col Hnd) as [_ Htv].
    rewrite !in_app_iff in Hl. simpl in Hin, Hl.
    destruct Hin as [Hin|[Hin|[Hin|[Hin|[]]]]].
    - destruct (Htv time_col) as [H1 H2]; [now left|]. rewrite Hin in H1, H2.
      destruct Hl as [Hl|[Hl|Hl]]; [| exact (H2 Hl) |];
        apply H1; simpl; decompose [or] Hl; try contradiction; auto 9.
    - destruct (Htv value_col) as [H1 H2]; [right; now left|]. rewrite Hin in H1, H2.
      destruct Hl as [Hl|[Hl|Hl]]; [| exact (H2 Hl) |];
        apply H1; simpl; decompose [or] Hl; try contradiction; auto 9.
    - rewrite <- Hin in Hl. destruct Hl as [Hl|[Hl|Hl]].
      + decompose [or] Hl; try contradiction; discriminate.
      + apply (all_labels_keys time_col value_col "residual" Hnd Hl). simpl. auto.
      + decompose [or] Hl; try contradiction; discriminate.
    - rewrite <- Hin in Hl. destruct Hl as [Hl|[Hl|Hl]].
      + decompose [or] Hl; try contradiction; discriminate.
      + apply (all_labels_keys time_col value_col "trend_changepoints" Hnd Hl).
        simpl. auto.
      + decompose [or] Hl; try contradiction; discriminate. }
  assert (Hm : forall x, In x [time_col; value_col; "residual"; "trend_changepoints"] ->
            mem x [time_col; value_col; "residual"; "trend_changepoints"] = true)
    by (intros x Hx; now apply mem_In).
  unfold expected_table. rewrite !filter_app. cbn [filter fst].
  rewrite (Hm time_col), (Hm value_col), (Hm "residual") by (simpl; auto).
  cbn [negb app].
  rewrite (forallb_filter_id
             (fun c => negb (mem (fst c) [time_col; value_col; "residual";
                                          "trend_changepoints"]))
             (semantic_entries value_col f)).
  - assert (Hcp : filter
                    (fun c => negb (mem (fst c) [time_col; value_col; "residual";
                                                 "trend_changepoints"]))
                    (entry_when (changepoint_dates_of f) "trend_changepoints"
                       (IntS (changepoint_flags f (d_time df)))) = []).
    { unfold entry_when. destruct (nonempty _); [|reflexivity]. cbn [filter fst].
      rewrite (Hm "trend_changepoints") by (simpl; auto). reflexivity. }
    rewrite Hcp. apply app_nil_r.
  - apply forallb_forall. intros c Hc. now rewrite (Hsem c Hc).
Qed.


End Exact.

End DecompositionLayout.

(** * Further properties of the regrouping *)

Section RegroupShape.

Context {V : Type} {A : Arith V}.

Variable components_enum : list (string * SilverkiteComponent).
Variable time_feature : string -> Z -> Z.
Variable num_to_datetime : V -> Z.

(** Keys in strictly increasing order. *)
Fixpoint increasing (ks : list Z) : Prop :=
  match ks with
  | [] => True
  | k :: rest => Forall (Z.lt k) rest /\ increasing rest
  end.

(** The values of the rows whose key is [k], in row order. *)
Definition rows_with_key (k : Z) (rows : list (Z * V)) : list V :=
  map snd (filter (fun r => Z.eqb (fst r) k) rows).

(** The group stored under [k], empty when there is none. *)
Definition group_of (k : Z) (gs : list (Z * list V)) : list V :=
  match filter (fun g => Z.eqb (fst g) k) gs with
  | g :: _ => snd g
  | [] => []
  end.

Lemma insert_group_keys (k : Z) (v : V) (gs : list (Z * list V)) (x : Z) :
  In x (map fst (insert_group k v gs)) <-> x = k \/ In x (map fst gs).
Proof.
  induction gs as [|[k' vs] gs IH]; simpl.
  - split; intros [H|H]; auto.
  - destruct (Z.ltb_spec k k'); simpl.
    + split; intros H'; destruct H' as [H'|H']; auto.
    + destruct (Z.eqb_spec k k'); simpl.
      * subst. split; intros H'; destruct H' as [H'|H']; auto.
      * rewrite IH. split; intros H'; decompose [or] H'; auto.
Qed.

Lemma insert_group_increasing (k : Z) (v : V) (gs : list (Z * list V)) :
  increasing (map fst gs) -> increasing (map fst (insert_group k v gs)).
Proof.
  induction gs as [|[k' vs] gs IH]; simpl; intros H.
  - split; [constructor | exact I].
  - destruct H as [Hlt Hinc].
    destruct (Z.ltb_spec k k'); simpl.
    + split; [|split; assumption]. constructor; [assumption|].
      eapply Forall_impl; [|exact Hlt]. intros a Ha. lia.
    + destruct (Z.eqb_spec k k'); simpl.
      * split; assumption.
      * split; [|now apply IH]. apply Forall_forall. intros x Hx.
        apply insert_group_keys in Hx. destruct Hx as [->|Hx]; [lia|].
        rewrite Forall_forall in Hlt. now apply Hlt.
Qed.

Lemma group_of_absent (k : Z) (gs : list (Z * list V)) :
  Forall (Z.lt k) (map fst gs) -> group_of k gs = [].
Proof.
  unfold group_of. induction gs as [|[k' vs] gs IH]; simpl; intros H; [reflexivity|].
  inversion H as [|? ? Hlt Hrest]; subst.
  destruct (Z.eqb_spec k' k); [lia|]. now apply IH.
Qed.

Lemma insert_group_of (k : Z) (v : V) (gs : list (Z * list V)) (x : Z) :
  increasing (map fst gs) ->
  group_of x (insert_group k v gs)
  = if Z.eqb x k then group_of x gs ++ [v] else group_of x gs.
Proof.
  induction gs as [|[k' vs] gs IH]; simpl; intros H.
  - unfold group_of. simpl. rewrite (Z.eqb_sym k x). now destruct (Z.eqb x k).
  - destruct H as [Hlt Hinc]. specialize (IH Hinc).
    destruct (Z.ltb_spec k k') as [Hk|Hk].
    + unfold group_of at 1. simpl. rewrite (Z.eqb_sym k x).
      destruct (Z.eqb x k) eqn:Exk; [|reflexivity].
      apply Z.eqb_eq in Exk. rewrite Exk.
      rewrite group_of_absent; [reflexivity|]. simpl. constructor; [assumption|].
      eapply Forall_impl; [|exact Hlt]. intros a Ha. lia.
    + destruct (Z.eqb k k') eqn:Ekk.
      * apply Z.eqb_eq in Ekk. rewrite Ekk. unfold group_of. simpl.
        rewrite (Z.eqb_sym x k').
        destruct (Z.eqb k' x); reflexivity.
      * apply Z.eqb_neq in Ekk. unfold group_of at 1 2 3. simpl.
        destruct (Z.eqb k' x) eqn:Ekx.
        -- apply Z.eqb_eq in Ekx.
           assert (Exk : Z.eqb x k = false) by (apply Z.eqb_neq; lia).
           now rewrite Exk.
        -- exact IH.
Qed.

Lemma fold_insert_spec (rows : list (Z * V)) :
  forall gs : list (Z * list V),
  increasing (map fst gs) ->
  increasing (map fst (fold_left (fun gs r => insert_group (fst r) (snd r) gs) rows gs))
  /\ (forall x,
        In x (map fst (fold_left (fun gs r => insert_group (fst r) (snd r) gs) rows gs))
        <-> In x (map fst gs) \/ In x (map fst rows))
  /\ (forall x,
        group_of x (fold_left (fun gs r => insert_group (fst r) (snd r) gs) rows gs)
        = group_of x gs ++ rows_with_key x rows).
Proof.
  induction rows as [|[k v] rows IH]; intros gs Hinc; simpl.
  - split; [assumption|]. split.
    + intros x. split; [auto | intros [H|[]]; assumption].
    + intros x. unfold rows_with_key. simpl. now rewrite app_nil_r.
  - destruct (IH (insert_group k v gs) (insert_group_increasing k v gs Hinc))
      as [H1 [H2 H3]].
    split; [assumption|]. split.
    + intros x. rewrite H2, insert_group_keys.
      split; intros H; decompose [or] H; auto.
    + intros x. rewrite H3, insert_group_of by assumption.
      unfold rows_with_key. simpl. rewrite (Z.eqb_sym k x).
      destruct (Z.eqb x k); simpl; [now rewrite <- app_assoc | reflexivity].
Qed.

Lemma group_of_member (k : Z) (vs : list V) (gs : list (Z * list V)) :
  increasing (map fst gs) -> In (k, vs) gs -> group_of k gs = vs.
Proof.
  unfold group_of. induction gs as [|[k' vs'] gs IH]; simpl; intros Hinc Hin;
    [contradiction|].
  destruct Hinc as [Hlt Hinc]. destruct Hin as [Heq|Hin].
  - inversion Heq; subst. now rewrite Z.eqb_refl.
  - destruct (Z.eqb_spec k' k) as [->|Hne]; [|now apply IH].
    exfalso. rewrite Forall_forall in Hlt.
    assert (Hk : (k < k)%Z) by (apply Hlt; change k with (fst (k, vs)); now apply in_map).
    lia.
Qed.

(** The groups of [group_rows]: one per key that occurs, in increasing key
    order, each holding the values of its rows in row order. *)
Lemma group_rows_spec (rows : list (Z * V)) :
  increasing (map fst (group_rows rows))
  /\ (forall k, In k (map fst (group_rows rows)) <-> In k (map fst rows))
  /\ (forall k vs, In (k, vs) (group_rows rows) -> vs = rows_with_key k rows).
Proof.
  unfold group_rows.
  destruct (fold_insert_spec rows [] I) as [H1 [H2 H3]].
  split; [assumption|]. split.
  - intros k. rewrite H2. simpl. split; [intros [[]|H]; assumption | auto].
  - intros k vs Hin. rewrite <- (group_of_member k vs _ H1 Hin). now rewrite H3.
Qed.


End RegroupShape.

(** * Further properties of the component plot *)

Section PlotShape.

Context {V : Type} {A : Arith V}.

Variable components_enum : list (string * SilverkiteComponent).
Variable time_feature : string -> Z -> Z.
Variable num_to_datetime : V -> Z.

Local Abbreviation regroup :=
  (group_silverkite_seas_components components_enum time_feature num_to_datetime).
Local Abbreviation draw_panel :=
  (render_panel components_enum time_feature num_to_datetime).
Local Abbreviation draw_panels :=
  (render_panels components_enum time_feature num_to_datetime).
Local Abbreviation plot :=
  (plot_silverkite_components components_enum time_feature num_to_datetime).

(** Every series stored under a label. *)
Definition series_labelled (label : string) (df : Table V) : list (Series V) :=
  map snd (filter (fun c => String.eqb (fst c) label) df).

Lemma getitem_cols_inv (t : Table V) (time_col name : string) (df : Table V) :
  getitem_cols t [time_col; name] = Ok df ->
  In time_col (table_columns t) /\ In name (table_columns t)
  /\ df = select_cols t [time_col; name].
Proof.
  unfold getitem_cols. simpl.
  destruct (mem time_col (table_columns t)) eqn:E1;
    destruct (mem name (table_columns t)) eqn:E2; simpl; intros H; try discriminate.
  apply mem_In in E1. apply mem_In in E2. inversion H. auto.
Qed.

(** What one turn of the loop produces. *)
Lemma render_panel_inv (t : Table V) (time_col : string) (ind : nat) (name : string)
    (p : Panel V) :
  draw_panel t time_col ind name = Ok p ->
  In time_col (table_columns t) /\ In name (table_columns t)
  /\ exists df,
      (if str_contains "SEASONALITY" name
       then regroup (select_cols t [time_col; name])
       else Ok (select_cols t [time_col; name])) = Ok df
      /\ table_columns df = [p_xlabel p; p_ylabel p]
      /\ p_row p = ind + 1
      /\ p_name p = name
      /\ p_x p = series_labelled (p_xlabel p) df
      /\ p_y p = series_labelled (p_ylabel p) df.
Proof.
  unfold render_panel. intros H.
  destruct (getitem_cols t [time_col; name]) as [df0|e] eqn:E0; [|discriminate].
  apply getitem_cols_inv in E0. destruct E0 as [H1 [H2 ->]].
  split; [assumption|]. split; [assumption|].
  cbn [bind] in H.
  assert (exists df,
    (if str_contains "SEASONALITY" name
     then regroup (select_cols t [time_col; name])
     else Ok (select_cols t [time_col; name])) = Ok df
    /\ match table_columns df with
       | [xlabel; ylabel] =>
           Ok {| p_row := ind + 1;
                 p_name := name;
                 p_xlabel := xlabel;
                 p_ylabel := ylabel;
                 p_x := map snd (filter (fun c => String.eqb (fst c) xlabel) df);
                 p_y := map snd (filter (fun c => String.eqb (fst c) ylabel) df) |}
       | _ => Raise (ValueError "expected the two columns xlabel, ylabel")
       end = Ok p) as [df [E1 H']].
  { destruct (str_contains "SEASONALITY" name).
    - destruct (regroup (select_cols t [time_col; name])) as [df|e];
        cbn [bind] in H; [|discriminate].
      exists df. split; [reflexivity | exact H].
    - cbn [bind] in H. eexists. split; [reflexivity | exact H]. }
  clear H. rename H' into H.
  exists df. split; [exact E1|].
  destruct (table_columns df) as [|x [|y [|z l]]] eqn:Ec; try discriminate.
  inversion H. simpl. repeat split; reflexivity.
Qed.

Lemma render_panels_inv (t : Table V) (time_col : string) (names : list string) :
  forall (ind : nat) (ps : list (Panel V)),
  draw_panels t time_col ind names = Ok ps ->
  map p_name ps = names
  /\ map p_row ps = seq (ind + 1) (List.length names)
  /\ Forall2 (fun i p => draw_panel t time_col i (p_name p) = Ok p)
             (seq ind (List.length names)) ps.
Proof.
  induction names as [|name names IH]; intros ind ps H; simpl in H.
  - inversion H. repeat split; constructor.
  - destruct (draw_panel t time_col ind name) as [p|e] eqn:Ep; [|discriminate].
    cbn [bind] in H.
    destruct (draw_panels t time_col (S ind) names) as [ps'|e] eqn:Eps; [|discriminate].
    cbn [bind] in H. inversion H; subst.
    destruct (IH (S ind) ps' Eps) as [H1 [H2 H3]].
    pose proof (render_panel_inv t time_col ind name p Ep) as [_ [_ [df [_ [_ [Hr [Hn _]]]]]]].
    simpl. rewrite H1, H2, Hr, Hn. repeat split.
    constructor; [now rewrite Hn | assumption].
Qed.

(** The figure of a successful call, field by field. *)
Lemma plot_inv (t : Table V) (names : option (list string)) (title : option string)
    (fig : Figure V) (warnings : list Warning) :
  plot t names title = Ok (fig, warnings) ->
  exists time_col value_col rest kept,
    table_columns t = time_col :: value_col :: rest
    /\ select_names (stripped_columns t) value_col names = Ok (kept, warnings)
    /\ kept <> []
    /\ draw_panels (strip_changepoints t) time_col 0 kept = Ok (fig_panels fig)
    /\ fig_rows fig = List.length kept
    /\ fig_height fig = 350 * List.length kept
    /\ fig_title fig = match title with Some s => s | None => "Component plots" end
    /\ fig_markers fig
       = if mem "trend_changepoints" (table_columns t) && mem "trend" kept
         then changepoint_markers (index_of "trend" kept + 1) true
                                  (changepoint_cells t time_col)
         else [].
Proof.
  unfold plot_silverkite_components. intros H.
  assert (exists time_col value_col rest,
            table_columns t = time_col :: value_col :: rest
            /\ plot_with components_enum time_feature num_to_datetime
                         time_col value_col t names title = Ok (fig, warnings))
    as [time_col [value_col [rest [Ec H']]]].
  { destruct (table_columns t) as [|time_col [|value_col rest]];
      cbn [firstn] in H; try discriminate.
    exists time_col, value_col, rest. split; [reflexivity | exact H]. }
  clear H. rename H' into H.
  rewrite plot_with_unfold, strip_changepoints_columns in H.
  fold (stripped_columns t) in H.
  exists time_col, value_col, rest.
  destruct (select_names (stripped_columns t) value_col names) as [[kept w]|e] eqn:Es;
    [|discriminate].
  cbn [bind fst snd] in H. exists kept.
  destruct (Nat.eqb (List.length kept) 0) eqn:En; [discriminate|].
  destruct (draw_panels (strip_changepoints t) time_col 0 kept) as [ps|e] eqn:Ep;
    [|discriminate].
  cbn [bind] in H. injection H as Hf Hw. subst fig w.
  cbn [fig_panels fig_rows fig_height fig_title fig_markers].
  split; [exact Ec|]. split; [reflexivity|].
  split; [intros ->; discriminate|].
  split; [reflexivity|]. split; [reflexivity|]. split; [reflexivity|].
  split; [reflexivity|].
  destruct (mem "trend_changepoints" (table_columns t)); reflexivity.
Qed.


Lemma select_names_kept (columns : list string) (value_col : string)
    (names kept : list string) (warnings : list Warning) :
  select_names columns value_col (Some names) = Ok (kept, warnings) ->
  forall n, In n kept -> In n names \/ n = value_col.
Proof.
  unfold select_names. intros H n Hn.
  destruct (negb (nonempty (filter (fun component => mem component names) columns)));
    [discriminate|].
  assert (Hf : forall m, In m (filter (fun component => mem component names) columns) ->
                         In m names).
  { intros m Hm. apply filter_In in Hm. now apply mem_In. }
  destruct (filter (fun component => mem component names) columns) as [|first l].
  - inversion H; subst. contradiction.
  - destruct (String.eqb first value_col); inversion H; subst.
    + left. now apply Hf.
    + destruct Hn as [<-|Hn]; [now right | left; now apply Hf].
Qed.

(** The panel of a name stands at the position of the name's first
    occurrence. *)
Lemma render_panels_index (t : Table V) (time_col : string) (names : list string) :
  forall (ind : nat) (ps : list (Panel V)) (x : string),
  draw_panels t time_col ind names = Ok ps -> In x names ->
  exists p, In p ps /\ p_name p = x /\ p_row p = ind + index_of x names + 1.
Proof.
  induction names as [|name names IH]; intros ind ps x H Hx; [contradiction|].
  simpl in H.
  destruct (draw_panel t time_col ind name) as [p|e] eqn:Ep; [|discriminate].
  cbn [bind] in H.
  destruct (draw_panels t time_col (S ind) names) as [ps'|e] eqn:Eps; [|discriminate].
  cbn [bind] in H. inversion H; subst.
  pose proof (render_panel_inv t time_col ind name p Ep) as [_ [_ [df [_ [_ [Hr [Hn _]]]]]]].
  simpl index_of. destruct (String.eqb name x) eqn:E.
  - apply String.eqb_eq in E. subst x. exists p.
    split; [now left|]. split; [assumption|]. rewrite Hr. lia.
  - apply String.eqb_neq in E. destruct Hx as [Hx|Hx]; [contradiction|].
    destruct (IH (S ind) ps' x Eps Hx) as [q [Hq [Hqn Hqr]]].
    exists q. split; [now right|]. split; [assumption|]. rewrite Hqr. lia.
Qed.

Lemma render_panels_each (t : Table V) (time_col : string) (names : list string) :
  forall (ind : nat) (ps : list (Panel V)) (p : Panel V),
  draw_panels t time_col ind names = Ok ps -> In p ps ->
  exists i, draw_panel t time_col i (p_name p) = Ok p /\ In (p_name p) names.
Proof.
  induction names as [|name names IH]; intros ind ps p H Hp; simpl in H.
  - inversion H; subst. contradiction.
  - destruct (draw_panel t time_col ind name) as [q|e] eqn:Eq; [|discriminate].
    cbn [bind] in H.
    destruct (draw_panels t time_col (S ind) names) as [ps'|e] eqn:Eps; [|discriminate].
    cbn [bind] in H. inversion H; subst.
    pose proof (render_panel_inv t time_col ind name q Eq) as [_ [_ [df [_ [_ [_ [Hn _]]]]]]].
    destruct Hp as [<-|Hp].
    + exists ind. rewrite Hn. split; [assumption | now left].
    + destruct (IH (S ind) ps' p Eps Hp) as [i [Hi Hin]].
      exists i. split; [assumption | now right].
Qed.

Lemma changepoint_markers_x (row : nat) (first : bool) (cps : list (Cell V)) :
  map m_x (changepoint_markers row first cps) = cps.
Proof.
  revert first. induction cps as [|c cps IH]; intros first; simpl; [reflexivity|].
  now rewrite IH.
Qed.

Lemma changepoint_markers_row (row : nat) (cps : list (Cell V)) :
  forall (first : bool) (m : Marker V),
  In m (changepoint_markers row first cps) -> m_row m = row.
Proof.
  induction cps as [|c cps IH]; intros first m Hm; simpl in Hm; [contradiction|].
  destruct Hm as [<-|Hm]; [reflexivity | eapply IH; eassumption].
Qed.

Lemma changepoint_markers_later (row : nat) (cps : list (Cell V)) :
  map m_showlegend (changepoint_markers row false cps)
  = map (fun _ => false) (changepoint_markers row false cps).
Proof. induction cps as [|c cps IH]; simpl; [reflexivity | now rewrite IH]. Qed.

Lemma changepoint_markers_legend (row : nat) (cps : list (Cell V)) :
  map m_showlegend (changepoint_markers row true cps)
  = match changepoint_markers row true cps with
    | [] => []
    | _ :: later => true :: map (fun _ => false) later
    end.
Proof.
  destruct cps as [|c cps]; simpl; [reflexivity|].
  now rewrite changepoint_markers_later.
Qed.

(** X9: a figure that [plot_silverkite_components] returns has at least one
    panel, one subplot row per panel and 350 pixels of height per panel; the
    panels stand in rows 1, 2, ... in their order, and the title is the given
    one or [Component plots]. *)
Theorem figure_has_one_row_per_panel (t : Table V) (names : option (list string))
    (title : option string) (fig : Figure V) (warnings : list Warning) :
  plot t names title = Ok (fig, warnings) ->
  fig_panels fig <> []
  /\ fig_rows fig = List.length (fig_panels fig)
  /\ fig_height fig = 350 * List.length (fig_panels fig)
  /\ map p_row (fig_panels fig) = seq 1 (List.length (fig_panels fig))
  /\ fig_title fig = match title with Some s => s | None => "Component plots" end.
Proof.
  intros H.
  destruct (plot_inv t names title fig warnings H)
    as [time_col [value_col [rest [kept [Ec [Es [Hne [Hp [Hr [Hh [Ht Hm]]]]]]]]]]].
  destruct (render_panels_inv _ _ _ _ _ Hp) as [Hn [Hrow _]].
  assert (Hlen : List.length (fig_panels fig) = List.length kept).
  { rewrite <- Hn. now rewrite length_map. }
  rewrite Hlen. repeat split; try assumption.
  intros E. rewrite E in Hn. simpl in Hn. now subst kept.
Qed.

(** X10: every panel of a returned figure shows a column of the components
    table, never the [trend_changepoints] column; when [names] is given, the
    panel's column is one of the names or the value column (the second
    column of the table). *)
Theorem panels_are_requested_columns (t : Table V) (names : option (list string))
    (title : option string) (fig : Figure V) (warnings : list Warning) :
  plot t names title = Ok (fig, warnings) ->
  forall p, In p (fig_panels fig) ->
    In (p_name p) (table_columns t)
    /\ p_name p <> "trend_changepoints"
    /\ forall requested, names = Some requested ->
         In (p_name p) requested
         \/ nth_error (table_columns t) 1 = Some (p_name p).
Proof.
  intros H p Hin.
  destruct (plot_inv t names title fig warnings H)
    as [time_col [value_col [rest [kept [Ec [Es [Hne [Hp _]]]]]]]].
  destruct (render_panels_each _ _ _ _ _ _ Hp Hin) as [i [Hi Hk]].
  apply render_panel_inv in Hi. destruct Hi as [_ [Hc _]].
  rewrite strip_changepoints_columns in Hc. apply filter_In in Hc.
  destruct Hc as [Hc Hcp]. split; [assumption|]. split.
  - intros E. rewrite E in Hcp. discriminate.
  - intros requested ->.
    destruct (select_names_kept _ _ _ _ _ Es _ Hk) as [Hreq|Hv];
      [now left | right]. rewrite Ec, Hv. reflexivity.
Qed.

(** X11: the dashed changepoint lines of a returned figure.  They are drawn
    exactly when the table has a [trend_changepoints] column and there is a
    [trend] panel; then there is one line per row of the table whose
    [trend_changepoints] cell equals 1, at that row's time, every line is on
    the row of a [trend] panel, and only the first line has a legend
    entry. *)
Theorem changepoints_are_marked_on_the_trend_panel (t : Table V)
    (names : option (list string)) (title : option string) (fig : Figure V)
    (warnings : list Warning) :
  plot t names title = Ok (fig, warnings) ->
  map m_x (fig_markers fig)
  = (if mem "trend_changepoints" (table_columns t)
        && mem "trend" (map p_name (fig_panels fig))
     then changepoint_cells t (hd "" (table_columns t))
     else [])
  /\ (forall m, In m (fig_markers fig) ->
        exists p, In p (fig_panels fig) /\ p_name p = "trend" /\ p_row p = m_row m)
  /\ map m_showlegend (fig_markers fig)
     = match fig_markers fig with
       | [] => []
       | _ :: later => true :: map (fun _ => false) later
       end.
Proof.
  intros H.
  destruct (plot_inv t names title fig warnings H)
    as [time_col [value_col [rest [kept [Ec [Es [Hne [Hp [Hr [Hh [Ht Hm]]]]]]]]]]].
  destruct (render_panels_inv _ _ _ _ _ Hp) as [Hn _].
  rewrite Hm, Hn, Ec. cbn [hd]. rewrite <- Ec.
  destruct (mem "trend_changepoints" (table_columns t) && mem "trend" kept) eqn:E.
  - apply andb_true_iff in E. destruct E as [_ E]. apply mem_In in E.
    split; [apply changepoint_markers_x|]. split.
    + intros m Hin. apply changepoint_markers_row in Hin.
      destruct (render_panels_index _ _ _ _ _ _ Hp E) as [p [Hpin [Hpn Hpr]]].
      exists p. split; [assumption|]. split; [assumption|].
      rewrite Hpr, Hin. reflexivity.
    + apply changepoint_markers_legend.
  - split; [reflexivity|]. split; [intros m []|reflexivity].
Qed.


(** The figure of a call, the warnings left out. *)
Definition figure_of (r : Result (Figure V * list Warning)) : Result (Figure V) :=
  match r with
  | Ok p => Ok (fst p)
  | Raise e => Raise e
  end.

Lemma select_names_same_set (columns : list string) (value_col : string)
    (names names' : list string) :
  (forall n, In n names <-> In n names') ->
  (exists e, select_names columns value_col (Some names) = Raise e
             /\ select_names columns value_col (Some names') = Raise e)
  \/ (exists kept w w',
        select_names columns value_col (Some names) = Ok (kept, w)
        /\ select_names columns value_col (Some names') = Ok (kept, w')).
Proof.
  intros Hs. unfold select_names.
  assert (Hf : filter (fun component => mem component names') columns
               = filter (fun component => mem component names) columns).
  { apply filter_ext. intros c.
    destruct (mem c names) eqn:E.
    - apply mem_In. apply Hs. now apply mem_In.
    - apply mem_not_In. intros Hc. apply Hs in Hc. apply mem_In in Hc. congruence. }
  rewrite Hf.
  destruct (negb (nonempty (filter (fun component => mem component names) columns))).
  - left. eexists. split; reflexivity.
  - right. do 3 eexists. split; reflexivity.
Qed.

(** X12: the figure depends on [names] only as a set: two lists with the
    same members, in any order and with any repetitions, give the same
    figure or the same error. *)
Theorem figure_depends_on_the_set_of_names (t : Table V) (names names' : list string)
    (title : option string) :
  (forall n, In n names <-> In n names') ->
  figure_of (plot t (Some names) title) = figure_of (plot t (Some names') title).
Proof.
  intros Hs. unfold plot_silverkite_components.
  destruct (firstn 2 (table_columns t)) as [|time_col [|value_col [|c l]]];
    try reflexivity.
  rewrite !plot_with_unfold.
  destruct (select_names_same_set (table_columns (strip_changepoints t)) value_col
              names names' Hs) as [[e [-> ->]]|[kept [w [w' [-> ->]]]]];
    [reflexivity|].
  cbn [bind fst snd].
  destruct (Nat.eqb (List.length kept) 0); [reflexivity|].
  destruct (draw_panels (strip_changepoints t) time_col 0 kept); reflexivity.
Qed.

Lemma select_pair (t : Table V) (time_col name : string) :
  NoDup (table_columns t) ->
  In time_col (table_columns t) -> In name (table_columns t) ->
  exists times values,
    lookup_col time_col t = Some times
    /\ lookup_col name t = Some values
    /\ select_cols t [time_col; name] = [(time_col, times); (name, values)].
Proof.
  intros Hnd Ht Hn.
  destruct (unique_label t time_col Hnd Ht) as [st [Hft Hlt]].
  destruct (unique_label t name Hnd Hn) as [sn [Hfn Hln]].
  exists st, sn. split; [assumption|]. split; [assumption|].
  unfold select_cols. simpl. now rewrite Hft, Hfn.
Qed.

(** What a panel of a returned figure was drawn from. *)
Lemma panel_source (t : Table V) (names : option (list string))
    (title : option string) (fig : Figure V) (warnings : list Warning)
    (p : Panel V) :
  plot t names title = Ok (fig, warnings) ->
  NoDup (table_columns t) ->
  In p (fig_panels fig) ->
  exists times values df,
    lookup_col (hd "" (table_columns t)) t = Some times
    /\ lookup_col (p_name p) t = Some values
    /\ (if str_contains "SEASONALITY" (p_name p)
        then regroup [(hd "" (table_columns t), times); (p_name p, values)]
        else Ok [(hd "" (table_columns t), times); (p_name p, values)]) = Ok df
    /\ table_columns df = [p_xlabel p; p_ylabel p]
    /\ p_x p = series_labelled (p_xlabel p) df
    /\ p_y p = series_labelled (p_ylabel p) df.
Proof.
  intros H Hnd Hin.
  destruct (plot_inv t names title fig warnings H)
    as [time_col [value_col [rest [kept [Ec [Es [Hne [Hp _]]]]]]]].
  destruct (render_panels_each _ _ _ _ _ _ Hp Hin) as [i [Hi Hk]].
  apply render_panel_inv in Hi.
  destruct Hi as [Ht [Hc [df [Hdf [Hcols [_ [_ [Hx Hy]]]]]]]].
  assert (Hnd' : NoDup (table_columns (strip_changepoints t))).
  { rewrite strip_changepoints_columns. now apply NoDup_filter. }
  destruct (select_pair _ _ _ Hnd' Ht Hc) as [times [values [Hlt [Hlv Hsel]]]].
  rewrite Hsel in Hdf.
  rewrite strip_changepoints_columns in Ht, Hc.
  apply filter_In in Ht. apply filter_In in Hc.
  rewrite strip_changepoints_lookup in Hlt, Hlv.
  - rewrite Ec. cbn [hd]. exists times, values, df. repeat split; assumption.
  - intros E. destruct Hc as [_ Hc]. rewrite E in Hc. discriminate.
  - intros E. destruct Ht as [_ Ht]. rewrite E in Ht. discriminate.
Qed.

(** X13: in a table with distinct column labels, the panel of a column whose
    name does not contain [SEASONALITY] plots that column against the time
    column of the table (its first column): the x axis is titled with the
    time column's label, the y axis with the column's own. *)
Theorem plain_panel_plots_column_against_time (t : Table V)
    (names : option (list string)) (title : option string) (fig : Figure V)
    (warnings : list Warning) (p : Panel V) :
  plot t names title = Ok (fig, warnings) ->
  NoDup (table_columns t) ->
  In p (fig_panels fig) ->
  str_contains "SEASONALITY" (p_name p) = false ->
  p_name p <> hd "" (table_columns t) ->
  exists times values,
    lookup_col (hd "" (table_columns t)) t = Some times
    /\ lookup_col (p_name p) t = Some values
    /\ p_xlabel p = hd "" (table_columns t)
    /\ p_ylabel p = p_name p
    /\ p_x p = [times]
    /\ p_y p = [values].
Proof.
  intros H Hnd Hin Hs Hne.
  destruct (panel_source t names title fig warnings p H Hnd Hin)
    as [times [values [df [Hlt [Hlv [Hdf [Hcols [Hx Hy]]]]]]]].
  rewrite Hs in Hdf. inversion Hdf; subst df. clear Hdf.
  simpl in Hcols. inversion Hcols as [[Hxl Hyl]].
  exists times, values. split; [assumption|]. split; [assumption|].
  split; [reflexivity|]. split; [reflexivity|].
  rewrite Hx, Hy. unfold series_labelled. rewrite <- Hxl, <- Hyl. simpl.
  rewrite !String.eqb_refl.
  apply String.eqb_neq in Hne as Hne1.
  assert (Hne2 : String.eqb (hd "" (table_columns t)) (p_name p) = false).
  { apply String.eqb_neq. congruence. }
  rewrite Hne1, Hne2. split; reflexivity.
Qed.

(** X14: in a table with distinct column labels, the panel of a column whose
    name contains [SEASONALITY] plots the regrouped column: the name is a
    member of the components enumeration, the column is numeric, the x axis
    is titled with the member's [xlabel] and, when the member's [ylabel]
    differs from its time feature, the y axis with its [ylabel]; the traces
    are the columns of that name in the frame that
    [group_silverkite_seas_components] returns. *)
Theorem seasonal_panel_plots_regrouped_column (t : Table V)
    (names : option (list string)) (title : option string) (fig : Figure V)
    (warnings : list Warning) (p : Panel V) :
  plot t names title = Ok (fig, warnings) ->
  NoDup (table_columns t) ->
  In p (fig_panels fig) ->
  str_contains "SEASONALITY" (p_name p) = true ->
  exists member times vs grouped,
    enum_lookup components_enum (p_name p) = Some member
    /\ lookup_col (hd "" (table_columns t)) t = Some times
    /\ lookup_col (p_name p) t = Some (NumS vs)
    /\ regroup [(hd "" (table_columns t), times); (p_name p, NumS vs)] = Ok grouped
    /\ p_xlabel p = xlabel member
    /\ (ylabel member <> groupby_time_feature member -> p_ylabel p = ylabel member)
    /\ p_x p = series_labelled (p_xlabel p) grouped
    /\ p_y p = series_labelled (p_ylabel p) grouped.
Proof.
  intros H Hnd Hin Hs.
  destruct (panel_source t names title fig warnings p H Hnd Hin)
    as [times [values [df [Hlt [Hlv [Hdf [Hcols [Hx Hy]]]]]]]].
  rewrite Hs in Hdf. pose proof Hdf as Hg.
  unfold group_silverkite_seas_components in Hdf.
  destruct (enum_lookup components_enum (p_name p)) as [member|] eqn:Em;
    [|discriminate].
  destruct values as [ts|vs|ns]; try discriminate.
  exists member, times, vs, df.
  split; [reflexivity|]. split; [assumption|]. split; [assumption|].
  split; [assumption|].
  assert (Hcols' : table_columns df
                   = [xlabel member;
                      if String.eqb (ylabel member) (groupby_time_feature member)
                      then xlabel member else ylabel member]).
  { injection Hdf as <-. unfold rename_col. simpl. rewrite String.eqb_refl.
    destruct (String.eqb (ylabel member) (groupby_time_feature member)); reflexivity. }
  rewrite Hcols' in Hcols. injection Hcols as Hxl Hyl.
  split; [now symmetry|]. split; [|split; assumption].
  intros Hne. apply String.eqb_neq in Hne. rewrite Hne in Hyl. now symmetry.
Qed.

Lemma render_panels_app_raise (t : Table V) (time_col : string)
    (before : list string) (bad : string) (later : list string) (e : Error) :
  forall (ind : nat) (ps : list (Panel V)),
  draw_panels t time_col ind before = Ok ps ->
  draw_panel t time_col (ind + List.length before) bad = Raise e ->
  draw_panels t time_col ind (before ++ bad :: later) = Raise e.
Proof.
  induction before as [|name before IH]; intros ind ps Hps Hbad; simpl in *.
  - rewrite Nat.add_0_r in Hbad. now rewrite Hbad.
  - destruct (draw_panel t time_col ind name) as [p|e'] eqn:Ep; [|discriminate].
    cbn [bind] in *.
    destruct (draw_panels t time_col (S ind) before) as [ps'|e'] eqn:Eps;
      [|discriminate].
    rewrite (IH (S ind) ps' Eps); [reflexivity|].
    now replace (S ind + List.length before) with (ind + S (List.length before)) by lia.
Qed.

(** X15: with [names=None], a column whose name contains [SEASONALITY] but
    is not a member of the components enumeration makes the call raise
    [KeyError] with that name, provided the columns drawn before it can be
    drawn. *)
Theorem unknown_seasonality_column_raises_KeyError (t : Table V)
    (title : option string) (time_col value_col : string)
    (rest before later : list string) (bad : string) :
  table_columns t = time_col :: value_col :: rest ->
  NoDup (table_columns t) ->
  time_col <> "trend_changepoints" ->
  value_col :: rest = before ++ bad :: later ->
  (forall name, In name before -> renderable components_enum t name) ->
  bad <> "trend_changepoints" ->
  str_contains "SEASONALITY" bad = true ->
  enum_lookup components_enum bad = None ->
  plot t None title = Raise (KeyError bad).
Proof.
  intros Ec Hnd Htc Hsplit Hren Hbad Hs He.
  unfold plot_silverkite_components. rewrite Ec. cbn [firstn].
  rewrite plot_with_unfold, strip_changepoints_columns, Ec.
  apply String.eqb_neq in Htc as Htc'. apply String.eqb_neq in Hbad as Hbad'.
  set (noncp := fun c : string => negb (is_changepoints c)).
  assert (H1 : filter noncp [time_col] = [time_col]).
  { simpl. destruct (noncp time_col) eqn:E; [reflexivity|].
    unfold noncp, is_changepoints in E. rewrite Htc' in E. discriminate. }
  assert (H2 : filter noncp (bad :: later) = bad :: filter noncp later).
  { simpl. destruct (noncp bad) eqn:E; [reflexivity|].
    unfold noncp, is_changepoints in E. rewrite Hbad' in E. discriminate. }
  assert (Hk : filter noncp (time_col :: value_col :: rest)
               = time_col :: (filter noncp before ++ bad :: filter noncp later)).
  { change (time_col :: value_col :: rest) with ([time_col] ++ (value_col :: rest)).
    rewrite filter_app, H1, Hsplit, filter_app, H2. reflexivity. }
  rewrite Hk. unfold select_names. cbn [tl bind fst snd].
  assert (Hlen : Nat.eqb (List.length (filter noncp before ++ bad :: filter noncp later)) 0
                 = false).
  { rewrite length_app. simpl. apply Nat.eqb_neq. lia. }
  rewrite Hlen.
  assert (Hnd' : NoDup (table_columns (strip_changepoints t))).
  { rewrite strip_changepoints_columns. now apply NoDup_filter. }
  assert (Hin : forall n, In n (value_col :: rest) -> n <> "trend_changepoints" ->
                          In n (table_columns (strip_changepoints t))).
  { intros n Hn Hne. rewrite strip_changepoints_columns, Ec. apply filter_In.
    split; [now right|]. unfold is_changepoints.
    apply String.eqb_neq in Hne. now rewrite Hne. }
  assert (Ht : In time_col (table_columns (strip_changepoints t))).
  { rewrite strip_changepoints_columns, Ec. apply filter_In.
    split; [now left|]. unfold is_changepoints. now rewrite Htc'. }
  destruct (render_panels_ok components_enum time_feature num_to_datetime
              (strip_changepoints t) time_col (filter noncp before) Hnd' Ht) with (ind := 0)
    as [ps [Hps _]].
  { intros name Hn. apply filter_In in Hn. destruct Hn as [Hn Hcp].
    assert (Hne : name <> "trend_changepoints").
    { intros E. unfold noncp, is_changepoints in Hcp. rewrite E in Hcp. discriminate. }
    split.
    - apply Hin; [|assumption]. rewrite Hsplit. apply in_or_app. now left.
    - apply strip_changepoints_renderable; [assumption | now apply Hren]. }
  erewrite render_panels_app_raise; [reflexivity | exact Hps |].
  assert (Hb : In bad (table_columns (strip_changepoints t))).
  { apply Hin; [|assumption]. rewrite Hsplit. apply in_or_app. right. now left. }
  destruct (select_pair _ _ _ Hnd' Ht Hb) as [times [values [_ [_ Hsel]]]].
  unfold render_panel, getitem_cols. cbn [filter].
  apply mem_In in Ht. apply mem_In in Hb. rewrite Ht, Hb. cbn [negb bind].
  rewrite Hsel, Hs. unfold group_silverkite_seas_components. rewrite He.
  reflexivity.
Qed.

End PlotShape.

(** * Further properties of [plot_components] *)

Section DiagnosticsState.

Context {V : Type} {A : Arith V}.

Variable re_search : string -> string -> bool.
Variables TREND_REGEX SEASONALITY_REGEX LAG_REGEX EVENT_REGEX : string.
Variable components_enum : list (string * SilverkiteComponent).
Variable get_trend_changepoint_dates_from_cols : list string -> list Z.
Variable time_feature : string -> Z -> Z.
Variable num_to_datetime : V -> Z.

Local Abbreviation decompose :=
  (get_silverkite_components re_search TREND_REGEX SEASONALITY_REGEX LAG_REGEX
     EVENT_REGEX components_enum get_trend_changepoint_dates_from_cols
     num_to_datetime).
Local Abbreviation plot :=
  (plot_silverkite_components components_enum time_feature num_to_datetime).
Local Abbreviation plot_model :=
  (plot_components re_search TREND_REGEX SEASONALITY_REGEX LAG_REGEX EVENT_REGEX
     components_enum get_trend_changepoint_dates_from_cols time_feature
     num_to_datetime).

(** Closes a branch in which the call raises and the object is returned as
    it was. *)
Local Ltac unchanged :=
  split; [first [reflexivity | now symmetry]|];
  split; [first [reflexivity | now symmetry]|];
  left; split; [reflexivity | eexists; reflexivity].

(** X17: what [plot_components] does to the object.  [time_col] and
    [value_col] are never changed.  Either the call raises before a
    decomposition exists and [components] keeps its old value, or
    [components] is replaced by the decomposition of [df_dropna] against the
    weighted feature matrix and the result of the call, figure or error, is
    that of plotting exactly this table: [components] is updated even when
    the plot then raises. *)
Theorem plot_components_stores_the_table_it_plots (self : SilverkiteDiagnostics V)
    (model_dict : option (ModelDict V)) (names : option (list string))
    (title : option string) :
  let out := plot_model self model_dict names title in
  self_time_col (snd out) = self_time_col self
  /\ self_value_col (snd out) = self_value_col self
  /\ ((self_components (snd out) = self_components self
       /\ exists e, fst out = Raise e)
      \/ (exists model time_col value_col coef weighted components,
            model_dict = Some model
            /\ self_time_col self = Some time_col
            /\ self_value_col self = Some value_col
            /\ coef_ (ml_model model) = Some coef
            /\ weighted_feature_matrix (x_mat model) coef (intercept_ (ml_model model))
               = Ok weighted
            /\ decompose (df_dropna model) time_col value_col (Some weighted)
               = Ok components
            /\ self_components (snd out) = Some components
            /\ fst out = plot components names title)).
Proof.
  unfold plot_components.
  destruct model_dict as [model|]; cbn zeta;
    [|cbn [fst snd]; unchanged].
  destruct (coef_ (ml_model model)) as [coef|] eqn:Ec;
    [|cbn [fst snd]; unchanged].
  destruct (weighted_feature_matrix (x_mat model) coef (intercept_ (ml_model model)))
    as [weighted|e] eqn:Ew; cbn [bind]; [|cbn [fst snd]; unchanged].
  destruct (self_time_col self) as [time_col|] eqn:Et;
    [|cbn [fst snd]; unchanged].
  destruct (self_value_col self) as [value_col|] eqn:Ev;
    [|cbn [fst snd]; unchanged].
  destruct (decompose (df_dropna model) time_col value_col (Some weighted))
    as [components|e] eqn:Ed; cbn [fst snd]; [|unchanged].
  cbn [self_time_col self_value_col self_components].
  split; [reflexivity|]. split; [reflexivity|]. right.
  exists model, time_col, value_col, coef, weighted, components.
  repeat split; assumption || reflexivity.
Qed.

End DiagnosticsState.

(** * The further properties at the concrete configuration *)

Module MoreExampleFacts.

Import Example.
Import MoreExample.

Lemma labels_distinct : NoDup (all_labels components_enum "ts" "y").
Proof.
  unfold all_labels, enum_keys. simpl.
  repeat constructor; simpl; intuition discriminate.
Qed.

Lemma exact_dataset_well_formed : wf_dataset df_exact.
Proof. split; reflexivity. Qed.

Lemma exact_frame_well_formed : wf_frame feature_df_exact.
Proof. unfold wf_frame. simpl. repeat constructor. Qed.

Lemma exact_columns_classified_once :
  classified_once re_search TREND_REGEX SEASONALITY_REGEX LAG_REGEX EVENT_REGEX
                  components_enum "y" feature_df_exact.
Proof.
  intros c Hc. simpl in Hc.
  repeat (destruct Hc as [<-|Hc]; [cbn [fst]; vm_compute; reflexivity|]).
  contradiction.
Qed.

Lemma custom_columns_distinct : NoDup (table_columns custom_components).
Proof. simpl. repeat constructor; simpl; intuition discriminate. Qed.

(** X1, at the exact example with changepoint dates. *)
Lemma decomposition_column_order_witness :
  exists components,
    decompose_with_dates df_exact "ts" "y" (Some feature_df_exact) = Ok components
    /\ table_columns components
       = ["ts"; "y"; "trend"; "autoregression"; "lagged_regressor";
          "DAILY_SEASONALITY"; "events"; "residual"; "trend_changepoints"].
Proof.
  exact (decomposition_column_order re_search TREND_REGEX SEASONALITY_REGEX LAG_REGEX
           EVENT_REGEX components_enum changepoint_dates num_to_datetime
           df_exact "ts" "y" feature_df_exact labels_distinct eq_refl eq_refl).
Defined.

(** X2, at the exact example. *)
Lemma time_and_value_are_carried_over_witness :
  exists components,
    decompose_with_dates df_exact "ts" "y" (Some feature_df_exact) = Ok components
    /\ lookup_col "ts" components = Some (TimeS [0; 24; 48; 72; 96]%Z)
    /\ lookup_col "y" components
       = Some (NumS [qc 10 1; qc 12 1; qc 9 1; qc 15 1; qc 11 1]).
Proof.
  exact (time_and_value_are_carried_over re_search TREND_REGEX SEASONALITY_REGEX
           LAG_REGEX EVENT_REGEX components_enum changepoint_dates num_to_datetime
           df_exact "ts" "y" feature_df_exact labels_distinct eq_refl eq_refl).
Defined.

(** X3, at the exact example: the dates 24 and 72 are the second and the
    fourth timestamp. *)
Lemma changepoints_column_is_last_witness :
  exists components rest,
    decompose_with_dates df_exact "ts" "y" (Some feature_df_exact) = Ok components
    /\ components = rest ++ [("trend_changepoints", IntS [0; 1; 0; 1; 0]%Z)]
    /\ ~ In "trend_changepoints" (table_columns rest).
Proof.
  destruct (changepoints_column_is_last re_search TREND_REGEX SEASONALITY_REGEX
              LAG_REGEX EVENT_REGEX components_enum changepoint_dates num_to_datetime
              df_exact "ts" "y" feature_df_exact labels_distinct eq_refl eq_refl)
    as [components [H1 [H2 _]]].
  destruct H2 as [rest [H3 H4]].
  - intros H. vm_compute in H. discriminate.
  - exists components, rest. split; [exact H1|]. split; [exact H3 | exact H4].
Defined.



(** X6, at the exact example: every column has five rows. *)
Lemma components_have_as_many_rows_as_df_witness :
  exists components,
    decompose_with_dates df_exact "ts" "y" (Some feature_df_exact) = Ok components
    /\ has_rows 5 components.
Proof.
  exact (components_have_as_many_rows_as_df re_search TREND_REGEX SEASONALITY_REGEX
           LAG_REGEX EVENT_REGEX components_enum changepoint_dates num_to_datetime
           df_exact "ts" "y" feature_df_exact
           exact_dataset_well_formed exact_frame_well_formed eq_refl eq_refl).
Defined.



(** X9, at the example table drawn in full. *)
Lemma figure_has_one_row_per_panel_witness :
  exists fig warnings,
    plot components None None = Ok (fig, warnings)
    /\ fig_panels fig <> []
    /\ fig_rows fig = List.length (fig_panels fig)
    /\ fig_height fig = 350 * List.length (fig_panels fig)
    /\ map p_row (fig_panels fig) = seq 1 (List.length (fig_panels fig))
    /\ fig_title fig = "Component plots".
Proof.
  destruct (plot components None None) as [[fig warnings]|e] eqn:E.
  - exists fig, warnings. split; [reflexivity|].
    exact (figure_has_one_row_per_panel components_enum time_feature num_to_datetime
             components None None fig warnings E).
  - vm_compute in E. discriminate.
Defined.

(** X10, at the example table with [trend] requested. *)
Lemma panels_are_requested_columns_witness :
  exists fig warnings,
    plot components (Some ["trend"]) None = Ok (fig, warnings)
    /\ forall p, In p (fig_panels fig) ->
         In (p_name p) (table_columns components)
         /\ p_name p <> "trend_changepoints"
         /\ forall requested, Some ["trend"] = Some requested ->
              In (p_name p) requested
              \/ nth_error (table_columns components) 1 = Some (p_name p).
Proof.
  destruct (plot components (Some ["trend"]) None) as [[fig warnings]|e] eqn:E.
  - exists fig, warnings. split; [reflexivity|].
    exact (panels_are_requested_columns components_enum time_feature num_to_datetime
             components (Some ["trend"]) None fig warnings E).
  - vm_compute in E. discriminate.
Defined.

(** X11, at the example table: one changepoint, at time 24, on the trend
    panel. *)
Lemma changepoints_are_marked_on_the_trend_panel_witness :
  exists fig warnings,
    plot components None None = Ok (fig, warnings)
    /\ map m_x (fig_markers fig)
       = (if mem "trend_changepoints" (table_columns components)
             && mem "trend" (map p_name (fig_panels fig))
          then changepoint_cells components "ts"
          else [])
    /\ (forall m, In m (fig_markers fig) ->
          exists p, In p (fig_panels fig) /\ p_name p = "trend" /\ p_row p = m_row m)
    /\ map m_showlegend (fig_markers fig)
       = match fig_markers fig with
         | [] => []
         | _ :: later => true :: map (fun _ => false) later
         end.
Proof.
  destruct (plot components None None) as [[fig warnings]|e] eqn:E.
  - exists fig, warnings. split; [reflexivity|].
    exact (changepoints_are_marked_on_the_trend_panel components_enum time_feature
             num_to_datetime components None None fig warnings E).
  - vm_compute in E. discriminate.
Defined.

(** X12, at the example table: the order and the repetition of the names do
    not matter. *)
Lemma figure_depends_on_the_set_of_names_witness :
  figure_of (plot components (Some ["trend"; "residual"]) None)
  = figure_of (plot components (Some ["residual"; "trend"; "trend"]) None).
Proof.
  apply (figure_depends_on_the_set_of_names components_enum time_feature
           num_to_datetime components ["trend"; "residual"]
           ["residual"; "trend"; "trend"] None).
  intros n. simpl. tauto.
Defined.

(** The panel of a name in a figure. *)
Definition panel_named {V : Type} (name : string) (fig : Figure V) : list (Panel V) :=
  filter (fun p => String.eqb (p_name p) name) (fig_panels fig).

(** X13, at the example table: the [trend] panel plots [trend] against
    [ts]. *)
Lemma plain_panel_plots_column_against_time_witness :
  exists fig warnings p,
    plot components None None = Ok (fig, warnings)
    /\ In p (fig_panels fig)
    /\ p_name p = "trend"
    /\ p_xlabel p = "ts"
    /\ p_ylabel p = "trend"
    /\ p_x p = [TimeS [0; 24; 48]%Z]
    /\ p_y p = [NumS [1; 1; 1]%float].
Proof.
  destruct (plot components None None) as [[fig warnings]|e] eqn:E;
    [|vm_compute in E; discriminate].
  destruct (panel_named "trend" fig) as [|p l] eqn:Ep.
  - exfalso. unfold panel_named in Ep. pose proof E as E'. vm_compute in E'.
    injection E' as Hf _. rewrite <- Hf in Ep. vm_compute in Ep. discriminate.
  - assert (Hin : In p (panel_named "trend" fig)) by (rewrite Ep; now left).
    unfold panel_named in Hin. apply filter_In in Hin. destruct Hin as [Hin Hn].
    apply String.eqb_eq in Hn.
    destruct (plain_panel_plots_column_against_time components_enum time_feature
                num_to_datetime components None None fig warnings p E
                ExampleFacts.components_columns_distinct Hin)
      as [times [values [H1 [H2 [H3 [H4 [H5 H6]]]]]]].
    + rewrite Hn. reflexivity.
    + rewrite Hn. discriminate.
    + rewrite Hn in H2, H4.
      injection H1 as <-. injection H2 as <-.
      exists fig, warnings, p. split; [reflexivity|]. split; [exact Hin|].
      split; [exact Hn|]. split; [exact H3|]. split; [exact H4|].
      split; [exact H5 | exact H6].
Defined.

(** X14, at the example table: the [DAILY_SEASONALITY] panel plots the
    regrouped column, titled by the daily member of the enumeration. *)
Lemma seasonal_panel_plots_regrouped_column_witness :
  exists fig warnings p grouped,
    plot components None None = Ok (fig, warnings)
    /\ In p (fig_panels fig)
    /\ p_name p = "DAILY_SEASONALITY"
    /\ regroup [("ts", TimeS [0; 24; 48]%Z);
                ("DAILY_SEASONALITY", NumS [0.5; -0.5; 0.5]%float)] = Ok grouped
    /\ p_xlabel p = "Hour of day"
    /\ p_ylabel p = "daily"
    /\ p_x p = series_labelled "Hour of day" grouped
    /\ p_y p = series_labelled "daily" grouped.
Proof.
  destruct (plot components None None) as [[fig warnings]|e] eqn:E;
    [|vm_compute in E; discriminate].
  destruct (panel_named "DAILY_SEASONALITY" fig) as [|p l] eqn:Ep.
  - exfalso. unfold panel_named in Ep. pose proof E as E'. vm_compute in E'.
    injection E' as Hf _. rewrite <- Hf in Ep. vm_compute in Ep. discriminate.
  - assert (Hin : In p (panel_named "DAILY_SEASONALITY" fig)) by (rewrite Ep; now left).
    unfold panel_named in Hin. apply filter_In in Hin. destruct Hin as [Hin Hn].
    apply String.eqb_eq in Hn.
    destruct (seasonal_panel_plots_regrouped_column components_enum time_feature
                num_to_datetime components None None fig warnings p E
                ExampleFacts.components_columns_distinct Hin)
      as [member [times [vs [grouped [H1 [H2 [H3 [H4 [H5 [H6 [H7 H8]]]]]]]]]]].
    + rewrite Hn. reflexivity.
    + rewrite Hn in H1, H3, H4.
      injection H1 as <-. injection H2 as <-. injection H3 as <-.
      change (p_xlabel p = "Hour of day") in H5. rewrite H5 in H7.
      assert (H9 : p_ylabel p = "daily") by (apply H6; discriminate).
      rewrite H9 in H8.
      exists fig, warnings, p, grouped. split; [reflexivity|]. split; [exact Hin|].
      split; [exact Hn|]. split; [exact H4|]. split; [exact H5|]. split; [exact H9|].
      split; [exact H7 | exact H8].
Defined.

(** X15, at a table with the unknown column [HOURLY_SEASONALITY]. *)
Lemma unknown_seasonality_column_raises_KeyError_witness :
  plot custom_components None None = Raise (KeyError "HOURLY_SEASONALITY").
Proof.
  apply (unknown_seasonality_column_raises_KeyError components_enum time_feature
           num_to_datetime custom_components None "ts" "y"
           ["trend"; "HOURLY_SEASONALITY"; "residual"] ["y"; "trend"]
           ["residual"] "HOURLY_SEASONALITY").
  - reflexivity.
  - exact custom_columns_distinct.
  - discriminate.
  - reflexivity.
  - intros name Hin Hs. simpl in Hin.
    destruct Hin as [<-|[<-|[]]]; vm_compute in Hs; discriminate.
  - discriminate.
  - reflexivity.
  - reflexivity.
Defined.

(** X16, at the end-to-end example with changepoint dates: the plot marks
    the timestamps 24 and 72. *)
Lemma plotted_changepoints_are_the_dates_in_df_witness :
  exists components,
    decompose_with_dates df "ts" "y" (Some feature_df) = Ok components
    /\ changepoint_cells components "ts" = [CTime 24%Z; CTime 72%Z].
Proof.
  exact (plotted_changepoints_are_the_dates_in_df re_search TREND_REGEX
           SEASONALITY_REGEX LAG_REGEX EVENT_REGEX components_enum changepoint_dates
           num_to_datetime df "ts" "y" feature_df labels_distinct eq_refl eq_refl).
Defined.

End MoreExampleFacts.
